(* ===== verification/_CoqProject ===== *)
-Q . S2P
Prelude.v
RustStr.v
Crc.v
Tags.v
Tlv.v
Accounts.v
Templates.v
Currency.v
Bakong.v
Decoder.v
