(* ===== verification/Prelude.v ===== *)
(** * A verification development of KHQR_SDK (src/src/models/*.rs)

    KHQR_SDK encodes and decodes Bakong KHQR payment payloads: an EMVCo
    Tag-Length-Value (TLV) text format [CC LL V...] where [CC] is a
    two-digit field code, [LL] the two-digit byte length of [V], and
    some values are themselves TLV runs (containers).  The entry points
    are [Bakong::decode_qr] (string -> payload) and [Bakong::generate_qr]
    (payload -> string, with a CRC16 trailer), both in [bakong.rs].

    ** How the program is built and how this library follows it

    The program's parts, leaves first, and the file that models each:

    - [Prelude.v] (this file): Rust's [Result<T, E>] as [result], the
      [std::io::Error] values of the program as [Error] (kind and
      message text; [Panic] for a slice-index panic of [&str]), a
      match-based bind notation in [result_scope], the hint databases
      [khqr], [khqr_rw], [errkind] (the kinds of error a call can end
      in) and [nofuel], the tactics, and string lemmas.
    - [RustStr.v]: the [&str] operations the sources use, on byte
      strings ([String.string]): [len], [s[a..b]] with its char-boundary
      panics, [parse::<u8/usize/u32/i64>], [format!("{}")], ["{:02}"],
      ["{:04X}"], [chars().all(..)], [matches('@').count()], and the
      [write_tlv!] macro of [helper.rs].
    - [Crc.v]: [crc.rs]: [generate_crc16_table] and [crc16_ccitt] on
      16-bit values kept as [Z] with the [u16] wrap-around written out.
    - [Tags.v]: [tag.rs] and [sub_tag.rs]: the [Tags] and [SubTags]
      enums with [code], [from_code], [max_length], [validate_length].
    - [Tlv.v]: the sub-tag scan loop that every nested [from_string]
      repeats (one generic [scan] parameterised by the container's
      messages and field setter), the emit side, and the [TLV] trait of
      the crate (its [to_tlv(&self, temp, buffer)] threads the shared
      scratch buffer [temp]).
    - [Accounts.v]: [indivual_information.rs], [merchant_information.rs],
      [merchant_type.rs].
    - [Currency.v]: [transaction_currency.rs], [point_of_initial_method.rs];
      the [f32] of USD amounts is a collaborator class [F32] (parse,
      [{:.2}] formatting, the [< 0.1] test) since [core]'s float code is
      not part of the repository.
    - [Templates.v]: [additional_data_template.rs],
      [additional_data_field.rs] (timestamps as millisecond [Z], the
      clock [Utc::now()] an explicit [now] argument),
      [merchant_information_language_template.rs].
    - [Bakong.v]: [bakong.rs]: the [Bakong] record, [decode_qr] as an
      explicit loop over a record of the decoder's mutable locals, and
      [generate_qr] as state passing of the pair (qr_code, temp_value).
      [MerchantCity] and [CountryCode] are referenced by the sources but
      not present under src/: they are the class [CityModel] and the
      constant ["KH"], modelled from the spec.
    - [Decoder.v]: what [decode_qr] does, proved on the model of
      [Bakong.v]: the loop over the fragments [generate_qr] writes, the
      loop invariants, termination, the kinds of error it returns and
      the findings.

    The parts interact as in the code: [generate_qr] calls each
    component's [to_tlv] (through the [TLV] class) and [write_tlv]
    in a fixed order, then [crc16_ccitt]; [decode_qr] reads top-level
    fragments, hands each value to the component's [from_string]
    ([dispatch]), and assembles the payload ([resolve]).

    ** The theorems, by group

    - The payload round trip ([Decoder.decode_generate_roundtrip]):
      for a payload [encodable] accepts (every length within the
      validators' limits) with an individual account without acquiring
      bank, every top-level fragment under 100 bytes, an encoding of at
      most 256 bytes, an amount and a city that parse back and a
      timestamp window of whole milliseconds still open at the clock,
      [generate_qr] succeeds and [decode_qr] returns [decoded_form] of
      the payload (the form in which the decoder can represent it).
      [Bakong.generate_qr_spec] gives the exact text [generate_qr]
      writes: the fragments in the code's order and the CRC trailer;
      [Bakong.generate_qr_trailer] that every text it returns, for any
      payload, ends in a checksum field that verifies; and
      [Bakong.generate_qr_at_count] that it rejects an identifier
      without exactly one '@'.
    - The encoder's contract: [Bakong.generate_qr_ok_iff] says that
      [generate_qr] succeeds exactly when [writable] holds, the
      conjunction of every check the code makes (proved from one
      success lemma per component: [mt_to_tlv_checks] and
      [mt_to_tlv_valid], and the like for the templates and the
      amount).
    - The decoder's errors ([Decoder.decode_qr_error_kinds]): an input
      over 256 bytes gives the [InvalidInput] error; any other failure
      is an [InvalidData] validation error or a slice panic, never the
      loop running out of fuel (from one error lemma per component,
      [indiv_from_string_err], [data_template_from_string_err], ...,
      gathered in the hint database [errkind]).
    - Equivalence ([Crc.crc16_ccitt_equiv_bitwise]): the table-driven
      CRC equals a bitwise CRC16-CCITT written independently of the
      table code, with the polynomial 0x1021 of the specification
      ([crc_step_ref]); the check value of "123456789" is a test.
    - Invariants: every payload [decode_qr] returns has an individual
      account and a timestamp window that is open at the clock reading
      ([LoopInvariant] in [Decoder.v]); a decoded language template has
      three non-empty fields.
    - Round trips of each component: accounts, the three templates,
      the KHR amount, the currency code, the initiation method.
    - Termination: [decode_qr] never runs out of fuel.  Both entry
      points are terminating functions without a reactive loop, so
      termination is the liveness property there is to prove.
    - Errors and safety, each a finding of the model: merchant accounts
      never decode; an acquiring bank is written but not read back;
      unknown top-level tags are errors; the CRC is never checked; a
      template value of 1 to 3 bytes panics; a template of 100 bytes or
      more is written with a 3-digit length of which the decoder reads
      two digits ([Decoder.generate_long_template_misread]); an
      identifier without exactly one '@' is decoded but cannot be
      encoded again ([Decoder.decode_accepts_identifier_without_at]); a
      code ["+d"] is read as ["0d"] ([Decoder.decode_step_plus_code]);
      the dynamic branch of [PointOfInitialMethod::from_string] fails
      on every amount; the language template's encoder and decoder
      disagree; a declared length ending inside a multi-byte character
      panics ([decode_qr_split_char_panics]); up to three trailing
      bytes are dropped ([decode_qr_trailing_ignored]); top-level values
      are never length-checked ([decode_qr_unvalidated_name]); of two
      repeated plain fields the second silently wins
      ([decode_qr_last_plain_wins]); without an initiation method the
      payload is static KHR whatever currency it declares
      ([decode_qr_default_static], from the loop invariant that only
      that fragment sets [is_static]).

    ** Fuel
    Every loop of the program ([while !slice.is_empty()] in the nested
    decoders, [while slice.len() >= 4] in [decode_qr]) consumes at least
    4 bytes per iteration, so fuel [String.length s] is enough:
    [scan_fuel_enough] and [decode_qr_terminates] prove that the
    out-of-fuel result is never reached with it, and
    [decode_loop_fuel_irrelevant] that more fuel changes nothing.

    ** Not modelled
    Image rendering and transport are not in the sources.  [write!] into
    a [String] cannot fail, so the [map_err(ErrorKind::Other)] branches
    after [write!] are dead and omitted.  [chrono]'s clock is not code of
    the repository: [Utc::now()] is the explicit argument [now], and a
    [DateTime<Utc>] is its nanosecond count.  [core]'s [f32] parsing and
    formatting are the abstract class [F32]: no theorem depends on its
    rounding, and none states what a USD amount that is NaN becomes.
    The crate root, [models/mod.rs] and [tlv.rs] (the [TLV]
    trait) are referenced by the sources but are not in the
    repository's src/; the trait is the class [TLV], modelled from its
    uses.  Every function under src/ is modelled. *)

From Stdlib Require Import String Ascii ZArith List Lia Bool.
Import ListNotations.
Open Scope string_scope.

(** Rust's [Result<T, E>]. *)
Inductive result (A E : Type) : Type :=
| Ok (a : A)
| Err (e : E).
Arguments Ok {A E} a.
Arguments Err {A E} e.

(** [std::io::ErrorKind] as used by the crate. *)
Inductive ErrorKind : Set := InvalidData | InvalidInput | Other.

(** [std::io::Error::new(kind, msg)]; [Panic] is a Rust panic of the
    running call (an out-of-range or non-boundary [&str] slice);
    [OutOfFuel] is the exhausted-fuel result of a loop model, proved
    unreachable with the fuel the development passes. *)
Inductive Error : Type :=
| IoError (kind : ErrorKind) (msg : string)
| Panic (msg : string)
| OutOfFuel.

(** [std::io::Result<T>]. *)
Definition io_result (A : Type) : Type := result A Error.

Definition map_err {A E F} (f : E -> F) (r : result A E) : result A F :=
  match r with Ok a => Ok a | Err e => Err (f e) end.

(** [Option::ok_or_else]. *)
Definition ok_or {A E} (o : option A) (e : E) : result A E :=
  match o with Some a => Ok a | None => Err e end.

(** [.map_err(|msg| Error::new(ErrorKind::InvalidData, msg))]. *)
Definition invalid_data {A} (r : result A string) : io_result A :=
  map_err (IoError InvalidData) r.

(** A validation error: [Error::new(ErrorKind::InvalidData, msg)]. *)
Definition data_error (e : Error) : Prop := exists msg, e = IoError InvalidData msg.

Declare Scope result_scope.
Delimit Scope result_scope with result.

(** The [?] operator: bind that propagates [Err]. *)
Notation "x <- c1 ;; c2" :=
  (match c1 with Ok x => c2 | Err e => Err e end)
  (at level 60, c1 at next level, right associativity) : result_scope.
Notation "' pat <- c1 ;; c2" :=
  (match c1 with Ok pat => c2 | Err e => Err e end)
  (at level 60, pat pattern, c1 at next level, right associativity) : result_scope.
Notation "c1 ;; c2" :=
  (match c1 with Ok _ => c2 | Err e => Err e end)
  (at level 60, right associativity) : result_scope.

Open Scope result_scope.

Create HintDb khqr discriminated.
Create Rewrite HintDb khqr_rw.

(** ** Generic lemmas on results *)

Lemma bind_ok {A B E} (c : result A E) (k : A -> result B E) v :
  (x <- c ;; k x) = Ok v <-> exists x, c = Ok x /\ k x = Ok v.
Proof.
  split.
  - destruct c as [x|e]; [eauto | discriminate].
  - intros (x & -> & H). exact H.
Qed.

Lemma bind_err {A B E} (c : result A E) (k : A -> result B E) e :
  c = Err e -> (x <- c ;; k x) = Err e.
Proof. intros ->. reflexivity. Qed.

Lemma ok_or_ok {A E} (o : option A) (e : E) a : ok_or o e = Ok a <-> o = Some a.
Proof. destruct o; simpl; split; congruence. Qed.

Lemma invalid_data_ok {A} (r : result A string) a : invalid_data r = Ok a <-> r = Ok a.
Proof. destruct r; simpl; split; congruence. Qed.

(** Invert the binds of a hypothesis [match c with Ok x => _ | Err e => Err e end = Ok v]. *)
Ltac res_inv :=
  repeat match goal with
  | H : (match ?c with Ok _ => _ | Err _ => _ end) = Ok _ |- _ =>
      let E := fresh "E" in destruct c eqn:E; [|discriminate H]
  | H : Ok _ = Ok _ |- _ => injection H as H
  | H : Err _ = Ok _ |- _ => discriminate H
  | H : ok_or _ _ = Ok _ |- _ => apply ok_or_ok in H
  | H : invalid_data _ = Ok _ |- _ => apply invalid_data_ok in H
  end.

Ltac inv H := inversion H; subst; clear H.

(** Invert a successful call down to its guards: binds, option and
    boolean matches, pair patterns. *)
Ltac ok_inv :=
  repeat match goal with
  | H : _ = Ok _ |- _ => progress cbv beta iota zeta in H
  | H : (match ?c with Ok _ => _ | Err _ => _ end) = Ok _ |- _ =>
      let E := fresh "E" in destruct c eqn:E; [|discriminate H]
  | H : (match ?o with Some _ => _ | None => _ end) = Ok _ |- _ => destruct o
  | H : (if ?c then _ else _) = Ok _ |- _ => let E := fresh "E" in destruct c eqn:E
  | H : (let '(_, _) := ?p in _) = Ok _ |- _ => destruct p
  | H : Ok _ = Ok _ |- _ => injection H as H
  | H : Err _ = Ok _ |- _ => discriminate H
  | H : invalid_data _ = Ok _ |- _ => apply invalid_data_ok in H
  end.

(** Split a boolean conjunction hypothesis, and close a boolean goal
    with the facts in the context. *)
Ltac bool_split H :=
  repeat rewrite andb_true_iff in H;
  repeat match goal with
  | H : _ /\ _ |- _ => destruct H
  | H : negb _ = true |- _ => apply negb_true_iff in H
  | H : negb _ = false |- _ => apply negb_false_iff in H
  end.

Ltac rewrite_facts :=
  repeat match goal with
  | H : negb _ = true |- _ => apply negb_true_iff in H
  | H : negb _ = false |- _ => apply negb_false_iff in H
  end;
  repeat match goal with
  | H : ?x = true |- context [?x] => rewrite H
  | H : ?x = false |- context [?x] => rewrite H
  | H : ?x = Ok _ |- context [?x] => rewrite H
  end.

Ltac bool_close := rewrite_facts; reflexivity.

Lemma data_error_lit msg : data_error (IoError InvalidData msg).
Proof. now exists msg. Qed.

Lemma invalid_data_err {A} (r : result A string) e : invalid_data r = Err e -> data_error e.
Proof. destruct r; cbn; intros H; [discriminate | injection H as <-; apply data_error_lit]. Qed.

Create HintDb errkind.
#[export] Hint Resolve data_error_lit invalid_data_err : errkind.

(** Split a hypothesis [c = Err e] along every match of [c], down to the
    call that failed; then [errkind] closes each branch. *)
Ltac err_inv :=
  repeat match goal with
  | H : _ = Err _ |- _ => progress cbv beta iota zeta in H
  | H : (match ?c with _ => _ end) = Err _ |- _ => let E := fresh "E" in destruct c eqn:E
  | H : Ok _ = Err _ |- _ => discriminate H
  | H : Err _ = Err _ |- _ => injection H as H; subst
  end.

(** ** Generic lemmas on byte strings *)

Lemma string_app_nil_r (s : string) : s ++ "" = s.
Proof. induction s as [|c s IH]; simpl; [reflexivity | now rewrite IH]. Qed.

Lemma string_app_assoc (a b c : string) : (a ++ b) ++ c = a ++ (b ++ c).
Proof. induction a as [|x a IH]; simpl; [reflexivity | now rewrite IH]. Qed.

Lemma string_length_app (a b : string) :
  String.length (a ++ b) = String.length a + String.length b.
Proof. induction a as [|x a IH]; simpl; [reflexivity | now rewrite IH]. Qed.

Lemma string_app_inv_l (p a b : string) : p ++ a = p ++ b -> a = b.
Proof. induction p as [|x p IH]; simpl; [auto | intros H; injection H; auto]. Qed.

#[export] Hint Rewrite string_app_nil_r string_app_assoc string_length_app : khqr_rw.
#[export] Hint Resolve string_app_inv_l : khqr.
