(* ===== verification/RustStr.v ===== *)
(** * The [&str] operations the sources call, on byte strings

    A Rust [&str] is a UTF-8 byte string; here it is a [String.string]
    whose [ascii] characters are its bytes, so [String.length] is
    [str::len].  Indexing [s[a..b]] panics when an end is out of range
    or not on a char boundary ([str::is_char_boundary]); this file
    makes the panic a [Panic] error.  Byte-level [chars().all(p)] for
    [p] = [is_ascii_digit] / [is_ascii_alphabetic] agrees with the
    char-level test on valid UTF-8 (bytes of a non-ASCII char are all
    >= 0x80, and such a char fails [p]); likewise [matches('@')]
    counts bytes 0x40, which never occur inside a multi-byte char.
    Integer parsing follows [core::num::from_str_radix] (radix 10: an
    optional leading ['+'], ['-'] only for signed types, at least one
    digit, overflow checked digit by digit) and formatting follows
    [format!] with ["{}"], ["{:02}"] and ["{:04X}"]. *)

From Stdlib Require Import String Ascii ZArith List Lia Bool.
From S2P Require Import Prelude.
Import ListNotations.
Open Scope string_scope.
Open Scope result_scope.
Open Scope Z_scope.

(** ** Bytes *)

Definition byte_val (c : ascii) : Z := Z.of_N (N_of_ascii c).

Definition byte_of (z : Z) : ascii := ascii_of_N (Z.to_N z).

(** ** Slicing *)

Fixpoint str_drop (n : nat) (s : string) : string :=
  match n, s with
  | O, _ => s
  | S n', String _ s' => str_drop n' s'
  | S _, EmptyString => EmptyString
  end.

Fixpoint str_take (n : nat) (s : string) : string :=
  match n, s with
  | O, _ => EmptyString
  | S n', String c s' => String c (str_take n' s')
  | S _, EmptyString => EmptyString
  end.

(** A UTF-8 continuation byte [0b10xx_xxxx]. *)
Definition is_utf8_cont (c : ascii) : bool := Z.land (byte_val c) 0xC0 =? 0x80.

(** [str::is_char_boundary]. *)
Definition is_char_boundary (s : string) (i : nat) : bool :=
  match i with
  | O => true
  | _ =>
      match String.get i s with
      | Some c => negb (is_utf8_cont c)
      | None => Nat.eqb i (String.length s)
      end
  end.

Definition slice_panic : Error := Panic "byte index out of bounds or not a char boundary".

(** The failures a decoding loop can end in: a validation error, a
    slice panic, or (for the fuelled model only) the exhausted fuel. *)
Definition decode_error (e : Error) : Prop :=
  data_error e \/ e = slice_panic \/ e = OutOfFuel.

(** [&s[a..b]]. *)
Definition str_slice (s : string) (a b : nat) : io_result string :=
  if Nat.leb a b && is_char_boundary s a && is_char_boundary s b
  then Ok (str_take (b - a) (str_drop a s))
  else Err slice_panic.

(** [&s[a..]]. *)
Definition str_slice_from (s : string) (a : nat) : io_result string :=
  if is_char_boundary s a then Ok (str_drop a s) else Err slice_panic.

(** ** Predicates on all bytes *)

Fixpoint str_all (p : ascii -> bool) (s : string) : bool :=
  match s with
  | EmptyString => true
  | String c s' => p c && str_all p s'
  end.

(** [char::is_ascii_digit]. *)
Definition is_ascii_digit (c : ascii) : bool :=
  (48 <=? byte_val c) && (byte_val c <=? 57).

(** [char::is_ascii_alphabetic]. *)
Definition is_ascii_alphabetic (c : ascii) : bool :=
  ((65 <=? byte_val c) && (byte_val c <=? 90)) || ((97 <=? byte_val c) && (byte_val c <=? 122)).

(** [s.matches(c).count()]. *)
Fixpoint count_char (a : ascii) (s : string) : nat :=
  match s with
  | EmptyString => O
  | String c s' => (if Ascii.eqb c a then 1 else 0) + count_char a s'
  end.

(** ** Integer parsing ([str::parse::<T>()]) *)

Definition digit_val (c : ascii) : option Z :=
  if is_ascii_digit c then Some (byte_val c - 48) else None.

(** The digit loop of [from_str_radix]: [acc * 10 + d] checked against
    the type's bound at every step. *)
Fixpoint parse_digits (max acc : Z) (s : string) : option Z :=
  match s with
  | EmptyString => Some acc
  | String c s' =>
      match digit_val c with
      | Some d =>
          let acc' := acc * 10 + d in
          if acc' <=? max then parse_digits max acc' s' else None
      | None => None
      end
  end.

(** [from_str_radix(s, 10)] for a type with range [[lo, hi]]; [signed]
    says whether a leading ['-'] is a sign. *)
Definition parse_int (signed : bool) (lo hi : Z) (s : string) : option Z :=
  match s with
  | EmptyString => None
  | String c rest =>
      if (Ascii.eqb c "+" || Ascii.eqb c "-") && String.eqb rest "" then None
      else if Ascii.eqb c "+" then parse_digits hi 0 rest
      else if signed && Ascii.eqb c "-" then option_map Z.opp (parse_digits (- lo) 0 rest)
      else parse_digits hi 0 s
  end.

Definition parse_u8 : string -> option Z := parse_int false 0 255.
Definition parse_usize : string -> option Z := parse_int false 0 (2 ^ 64 - 1).
Definition parse_u32 : string -> option Z := parse_int false 0 (2 ^ 32 - 1).
Definition parse_i64 : string -> option Z := parse_int true (- 2 ^ 63) (2 ^ 63 - 1).

(** ** Formatting *)

(** Digit [d] of radix up to 16, upper case ([{:X}]). *)
Definition radix_char (d : Z) : ascii :=
  if d <? 10 then byte_of (48 + d) else byte_of (55 + d).

(** The digits of [n >= 0] in [base], most significant first, prepended
    to [acc]; [fuel] bounds the number of digits. *)
Fixpoint fmt_digits (base : Z) (fuel : nat) (n : Z) (acc : string) : string :=
  match fuel with
  | O => acc
  | S f =>
      let acc' := String (radix_char (n mod base)) acc in
      if n <? base then acc' else fmt_digits base f (n / base) acc'
  end.

(** [format!("{}", n)] for an unsigned [n]. *)
Definition fmt_u (n : Z) : string := fmt_digits 10 (S (Z.to_nat (Z.log2 n))) n "".

(** [format!("{}", n)] for a signed [n]. *)
Definition fmt_i (n : Z) : string := if n <? 0 then "-" ++ fmt_u (- n) else fmt_u n.

Definition pad_left (c : ascii) (w : nat) (s : string) : string :=
  (fix rep k := match k with O => s | S k' => String c (rep k') end) (w - String.length s)%nat.

(** [format!("{:02}", n)] for an unsigned [n]. *)
Definition fmt_02 (n : Z) : string := pad_left "0" 2 (fmt_u n).

(** [format!("{:04X}", n)] for an unsigned [n]. *)
Definition fmt_04X (n : Z) : string :=
  pad_left "0" 4 (fmt_digits 16 (S (Z.to_nat (Z.log2 n))) n "").

(** [write_tlv!] of [helper.rs]:
    [write!(buffer, "{:02}{:02}{}", tag, value.len(), value)]. *)
Definition write_tlv (buffer : string) (tag : Z) (value : string) : string :=
  buffer ++ fmt_02 tag ++ fmt_02 (Z.of_nat (String.length value)) ++ value.

(** A string whose first byte is not a continuation byte: every valid
    UTF-8 string, and every string that starts a TLV header. *)
Definition starts_clean (s : string) : bool :=
  match s with EmptyString => true | String c _ => negb (is_utf8_cont c) end.

(** The facts checked for each two-digit number. *)
Definition two_digit_ok (n : Z) : bool :=
  (String.length (fmt_02 n) =? 2)%nat
  && str_all is_ascii_digit (fmt_02 n)
  && match parse_u8 (fmt_02 n) with Some m => m =? n | None => false end
  && match parse_usize (fmt_02 n) with Some m => m =? n | None => false end.

(** The facts checked for each three-digit number: ["{:02}"] writes
    its three digits, and a two-byte length field holding the first two
    of them reads back [n / 10]. *)
Definition three_digit_ok (n : Z) : bool :=
  match fmt_02 n with
  | String a (String b (String c EmptyString)) =>
      is_ascii_digit a && is_ascii_digit b && is_ascii_digit c &&
      match parse_usize (String a (String b EmptyString)) with Some m => m =? n / 10 | None => false end
  | _ => false
  end.

(** ** Lemmas on bytes *)

Lemma byte_val_range c : 0 <= byte_val c < 256.
Proof. unfold byte_val. pose proof (N_ascii_bounded c). lia. Qed.

Lemma byte_val_of z : 0 <= z < 256 -> byte_val (byte_of z) = z.
Proof.
  intros H. unfold byte_val, byte_of. rewrite N_ascii_embedding by lia. lia.
Qed.

(** ** Lemmas: slicing a concatenation *)

Lemma str_drop_app (a b : string) : str_drop (String.length a) (a ++ b) = b.
Proof. induction a; simpl; auto. Qed.

Lemma str_take_app (a b : string) : str_take (String.length a) (a ++ b) = a.
Proof. induction a; simpl; [reflexivity | now rewrite IHa]. Qed.

Lemma str_drop_app_le (n : nat) (a b : string) :
  (n <= String.length a)%nat -> str_drop n (a ++ b) = str_drop n a ++ b.
Proof.
  revert n; induction a as [|c a IH]; intros [|n] H; simpl in *; try lia; auto.
  apply IH; lia.
Qed.

Lemma string_get_app_r (i : nat) (a b : string) :
  String.get (String.length a + i) (a ++ b) = String.get i b.
Proof. induction a; simpl; auto. Qed.

Lemma string_get_none (i : nat) (s : string) :
  String.get i s = None <-> (String.length s <= i)%nat.
Proof.
  revert i; induction s as [|c s IH]; intros [|i]; simpl; split; intros; try lia; try discriminate; auto.
  - apply IH in H; lia.
  - apply IH; lia.
Qed.

Lemma string_get_app_len (a b : string) :
  String.get (String.length a) (a ++ b) = String.get 0 b.
Proof. induction a; simpl; auto. Qed.

Lemma char_boundary_app (a b : string) :
  a <> EmptyString -> is_char_boundary (a ++ b) (String.length a) = starts_clean b.
Proof.
  intros Ha. destruct a as [|c a]; [congruence|].
  unfold is_char_boundary. simpl String.length. cbn [String.get append].
  rewrite string_get_app_len.
  destruct b; simpl; [rewrite string_length_app; simpl; apply Nat.eqb_eq; lia | reflexivity].
Qed.

Lemma starts_clean_app (v rest : string) :
  starts_clean v = true -> starts_clean rest = true -> starts_clean (v ++ rest) = true.
Proof. destruct v; simpl; auto. Qed.

Lemma str_slice_app (p v rest : string) :
  p <> EmptyString -> starts_clean v = true -> starts_clean rest = true ->
  str_slice (p ++ v ++ rest) (String.length p) (String.length p + String.length v) = Ok v.
Proof.
  intros Hp Hcv Hcr. unfold str_slice.
  rewrite char_boundary_app, starts_clean_app by auto.
  replace (String.length p + String.length v)%nat with (String.length (p ++ v))
    by apply string_length_app.
  rewrite <- string_app_assoc, char_boundary_app, Hcr
    by (destruct p; [congruence | discriminate]).
  rewrite string_app_assoc, str_drop_app, string_length_app.
  replace (String.length p + String.length v - String.length p)%nat with (String.length v) by lia.
  rewrite (proj2 (Nat.leb_le _ _)) by lia. simpl. now rewrite str_take_app.
Qed.

Lemma str_slice_from_app (p rest : string) :
  p <> EmptyString -> starts_clean rest = true ->
  str_slice_from (p ++ rest) (String.length p) = Ok rest.
Proof.
  intros Hp Hr. unfold str_slice_from. rewrite char_boundary_app, Hr by auto.
  now rewrite str_drop_app.
Qed.

(** ** Lemmas: the failures of a decoding loop *)

Lemma decode_error_data msg : decode_error (IoError InvalidData msg).
Proof. left. apply data_error_lit. Qed.

Lemma decode_error_invalid {A} (r : result A string) e : invalid_data r = Err e -> decode_error e.
Proof. intros H. left. exact (invalid_data_err r e H). Qed.

Lemma decode_error_slice s a b e : str_slice s a b = Err e -> decode_error e.
Proof. unfold str_slice. destruct (_ && _); intros H; [discriminate | injection H as <-; now right; left]. Qed.

Lemma decode_error_slice_from s a e : str_slice_from s a = Err e -> decode_error e.
Proof. unfold str_slice_from. destruct (_ : bool); intros H; [discriminate | injection H as <-; now right; left]. Qed.

Lemma decode_error_fuel : decode_error OutOfFuel.
Proof. now right; right. Qed.

#[export] Hint Resolve decode_error_data decode_error_invalid decode_error_slice
  decode_error_slice_from decode_error_fuel : errkind.

(** ** Lemmas: bytes of digits *)

Lemma ascii_digit_not_cont c : is_ascii_digit c = true -> is_utf8_cont c = false.
Proof. destruct c as [[] [] [] [] [] [] [] []]; vm_compute; congruence. Qed.

Lemma str_all_app p (a b : string) : str_all p (a ++ b) = str_all p a && str_all p b.
Proof. induction a; simpl; [reflexivity | rewrite IHa; apply andb_assoc]. Qed.

Lemma digits_starts_clean s : str_all is_ascii_digit s = true -> starts_clean s = true.
Proof.
  destruct s as [|c s]; simpl; auto. intros H. apply andb_true_iff in H as [H _].
  now rewrite ascii_digit_not_cont.
Qed.

Lemma digit_starts_clean c s : is_ascii_digit c = true -> starts_clean (String c s) = true.
Proof. intros H. cbn [starts_clean]. now rewrite ascii_digit_not_cont. Qed.

#[export] Hint Resolve digits_starts_clean ascii_digit_not_cont : khqr.
#[export] Hint Rewrite str_all_app str_drop_app str_take_app : khqr_rw.

(** ** Lemmas: ["{:02}"] of a two-digit number *)

Lemma two_digit_ok_all :
  forallb (fun k => two_digit_ok (Z.of_nat k)) (seq 0 100) = true.
Proof. vm_compute. reflexivity. Qed.

Lemma two_digit_ok_spec n : 0 <= n < 100 -> two_digit_ok n = true.
Proof.
  intros H. pose proof two_digit_ok_all as A. rewrite forallb_forall in A.
  rewrite <- (Z2Nat.id n) by lia. apply A, in_seq. lia.
Qed.

Ltac two_digit n H :=
  pose proof (two_digit_ok_spec n H) as Htd; unfold two_digit_ok in Htd;
  repeat rewrite andb_true_iff in Htd.

Lemma fmt_02_length n : 0 <= n < 100 -> String.length (fmt_02 n) = 2%nat.
Proof. intros H. two_digit n H. now apply Nat.eqb_eq. Qed.

Lemma fmt_02_digits n : 0 <= n < 100 -> str_all is_ascii_digit (fmt_02 n) = true.
Proof. intros H. two_digit n H. tauto. Qed.

Lemma parse_u8_fmt_02 n : 0 <= n < 100 -> parse_u8 (fmt_02 n) = Some n.
Proof.
  intros H. two_digit n H. destruct Htd as [[_ Hp] _].
  destruct (parse_u8 (fmt_02 n)); [apply Z.eqb_eq in Hp; congruence | discriminate].
Qed.

Lemma parse_usize_fmt_02 n : 0 <= n < 100 -> parse_usize (fmt_02 n) = Some n.
Proof.
  intros H. two_digit n H. destruct Htd as [_ Hp].
  destruct (parse_usize (fmt_02 n)); [apply Z.eqb_eq in Hp; congruence | discriminate].
Qed.

Lemma three_digit_ok_all :
  forallb (fun k => three_digit_ok (Z.of_nat k)) (seq 100 900) = true.
Proof. vm_compute. reflexivity. Qed.

(** ["{:02}"] of a number of three digits does not pad: it writes three
    digits, of which a two-byte field sees [n / 10]. *)
Lemma fmt_02_three_digits n : 100 <= n < 1000 ->
  exists a b c, fmt_02 n = String a (String b (String c EmptyString)) /\
    is_ascii_digit a = true /\ is_ascii_digit b = true /\ is_ascii_digit c = true /\
    parse_usize (String a (String b EmptyString)) = Some (n / 10).
Proof.
  intros H. pose proof three_digit_ok_all as A. rewrite forallb_forall in A.
  assert (T : three_digit_ok n = true) by (rewrite <- (Z2Nat.id n) by lia; apply A, in_seq; lia).
  unfold three_digit_ok in T.
  destruct (fmt_02 n) as [|a [|b [|c [|d r]]]]; try discriminate T.
  destruct (parse_usize (String a (String b EmptyString))) as [m|] eqn:Ep;
    [|now rewrite andb_false_r in T].
  bool_split T. exists a, b, c. repeat split; try assumption.
  match goal with Hm : (m =? _) = true |- _ => apply Z.eqb_eq in Hm; now subst end.
Qed.

Lemma fmt_02_nonempty n : 0 <= n < 100 -> fmt_02 n <> EmptyString.
Proof. intros H E. pose proof (fmt_02_length n H) as L. rewrite E in L. discriminate. Qed.

#[export] Hint Resolve fmt_02_length fmt_02_digits parse_u8_fmt_02 parse_usize_fmt_02
  fmt_02_nonempty : khqr.

(** ** Lemmas: ["{}"] of an unsigned integer parses back *)

Lemma fmt_digits_acc base f n acc :
  fmt_digits base f n acc = fmt_digits base f n "" ++ acc.
Proof.
  revert n acc; induction f as [|f IH]; intros n acc; simpl; [reflexivity|].
  destruct (n <? base); [reflexivity|].
  rewrite IH, (IH _ (String _ "")), string_app_assoc. reflexivity.
Qed.

Lemma parse_digits_app max a (s t : string) :
  parse_digits max a (s ++ t) =
  match parse_digits max a s with Some b => parse_digits max b t | None => None end.
Proof.
  revert a; induction s as [|c s IH]; intros a; simpl; [reflexivity|].
  destruct (digit_val c); [|reflexivity]. destruct (_ <=? max); auto.
Qed.

Lemma radix_char_digit d : 0 <= d < 10 -> digit_val (radix_char d) = Some d.
Proof.
  intros H. unfold digit_val, radix_char, is_ascii_digit.
  rewrite (proj2 (Z.ltb_lt d 10)) by lia. rewrite byte_val_of by lia.
  rewrite (proj2 (Z.leb_le 48 (48 + d))), (proj2 (Z.leb_le (48 + d) 57)) by lia.
  cbn [andb]. f_equal; lia.
Qed.

Lemma radix_char_is_digit d : 0 <= d < 10 -> is_ascii_digit (radix_char d) = true.
Proof.
  intros H. pose proof (radix_char_digit d H) as E. unfold digit_val in E.
  destruct (is_ascii_digit _); congruence.
Qed.

Lemma fmt_digits_parse f : forall n max,
  0 <= n <= max -> n < 10 ^ Z.of_nat f ->
  parse_digits max 0 (fmt_digits 10 f n "") = Some n.
Proof.
  induction f as [|f IH]; intros n max Hn Hlt; cbn [fmt_digits].
  - cbn in Hlt. cbn. f_equal. lia.
  - pose proof (Z.mod_pos_bound n 10 ltac:(lia)) as Hm.
    destruct (Z.ltb_spec n 10) as [Hs|Hs].
    + cbn [parse_digits]. rewrite radix_char_digit by lia.
      rewrite Z.mod_small by lia. now rewrite (proj2 (Z.leb_le _ _)) by lia.
    + rewrite fmt_digits_acc, parse_digits_app.
      rewrite Nat2Z.inj_succ, Z.pow_succ_r in Hlt by lia.
      rewrite IH.
      * cbn [parse_digits]. rewrite radix_char_digit by lia.
        pose proof (Z.div_mod n 10 ltac:(lia)).
        rewrite (proj2 (Z.leb_le _ _)) by lia. f_equal; lia.
      * split; [apply Z.div_pos | apply Z.div_le_upper_bound]; lia.
      * apply Z.div_lt_upper_bound; lia.
Qed.

Lemma fmt_digits_all_digit f : forall n,
  0 <= n -> str_all is_ascii_digit (fmt_digits 10 f n "") = true.
Proof.
  induction f as [|f IH]; intros n Hn; simpl; [reflexivity|].
  pose proof (Z.mod_pos_bound n 10 ltac:(lia)).
  destruct (n <? 10); simpl.
  - now rewrite radix_char_is_digit by lia.
  - rewrite fmt_digits_acc, str_all_app, IH by (apply Z.div_pos; lia). simpl.
    now rewrite radix_char_is_digit by lia.
Qed.

Lemma fmt_digits_length_base b f : forall n k,
  2 <= b -> 0 <= n < b ^ k -> 1 <= k -> (String.length (fmt_digits b f n "") <= Z.to_nat k)%nat.
Proof.
  induction f as [|f IH]; intros n k Hb Hn Hk; simpl; [lia|].
  destruct (Z.ltb_spec n b); simpl; [lia|].
  rewrite fmt_digits_acc, string_length_app. simpl.
  assert (2 <= k).
  { destruct (Z.le_gt_cases k 1); [|lia].
    assert (b ^ k <= b ^ 1) by (apply Z.pow_le_mono_r; lia). rewrite Z.pow_1_r in *. lia. }
  specialize (IH (n / b) (k - 1)).
  assert (b ^ k = b * b ^ (k - 1)) by (rewrite <- Z.pow_succ_r by lia; f_equal; lia).
  assert (0 <= n / b < b ^ (k - 1)) by (split; [apply Z.div_pos | apply Z.div_lt_upper_bound]; lia).
  specialize (IH ltac:(lia) ltac:(lia) ltac:(lia)). lia.
Qed.

Lemma fmt_digits_length f n k :
  0 <= n < 10 ^ k -> 1 <= k -> (String.length (fmt_digits 10 f n "") <= Z.to_nat k)%nat.
Proof. apply fmt_digits_length_base. lia. Qed.

Lemma fmt_u_fuel n : 0 <= n -> n < 10 ^ Z.of_nat (S (Z.to_nat (Z.log2 n))).
Proof.
  intros Hn. rewrite Nat2Z.inj_succ, Z2Nat.id by apply Z.log2_nonneg.
  destruct (Z.eq_dec n 0) as [->|Hn0]; [simpl; lia|].
  pose proof (Z.log2_spec n ltac:(lia)) as [_ H2].
  eapply Z.lt_le_trans; [exact H2|].
  apply Z.pow_le_mono_l. pose proof (Z.log2_nonneg n). lia.
Qed.

Lemma fmt_u_all_digit n : 0 <= n -> str_all is_ascii_digit (fmt_u n) = true.
Proof. apply fmt_digits_all_digit. Qed.

Lemma fmt_u_head n : 0 <= n -> exists c rest, fmt_u n = String c rest /\ is_ascii_digit c = true.
Proof.
  intros Hn. pose proof (fmt_u_all_digit n Hn) as A. unfold fmt_u in *. simpl in *.
  pose proof (Z.mod_pos_bound n 10 ltac:(lia)).
  destruct (n <? 10).
  - eexists _, _. split; [reflexivity|]. now apply radix_char_is_digit.
  - rewrite fmt_digits_acc in *. rewrite str_all_app in A.
    destruct (fmt_digits 10 _ (n / 10) "") as [|c r]; simpl in *.
    + eexists _, _. split; [reflexivity|]. now apply radix_char_is_digit.
    + apply andb_true_iff in A as [[A _]%andb_true_iff _]. eauto.
Qed.

Lemma parse_int_digit_head sg lo hi c rest :
  is_ascii_digit c = true -> parse_int sg lo hi (String c rest) = parse_digits hi 0 (String c rest).
Proof.
  intros H. unfold parse_int.
  assert (Ascii.eqb c "+" = false /\ Ascii.eqb c "-" = false) as [-> ->].
  { split; apply Ascii.eqb_neq; intros ->; discriminate H. }
  simpl. now destruct sg.
Qed.

Lemma parse_int_fmt_u sg lo hi n : 0 <= n <= hi -> parse_int sg lo hi (fmt_u n) = Some n.
Proof.
  intros Hn. destruct (fmt_u_head n ltac:(lia)) as (c & r & E & Hc).
  rewrite E, parse_int_digit_head, <- E by exact Hc.
  apply fmt_digits_parse; [lia | apply fmt_u_fuel; lia].
Qed.

Lemma fmt_u_length n k : 0 <= n < 10 ^ k -> 1 <= k -> (String.length (fmt_u n) <= Z.to_nat k)%nat.
Proof. apply fmt_digits_length. Qed.

#[export] Hint Resolve fmt_u_all_digit parse_int_fmt_u : khqr.

(** ** Lemmas: slicing a TLV fragment *)

Lemma str_drop_length n s : String.length (str_drop n s) = (String.length s - n)%nat.
Proof. revert s; induction n; destruct s; simpl; auto. Qed.

Lemma str_slice_prefix (p rest : string) b :
  b = String.length p -> starts_clean rest = true -> str_slice (p ++ rest) 0 b = Ok p.
Proof.
  intros -> Hr. unfold str_slice. simpl is_char_boundary.
  destruct p as [|c p].
  - simpl. reflexivity.
  - rewrite char_boundary_app, Hr by discriminate. simpl.
    f_equal. f_equal. apply (str_take_app p rest).
Qed.

Lemma str_slice_mid (p v rest : string) a b :
  a = String.length p -> b = (String.length p + String.length v)%nat ->
  p <> EmptyString -> starts_clean v = true -> starts_clean rest = true ->
  str_slice (p ++ v ++ rest) a b = Ok v.
Proof. intros -> ->. apply str_slice_app. Qed.

Lemma str_slice_from_mid (p rest : string) a :
  a = String.length p -> p <> EmptyString -> starts_clean rest = true ->
  str_slice_from (p ++ rest) a = Ok rest.
Proof. intros ->. apply str_slice_from_app. Qed.

(** A slice whose end falls on a UTF-8 continuation byte panics. *)
Lemma str_slice_split (p v rest : string) a b :
  a = String.length p -> b = (String.length p + String.length v)%nat ->
  p <> EmptyString -> starts_clean rest = false ->
  str_slice (p ++ v ++ rest) a b = Err slice_panic.
Proof.
  intros -> -> Hp Hr. unfold str_slice.
  replace (String.length p + String.length v)%nat with (String.length (p ++ v))
    by apply string_length_app.
  rewrite <- string_app_assoc, (char_boundary_app (p ++ v)), Hr
    by (destruct p; [congruence | discriminate]).
  now rewrite andb_false_r.
Qed.

Lemma str_slice_err s a b e : str_slice s a b = Err e -> e = slice_panic.
Proof. unfold str_slice. destruct (_ && _); congruence. Qed.

Lemma str_slice_from_ok s a r : str_slice_from s a = Ok r -> r = str_drop a s.
Proof. unfold str_slice_from. destruct (is_char_boundary s a); congruence. Qed.

Lemma str_slice_from_err s a e : str_slice_from s a = Err e -> e = slice_panic.
Proof. unfold str_slice_from. destruct (is_char_boundary s a); congruence. Qed.

(** Slices that start past the first byte do not see it. *)
Lemma char_boundary_head x y s i : i <> O -> is_char_boundary (String x s) i = is_char_boundary (String y s) i.
Proof. destruct i; [congruence | reflexivity]. Qed.

Lemma str_slice_head x y s a b : a <> O -> str_slice (String x s) a b = str_slice (String y s) a b.
Proof.
  intros Ha. unfold str_slice. destruct (Nat.leb a b) eqn:E; [|reflexivity]. apply Nat.leb_le in E.
  rewrite (char_boundary_head x y s a), (char_boundary_head x y s b) by lia.
  destruct a; [congruence | reflexivity].
Qed.

Lemma str_slice_from_head x y s a : a <> O -> str_slice_from (String x s) a = str_slice_from (String y s) a.
Proof.
  intros Ha. unfold str_slice_from. rewrite (char_boundary_head x y s a) by exact Ha.
  destruct a; [congruence | reflexivity].
Qed.

(** [&s[0..2]] of a string of at least two bytes. *)
Lemma str_slice_code x c s :
  str_slice (String x (String c s)) 0 2 =
  if starts_clean s then Ok (String x (String c EmptyString)) else Err slice_panic.
Proof. destruct s; reflexivity. Qed.

(** ** Lemmas: bounds of parsed digit strings *)

Lemma parse_digits_mono_max max max' a s v :
  parse_digits max a s = Some v -> max <= max' -> parse_digits max' a s = Some v.
Proof.
  revert a; induction s as [|c s IH]; intros a H Hm; cbn [parse_digits] in *; [exact H|].
  destruct (digit_val c); [|discriminate].
  destruct (Z.leb_spec (a * 10 + z) max); [|discriminate].
  rewrite (proj2 (Z.leb_le _ max')) by lia. now apply IH.
Qed.

Lemma digit_val_range c d : digit_val c = Some d -> 0 <= d <= 9.
Proof.
  unfold digit_val, is_ascii_digit. destruct (_ && _) eqn:E; [|discriminate].
  apply andb_true_iff in E as [E1 E2]. apply Z.leb_le in E1, E2. intros H; injection H; lia.
Qed.

Lemma parse_digits_bound max a s v :
  0 <= a -> parse_digits max a s = Some v -> 0 <= v < (a + 1) * 10 ^ Z.of_nat (String.length s).
Proof.
  revert a; induction s as [|c s IH]; intros a Ha H; cbn [parse_digits String.length] in *.
  - injection H as <-. simpl. lia.
  - destruct (digit_val c) as [d|] eqn:Ed; [|discriminate]. apply digit_val_range in Ed.
    destruct (a * 10 + d <=? max); [|discriminate].
    apply IH in H; [|lia]. rewrite Nat2Z.inj_succ, Z.pow_succ_r by lia.
    pose proof (Z.pow_pos_nonneg 10 (Z.of_nat (String.length s))). nia.
Qed.

(** A 13-digit rendering of [m] parses back as an [i64]. *)
Lemma parse_i64_fmt_i m :
  String.length (fmt_i m) = 13%nat -> str_all is_ascii_digit (fmt_i m) = true ->
  parse_i64 (fmt_i m) = Some m.
Proof.
  intros L D. unfold fmt_i in *. destruct (Z.ltb_spec m 0) as [Hm|Hm]; [discriminate D|].
  assert (P : parse_digits m 0 (fmt_u m) = Some m) by (apply fmt_digits_parse; [lia | apply fmt_u_fuel; lia]).
  pose proof (parse_digits_bound _ _ _ _ (Z.le_refl 0) P) as B. rewrite L in B. simpl in B.
  unfold parse_i64. apply parse_int_fmt_u. lia.
Qed.

(** ** Lemmas: range of parsed integers, leading digit of renderings *)

Lemma parse_digits_range max a s v :
  0 <= a -> s <> EmptyString -> parse_digits max a s = Some v -> 0 <= v <= max.
Proof.
  revert a; induction s as [|c s IH]; intros a Ha Hs H; [congruence|]. cbn [parse_digits] in H.
  destruct (digit_val c) as [d|] eqn:Ed; [|discriminate]. apply digit_val_range in Ed.
  destruct (Z.leb_spec (a * 10 + d) max); [|discriminate].
  destruct s as [|c' s']; [injection H as <-; lia|]. apply (IH (a * 10 + d)); [lia|discriminate|exact H].
Qed.

(** An unsigned parse stays within [[0, hi]]. *)
Lemma parse_int_unsigned_range lo hi s v : parse_int false lo hi s = Some v -> 0 <= v <= hi.
Proof.
  destruct s as [|c rest]; [discriminate|]. cbn [parse_int].
  destruct ((Ascii.eqb c "+" || Ascii.eqb c "-") && String.eqb rest "") eqn:E; [discriminate|].
  destruct (Ascii.eqb c "+") eqn:P.
  - apply parse_digits_range; [lia|]. intros ->.
    rewrite ?P in E. cbn in E. discriminate E.
  - cbn [andb]. apply parse_digits_range; [lia | discriminate].
Qed.

Lemma radix_char_nonzero d : 1 <= d < 10 -> radix_char d <> "0"%char.
Proof.
  intros Hd E. pose proof (radix_char_digit d ltac:(lia)) as D. rewrite E in D.
  vm_compute in D. injection D. lia.
Qed.

Lemma fmt_digits_lead f : forall n acc,
  1 <= n < 10 ^ Z.of_nat f ->
  exists c rest, fmt_digits 10 f n acc = String c rest /\ is_ascii_digit c = true /\ c <> "0"%char.
Proof.
  induction f as [|f IH]; intros n acc Hn; [simpl in Hn; lia|]. cbn [fmt_digits].
  destruct (Z.ltb_spec n 10).
  - exists (radix_char (n mod 10)), acc. rewrite Z.mod_small by lia.
    split; [reflexivity|]. split; [apply radix_char_is_digit; lia | apply radix_char_nonzero; lia].
  - apply IH. rewrite Nat2Z.inj_succ, Z.pow_succ_r in Hn by lia. split.
    + apply Z.div_le_lower_bound; lia.
    + apply Z.div_lt_upper_bound; lia.
Qed.

(** The rendering of [n >= 10] starts with a non-zero digit followed by a
    second character. *)
Lemma fmt_u_lead n : 10 <= n ->
  exists c1 c2 rest, fmt_u n = String c1 (String c2 rest) /\ is_ascii_digit c1 = true /\ c1 <> "0"%char.
Proof.
  intros Hn. pose proof (fmt_u_fuel n ltac:(lia)) as F. unfold fmt_u in *.
  generalize dependent (Z.to_nat (Z.log2 n)). intros f F.
  cbn [fmt_digits]. rewrite (proj2 (Z.ltb_ge n 10)) by lia. rewrite fmt_digits_acc.
  destruct (fmt_digits_lead f (n / 10) "") as (c & r & E & D & Z0).
  { rewrite Nat2Z.inj_succ, Z.pow_succ_r in F by lia. split.
    - apply Z.div_le_lower_bound; lia.
    - apply Z.div_lt_upper_bound; lia. }
  rewrite E. destruct r as [|c2 r]; cbn [append]; eexists _, _, _; eauto.
Qed.

Lemma str_slice_ok s a b t : str_slice s a b = Ok t -> t = str_take (b - a) (str_drop a s).
Proof. unfold str_slice. destruct (_ && _); congruence. Qed.

Lemma digit_lead c : is_ascii_digit c = true -> c <> "0"%char ->
  Ascii.eqb c "+" = false /\ Ascii.eqb c "-" = false /\ exists d, digit_val c = Some d /\ 1 <= d <= 9.
Proof.
  intros D N. destruct c as [[] [] [] [] [] [] [] []]; vm_compute in D; try discriminate D;
    try (exfalso; apply N; reflexivity); vm_compute;
    (split; [reflexivity | split; [reflexivity | eexists; split; [reflexivity |]]]);
    split; intros H; discriminate H.
Qed.

(** Two characters led by a non-zero digit do not parse as a [u8] below 10. *)
Lemma parse_u8_lead c1 c2 t : is_ascii_digit c1 = true -> c1 <> "0"%char ->
  parse_u8 (String c1 (String c2 "")) = Some t -> 10 <= t.
Proof.
  intros D N. destruct (digit_lead c1 D N) as (P & M & d1 & D1 & R1).
  unfold parse_u8, parse_int. rewrite P, M. cbn [orb andb].
  cbn [parse_digits]. rewrite D1, (proj2 (Z.leb_le _ 255)) by lia.
  destruct (digit_val c2) as [d2|] eqn:D2; [|discriminate]. apply digit_val_range in D2.
  destruct (_ <=? 255); [|discriminate]. intros H; injection H as <-. lia.
Qed.

(** [str::parse::<u8>] takes a leading ['+']: ["+d"] reads as ["0d"]. *)
Lemma parse_u8_plus c : is_ascii_digit c = true ->
  exists v, parse_u8 (String "+" (String c "")) = Some v /\ parse_u8 (String "0" (String c "")) = Some v.
Proof. destruct c as [[] [] [] [] [] [] [] []]; try discriminate; eexists; split; reflexivity. Qed.

(** ** Lemmas: [{:04X}] *)

Lemma radix_char_ascii d : 0 <= d < 16 -> is_utf8_cont (radix_char d) = false.
Proof.
  intros Hd. assert (K : forall k, (k < 16)%nat -> is_utf8_cont (radix_char (Z.of_nat k)) = false)
    by (intros k Hk; do 16 (destruct k as [|k]; [reflexivity|]); lia).
  rewrite <- (Z2Nat.id d) by lia. apply K. lia.
Qed.

Lemma fmt_digits_hex_ascii f : forall n acc,
  0 <= n -> str_all (fun c => negb (is_utf8_cont c)) acc = true ->
  str_all (fun c => negb (is_utf8_cont c)) (fmt_digits 16 f n acc) = true.
Proof.
  induction f as [|f IH]; intros n acc Hn Ha; cbn [fmt_digits]; [exact Ha|].
  pose proof (Z.mod_pos_bound n 16 ltac:(lia)) as M.
  assert (A : str_all (fun c => negb (is_utf8_cont c)) (String (radix_char (n mod 16)) acc) = true)
    by (cbn [str_all]; now rewrite radix_char_ascii, Ha).
  destruct (n <? 16); [exact A|]. apply IH; [apply Z.div_pos; lia | exact A].
Qed.

Lemma pad_left_length c w s : (String.length s <= w)%nat -> String.length (pad_left c w s) = w.
Proof.
  unfold pad_left. intros H. replace w with ((w - String.length s) + String.length s)%nat at 2 by lia.
  induction (w - String.length s)%nat as [|k IH]; cbn; lia.
Qed.

Lemma pad_left_all p c w s : p c = true -> str_all p s = true -> str_all p (pad_left c w s) = true.
Proof.
  unfold pad_left. intros Hc Hs. induction (w - String.length s)%nat as [|k IH]; cbn; [exact Hs|].
  now rewrite Hc, IH.
Qed.

(** A [u16] renders as exactly four ASCII hex digits. *)
Lemma fmt_04X_ok n : 0 <= n < 65536 ->
  String.length (fmt_04X n) = 4%nat /\ str_all (fun c => negb (is_utf8_cont c)) (fmt_04X n) = true.
Proof.
  intros Hn. unfold fmt_04X. split.
  - apply pad_left_length. change 4%nat with (Z.to_nat 4). apply fmt_digits_length_base; cbn; lia.
  - apply pad_left_all; [reflexivity|]. apply fmt_digits_hex_ascii; [lia | reflexivity].
Qed.

Lemma str_all_ascii_clean s : str_all (fun c => negb (is_utf8_cont c)) s = true -> starts_clean s = true.
Proof. destruct s as [|c s]; cbn; [reflexivity|]. now destruct (negb (is_utf8_cont c)). Qed.

(** A slice that succeeds ends inside the string. *)
Lemma str_slice_bound s a b t : str_slice s a b = Ok t -> (b <= String.length s)%nat.
Proof.
  unfold str_slice. destruct (Nat.leb a b && is_char_boundary s a && is_char_boundary s b) eqn:E;
    [|discriminate]. intros _. apply andb_true_iff in E as [_ E]. unfold is_char_boundary in E.
  destruct b as [|b]; [lia|]. destruct (String.get (S b) s) eqn:G.
  - destruct (Nat.le_gt_cases (String.length s) (S b)) as [L|L]; [|lia].
    apply string_get_none in L. congruence.
  - apply Nat.eqb_eq in E. lia.
Qed.
