(* ===== verification/Crc.v ===== *)
(** * The checksum engine ([src/src/models/crc.rs])

    [generate_crc16_table] and [crc16_ccitt] on [u16] values kept as [Z];
    every [<<] on a [u16] drops the bits shifted past bit 15, written
    out as [u16 (Z.shiftl x k)].  The theorems: the table-driven CRC
    equals the bitwise CRC16-CCITT (polynomial 0x1021, register
    0xFFFF) byte for byte, stays in [0, 2^16), looks the table up in
    range, and gives the standard check value on "123456789". *)

From Stdlib Require Import String Ascii ZArith List Lia Bool.
From S2P Require Import Prelude RustStr.
Import ListNotations.
Open Scope Z_scope.

Module Crc.

Definition POLY : Z := 0x1021.

(** Truncation to [u16]. *)
Definition u16 (z : Z) : Z := Z.land z 0xFFFF.

(** [x << k] on a [u16]. *)
Definition shl16 (x k : Z) : Z := u16 (Z.shiftl x k).

(** One turn of the inner [while b < 8] loop of [generate_crc16_table]. *)
Definition crc_step (crc : Z) : Z :=
  if negb (Z.land crc 0x8000 =? 0) then Z.lxor (shl16 crc 1) POLY else shl16 crc 1.

(** [n] turns of the inner loop. *)
Fixpoint bit_loop (n : nat) (crc : Z) : Z :=
  match n with
  | O => crc
  | S n' => bit_loop n' (crc_step crc)
  end.

(** [table[i]]: [crc = (i as u16) << 8] then 8 turns. *)
Definition table_entry (i : Z) : Z := bit_loop 8 (shl16 i 8).

(** [generate_crc16_table()]: the outer [while i < 256] loop writes
    [table[i]] for i = 0 .. 255 in order. *)
Definition generate_crc16_table : list Z :=
  map (fun i => table_entry (Z.of_nat i)) (seq 0 256).

(** [let index = ((crc >> 8) ^ byte as u16) & 0xFF]. *)
Definition crc_index (crc : Z) (byte : ascii) : Z :=
  Z.land (Z.lxor (Z.shiftr crc 8) (byte_val byte)) 0xFF.

(** One iteration of the [for &byte in data_bytes] loop. *)
Definition crc_update (table : list Z) (crc : Z) (byte : ascii) : Z :=
  Z.lxor (shl16 crc 8) (nth (Z.to_nat (crc_index crc byte)) table 0).

(** [crc16_ccitt(data)]. *)
Definition crc16_ccitt (data : string) : Z :=
  let table := generate_crc16_table in
  fold_left (crc_update table) (list_ascii_of_string data) 0xFFFF.

(** The reference, written from the CRC-16/CCITT-FALSE definition
    (generator polynomial x^16 + x^12 + x^5 + 1, that is 0x1021; register
    initialised to 0xFFFF; most significant bit first; no reflection)
    and sharing nothing with the code above: one shift of the register,
    eight per byte after the byte is xor-ed into the high half. *)
Definition ref_shift (crc : Z) : Z :=
  if Z.testbit crc 15 then Z.lxor ((crc * 2) mod 65536) 0x1021 else (crc * 2) mod 65536.

Fixpoint ref_shifts (n : nat) (crc : Z) : Z :=
  match n with
  | O => crc
  | S n' => ref_shifts n' (ref_shift crc)
  end.

Definition crc_bitwise_update (crc : Z) (byte : ascii) : Z :=
  ref_shifts 8 (Z.lxor crc (byte_val byte * 256)).

Definition crc16_bitwise (data : string) : Z :=
  fold_left crc_bitwise_update (list_ascii_of_string data) 0xFFFF.

(** ** Bit-level lemmas *)

Lemma land_8000 x : Z.land x 0x8000 = if Z.testbit x 15 then 0x8000 else 0.
Proof.
  apply Z.bits_inj'; intros n Hn. rewrite Z.land_spec. change 0x8000 with (2^15).
  rewrite Z.pow2_bits_eqb by lia.
  destruct (Z.eqb_spec 15 n) as [<-|Hne]; destruct (Z.testbit x 15) eqn:E;
    rewrite ?Z.pow2_bits_eqb, ?Z.bits_0 by lia; rewrite ?E; try reflexivity;
    try (rewrite (proj2 (Z.eqb_neq 15 n) Hne)); now rewrite ?andb_false_r.
Qed.

Lemma crc_step_testbit x :
  crc_step x = if Z.testbit x 15 then Z.lxor (shl16 x 1) POLY else shl16 x 1.
Proof. unfold crc_step. rewrite land_8000. now destruct (Z.testbit x 15). Qed.

(** Prove a bitwise identity bit by bit. *)
Ltac bitwise :=
  apply Z.bits_inj'; intros ?n ?Hn;
  repeat rewrite ?Z.land_spec, ?Z.lxor_spec, ?Z.lor_spec;
  repeat match goal with |- context [Z.testbit ?a ?b] => destruct (Z.testbit a b) end;
  reflexivity.

Lemma land_lxor_distr a b m : Z.land (Z.lxor a b) m = Z.lxor (Z.land a m) (Z.land b m).
Proof. bitwise. Qed.

Lemma u16_lxor x y : u16 (Z.lxor x y) = Z.lxor (u16 x) (u16 y).
Proof. apply land_lxor_distr. Qed.

Lemma lxor_lt_pow2 a b k :
  0 <= k -> 0 <= a < 2 ^ k -> 0 <= b < 2 ^ k -> 0 <= Z.lxor a b < 2 ^ k.
Proof.
  intros Hk Ha Hb.
  rewrite <- (Z.mod_small a (2 ^ k)), <- (Z.mod_small b (2 ^ k)) by lia.
  rewrite <- !Z.land_ones, <- land_lxor_distr, Z.land_ones by lia.
  apply Z.mod_pos_bound. lia.
Qed.

Lemma shl16_lxor x y k : shl16 (Z.lxor x y) k = Z.lxor (shl16 x k) (shl16 y k).
Proof. unfold shl16. now rewrite Z.shiftl_lxor, u16_lxor. Qed.

Lemma lxor_swap a b c d : Z.lxor (Z.lxor a b) (Z.lxor c d) = Z.lxor (Z.lxor a c) (Z.lxor b d).
Proof.
  rewrite !Z.lxor_assoc. f_equal. rewrite <- !Z.lxor_assoc. f_equal. apply Z.lxor_comm.
Qed.

(** The shift register is linear over GF(2). *)
Lemma crc_step_lxor x y : crc_step (Z.lxor x y) = Z.lxor (crc_step x) (crc_step y).
Proof.
  rewrite !crc_step_testbit, Z.lxor_spec, shl16_lxor.
  destruct (Z.testbit x 15), (Z.testbit y 15); simpl; try reflexivity.
  - rewrite lxor_swap, Z.lxor_nilpotent, Z.lxor_0_r. reflexivity.
  - rewrite !Z.lxor_assoc. f_equal. apply Z.lxor_comm.
  - rewrite Z.lxor_assoc. reflexivity.
Qed.

Lemma bit_loop_lxor n : forall x y, bit_loop n (Z.lxor x y) = Z.lxor (bit_loop n x) (bit_loop n y).
Proof. induction n; intros x y; simpl; [reflexivity | now rewrite crc_step_lxor]. Qed.

Lemma u16_small x : 0 <= x < 2 ^ 16 -> u16 x = x.
Proof.
  intros H. unfold u16. change 0xFFFF with (Z.ones 16).
  rewrite Z.land_ones by lia. now apply Z.mod_small.
Qed.

Lemma u16_range x : 0 <= u16 x < 2 ^ 16.
Proof.
  unfold u16. change 0xFFFF with (Z.ones 16). rewrite Z.land_ones by lia.
  apply Z.mod_pos_bound. lia.
Qed.

(** While the top bit stays clear, the loop only shifts. *)
Lemma bit_loop_small n : forall x,
  (n <= 16)%nat -> 0 <= x < 2 ^ (16 - Z.of_nat n) -> bit_loop n x = x * 2 ^ Z.of_nat n.
Proof.
  induction n as [|n IH]; intros x Hn Hx; simpl bit_loop; [lia|].
  rewrite crc_step_testbit.
  assert (2 ^ (16 - Z.of_nat (S n)) <= 2 ^ 15) by (apply Z.pow_le_mono_r; lia).
  rewrite Z.bits_above_log2.
  2: lia.
  2: { destruct (Z.eq_dec x 0) as [->|]; [simpl; lia|].
       apply Z.log2_lt_pow2; lia. }
  unfold shl16. rewrite Z.shiftl_mul_pow2, u16_small by (try split; lia).
  rewrite IH; [rewrite Nat2Z.inj_succ, Z.pow_succ_r by lia; ring | lia |].
  rewrite Nat2Z.inj_succ in Hx.
  replace (16 - Z.of_nat n) with (Z.succ (16 - Z.succ (Z.of_nat n))) by lia.
  rewrite Z.pow_succ_r by lia. lia.
Qed.

(** ** The table and one byte of the table-driven loop *)

Lemma table_nth i : (i < 256)%nat -> nth i generate_crc16_table 0 = table_entry (Z.of_nat i).
Proof.
  intros H. unfold generate_crc16_table.
  rewrite nth_indep with (d' := table_entry (Z.of_nat 0)) by (rewrite length_map, length_seq; lia).
  rewrite (map_nth (fun i => table_entry (Z.of_nat i)) (seq 0 256) 0%nat i), seq_nth by lia.
  reflexivity.
Qed.

Lemma crc_index_range crc b : 0 <= crc_index crc b < 256.
Proof.
  unfold crc_index. change 0xFF with (Z.ones 8). rewrite Z.land_ones by lia.
  apply Z.mod_pos_bound. lia.
Qed.

Lemma crc_step_range x : 0 <= x < 2 ^ 16 -> 0 <= crc_step x < 2 ^ 16.
Proof.
  intros H. unfold crc_step. pose proof (u16_range (Z.shiftl x 1)).
  destruct (negb _); [apply lxor_lt_pow2; unfold shl16, POLY; lia | unfold shl16; lia].
Qed.

Lemma bit_loop_range n : forall x, 0 <= x < 2 ^ 16 -> 0 <= bit_loop n x < 2 ^ 16.
Proof. induction n; intros x H; simpl; [lia | apply IHn, crc_step_range, H]. Qed.

(** The code's shift step is the reference's: this pins [POLY]. *)
Lemma crc_step_ref x : 0 <= x < 2 ^ 16 -> crc_step x = ref_shift x.
Proof.
  intros H. rewrite crc_step_testbit. unfold ref_shift, shl16, u16, POLY.
  change 0xFFFF with (Z.ones 16). rewrite Z.land_ones, Z.shiftl_mul_pow2 by lia.
  now replace (x * 2 ^ 1) with (x * 2) by ring.
Qed.

Lemma ref_shifts_bit_loop n : forall x, 0 <= x < 2 ^ 16 -> ref_shifts n x = bit_loop n x.
Proof.
  induction n as [|n IH]; intros x H; simpl; [reflexivity|].
  rewrite <- crc_step_ref by exact H. apply IH, crc_step_range, H.
Qed.

Lemma crc_bitwise_update_loop crc b :
  0 <= crc < 2 ^ 16 -> crc_bitwise_update crc b = bit_loop 8 (Z.lxor crc (Z.shiftl (byte_val b) 8)).
Proof.
  intros H. pose proof (byte_val_range b). unfold crc_bitwise_update.
  rewrite Z.shiftl_mul_pow2 by lia. change (2 ^ 8) with 256.
  apply ref_shifts_bit_loop, lxor_lt_pow2; lia.
Qed.

Lemma table_entry_range i : 0 <= table_entry i < 2 ^ 16.
Proof. apply bit_loop_range, u16_range. Qed.

(** The register splits into its high and low bytes. *)
Lemma split_hi_lo crc : crc = Z.lxor (Z.shiftl (Z.shiftr crc 8) 8) (Z.land crc 0xFF).
Proof.
  apply Z.bits_inj'; intros n Hn. change 0xFF with (Z.ones 8).
  rewrite Z.lxor_spec, Z.land_spec.
  destruct (Z.lt_ge_cases n 8).
  - rewrite Z.shiftl_spec_low, Z.ones_spec_low by lia. now rewrite andb_true_r.
  - rewrite Z.shiftl_spec, Z.shiftr_spec, Z.ones_spec_high by lia.
    rewrite andb_false_r, xorb_false_r. f_equal. lia.
Qed.

Lemma shl16_8 crc : 0 <= crc -> shl16 crc 8 = Z.land crc 0xFF * 2 ^ 8.
Proof.
  intros H. unfold shl16, u16. change 0xFFFF with (Z.ones 16). change 0xFF with (Z.ones 8).
  rewrite !Z.land_ones, Z.shiftl_mul_pow2 by lia.
  change (2 ^ 16) with (2 ^ 8 * 2 ^ 8). apply Z.mul_mod_distr_r; lia.
Qed.

(** One byte: the table lookup does the eight shift/xor turns at once. *)
Lemma crc_update_bitwise crc b :
  0 <= crc < 2 ^ 16 ->
  crc_update generate_crc16_table crc b = crc_bitwise_update crc b.
Proof.
  intros Hc. pose proof (byte_val_range b) as Hb.
  set (hi := Z.shiftr crc 8). set (lo := Z.land crc 0xFF).
  assert (Hhi : 0 <= hi < 2 ^ 8).
  { subst hi. rewrite Z.shiftr_div_pow2 by lia.
    split; [apply Z.div_pos | apply Z.div_lt_upper_bound]; lia. }
  assert (Hlo : 0 <= lo < 2 ^ 8).
  { subst lo. change 0xFF with (Z.ones 8). rewrite Z.land_ones by lia. apply Z.mod_pos_bound; lia. }
  assert (Hx : 0 <= Z.lxor hi (byte_val b) < 2 ^ 8) by (apply lxor_lt_pow2; lia).
  assert (Hidx : crc_index crc b = Z.lxor hi (byte_val b)).
  { unfold crc_index. fold hi. change 0xFF with (Z.ones 8).
    rewrite Z.land_ones by lia. apply Z.mod_small; lia. }
  rewrite crc_bitwise_update_loop by exact Hc. unfold crc_update.
  rewrite Hidx, table_nth, Z2Nat.id by lia.
  rewrite (split_hi_lo crc) at 2. fold hi lo.
  rewrite Z.lxor_assoc, (Z.lxor_comm lo), <- Z.lxor_assoc, <- Z.shiftl_lxor.
  rewrite bit_loop_lxor, (bit_loop_small 8 lo) by (simpl; lia).
  rewrite shl16_8 by lia. fold lo. unfold table_entry, shl16.
  rewrite u16_small by (rewrite Z.shiftl_mul_pow2 by lia; lia).
  apply Z.lxor_comm.
Qed.

Lemma crc_update_range crc b :
  0 <= crc < 2 ^ 16 -> 0 <= crc_update generate_crc16_table crc b < 2 ^ 16.
Proof.
  intros H. rewrite crc_update_bitwise, crc_bitwise_update_loop by exact H.
  apply bit_loop_range, lxor_lt_pow2; [lia | exact H |].
  pose proof (byte_val_range b). rewrite Z.shiftl_mul_pow2 by lia. lia.
Qed.

Lemma fold_crc_update_bitwise l : forall crc,
  0 <= crc < 2 ^ 16 ->
  fold_left (crc_update generate_crc16_table) l crc = fold_left crc_bitwise_update l crc
  /\ 0 <= fold_left (crc_update generate_crc16_table) l crc < 2 ^ 16.
Proof.
  induction l as [|b l IH]; intros crc H; simpl; [auto|].
  rewrite <- crc_update_bitwise by exact H.
  apply IH, crc_update_range, H.
Qed.

(** ** Theorems *)

(** C4: the table-driven [crc16_ccitt] computes the bitwise CRC16-CCITT
    (polynomial 0x1021, initial register 0xFFFF) of every input, as the
    independent reference [crc16_bitwise] defines it. *)
Theorem crc16_ccitt_equiv_bitwise (data : string) : crc16_ccitt data = crc16_bitwise data.
Proof. apply fold_crc_update_bitwise. lia. Qed.

(** The checksum is a 16-bit value, so [{:04X}] renders it in exactly
    four hex digits. *)
Lemma crc16_ccitt_range (data : string) : 0 <= crc16_ccitt data < 2 ^ 16.
Proof. apply fold_crc_update_bitwise. lia. Qed.

(** The index [((crc >> 8) ^ byte) & 0xFF] is always inside the
    256-entry table, so [table[index as usize]] never panics. *)
Lemma crc_index_in_table crc b :
  (Z.to_nat (crc_index crc b) < length generate_crc16_table)%nat.
Proof.
  pose proof (crc_index_range crc b). unfold generate_crc16_table.
  rewrite length_map, length_seq. lia.
Qed.

(** The standard CRC-16/CCITT-FALSE check value: "123456789" gives 0x29B1. *)
Example crc16_ccitt_check_value : crc16_ccitt "123456789" = 0x29B1.
Proof. vm_compute. reflexivity. Qed.

End Crc.
