(* ===== verification/Tags.v ===== *)
(** * The tag taxonomy ([src/src/models/tag.rs], [src/src/models/sub_tag.rs])

    [Module Tag] models [enum Tags] and [Module SubTag] models
    [enum SubTags], each with [code], [from_code], [max_length] and
    [validate_length] (its [Err] carries the message text of the source,
    [{:?}] being the variant name).  Sub-tag codes are scoped: the key
    of [SubTag.from_code] is the pair (parent tag, code). *)

From Stdlib Require Import String Ascii ZArith List Lia Bool.
From S2P Require Import Prelude RustStr.
Import ListNotations.
Open Scope string_scope.
Open Scope Z_scope.

Module Tag.

Inductive Tags : Set :=
| PayloadFormatIndicator
| PointOfInitialMethod
| MerchantAccountInfoIndividual
| MerchantAccountInfoMerchant
| MerchantCategoryCode
| TransactionCurrency
| TransactionAmount
| CountryCode
| MerchantName
| MerchantCity
| AdditionalDataTemplate
| AdditionalDataField
| Crc
| UnionPayMerchant
| MerchantInformationLanguageTemplate.

Scheme Equality for Tags.

(** [#[derive(Debug)]]. *)
Definition debug_name (t : Tags) : string :=
  match t with
  | PayloadFormatIndicator => "PayloadFormatIndicator"
  | PointOfInitialMethod => "PointOfInitialMethod"
  | MerchantAccountInfoIndividual => "MerchantAccountInfoIndividual"
  | MerchantAccountInfoMerchant => "MerchantAccountInfoMerchant"
  | MerchantCategoryCode => "MerchantCategoryCode"
  | TransactionCurrency => "TransactionCurrency"
  | TransactionAmount => "TransactionAmount"
  | CountryCode => "CountryCode"
  | MerchantName => "MerchantName"
  | MerchantCity => "MerchantCity"
  | AdditionalDataTemplate => "AdditionalDataTemplate"
  | AdditionalDataField => "AdditionalDataField"
  | Crc => "Crc"
  | UnionPayMerchant => "UnionPayMerchant"
  | MerchantInformationLanguageTemplate => "MerchantInformationLanguageTemplate"
  end.

(** [Tags::code]. *)
Definition code (t : Tags) : Z :=
  match t with
  | PayloadFormatIndicator => 0
  | PointOfInitialMethod => 1
  | MerchantAccountInfoIndividual => 29
  | MerchantAccountInfoMerchant => 30
  | MerchantCategoryCode => 52
  | TransactionCurrency => 53
  | TransactionAmount => 54
  | CountryCode => 58
  | MerchantName => 59
  | MerchantCity => 60
  | AdditionalDataTemplate => 62
  | AdditionalDataField => 99
  | Crc => 63
  | UnionPayMerchant => 15
  | MerchantInformationLanguageTemplate => 64
  end.

(** [Tags::from_code]. *)
Definition from_code (number : Z) : option Tags :=
  match number with
  | 0 => Some PayloadFormatIndicator
  | 1 => Some PointOfInitialMethod
  | 29 => Some MerchantAccountInfoIndividual
  | 30 => Some MerchantAccountInfoMerchant
  | 52 => Some MerchantCategoryCode
  | 53 => Some TransactionCurrency
  | 54 => Some TransactionAmount
  | 58 => Some CountryCode
  | 59 => Some MerchantName
  | 60 => Some MerchantCity
  | 62 => Some AdditionalDataTemplate
  | 99 => Some AdditionalDataField
  | 63 => Some Crc
  | 15 => Some UnionPayMerchant
  | 64 => Some MerchantInformationLanguageTemplate
  | _ => None
  end.

(** [Tags::max_length]. *)
Definition max_length (t : Tags) : nat :=
  match t with
  | PayloadFormatIndicator => 2
  | PointOfInitialMethod => 2
  | TransactionCurrency => 3
  | CountryCode => 3
  | Crc => 4
  | MerchantAccountInfoIndividual => 99
  | MerchantAccountInfoMerchant => 99
  | MerchantCategoryCode => 4
  | TransactionAmount => 14
  | MerchantName => 25
  | MerchantCity => 15
  | AdditionalDataTemplate => 99
  | AdditionalDataField => 99
  | UnionPayMerchant => 99
  | MerchantInformationLanguageTemplate => 99
  end.

(** [Tags::validate_length]: the merchant category code must be exactly
    four ASCII digits; every other tag only has its maximum length. *)
Definition validate_length (t : Tags) (value : string) : result unit string :=
  let len := String.length value in
  let max := max_length t in
  match t with
  | MerchantCategoryCode =>
      if negb (Nat.eqb len 4) then Err "MerchantCategoryCode must be exactly 4 digits"
      else if negb (str_all is_ascii_digit value) then Err "MerchantCategoryCode must contain only digits"
      else Ok tt
  | _ =>
      if Nat.ltb max len then Err (debug_name t ++ " exceeds max length " ++ fmt_u (Z.of_nat max))
      else Ok tt
  end.

End Tag.


Module SubTag.
Import Tag.

Inductive SubTags : Set :=
| BakongAccountIdentifier
| IndividualAccountInformation
| MerchantIdentifier
| AcquiringBank
| BillNumber
| MobileNumber
| StoreLabel
| TerminalLabel
| PurposeOfTransaction
| LanguagePreference
| MerchantNameAlternateLanguage
| MerchantCityAlternateLanguage
| CreationTimestamp
| ExpirationTimestamp.

Scheme Equality for SubTags.

(** [#[derive(Debug)]]. *)
Definition debug_name (t : SubTags) : string :=
  match t with
  | BakongAccountIdentifier => "BakongAccountIdentifier"
  | IndividualAccountInformation => "IndividualAccountInformation"
  | MerchantIdentifier => "MerchantIdentifier"
  | AcquiringBank => "AcquiringBank"
  | BillNumber => "BillNumber"
  | MobileNumber => "MobileNumber"
  | StoreLabel => "StoreLabel"
  | TerminalLabel => "TerminalLabel"
  | PurposeOfTransaction => "PurposeOfTransaction"
  | LanguagePreference => "LanguagePreference"
  | MerchantNameAlternateLanguage => "MerchantNameAlternateLanguage"
  | MerchantCityAlternateLanguage => "MerchantCityAlternateLanguage"
  | CreationTimestamp => "CreationTimestamp"
  | ExpirationTimestamp => "ExpirationTimestamp"
  end.

(** [SubTags::code]. *)
Definition code (t : SubTags) : Z :=
  match t with
  | BakongAccountIdentifier => 0
  | IndividualAccountInformation => 1
  | MerchantIdentifier => 1
  | AcquiringBank => 2
  | BillNumber => 1
  | MobileNumber => 2
  | StoreLabel => 3
  | TerminalLabel => 7
  | PurposeOfTransaction => 8
  | LanguagePreference => 0
  | MerchantNameAlternateLanguage => 1
  | MerchantCityAlternateLanguage => 2
  | CreationTimestamp => 0
  | ExpirationTimestamp => 1
  end.

(** [SubTags::from_code(tag, code)]: the pair is the key. *)
Definition from_code (tag : Tags) (c : Z) : option SubTags :=
  match tag, c with
  | MerchantAccountInfoIndividual, 0 => Some BakongAccountIdentifier
  | MerchantAccountInfoIndividual, 1 => Some IndividualAccountInformation
  | MerchantAccountInfoMerchant, 1 => Some MerchantIdentifier
  | MerchantAccountInfoMerchant, 2 => Some AcquiringBank
  | AdditionalDataTemplate, 1 => Some BillNumber
  | AdditionalDataTemplate, 2 => Some MobileNumber
  | AdditionalDataTemplate, 3 => Some StoreLabel
  | AdditionalDataTemplate, 7 => Some TerminalLabel
  | AdditionalDataTemplate, 8 => Some PurposeOfTransaction
  | MerchantInformationLanguageTemplate, 0 => Some LanguagePreference
  | MerchantInformationLanguageTemplate, 1 => Some MerchantNameAlternateLanguage
  | MerchantInformationLanguageTemplate, 2 => Some MerchantCityAlternateLanguage
  | AdditionalDataField, 0 => Some CreationTimestamp
  | AdditionalDataField, 1 => Some ExpirationTimestamp
  | _, _ => None
  end.

(** [SubTags::max_length]. *)
Definition max_length (t : SubTags) : nat :=
  match t with
  | BakongAccountIdentifier => 32
  | IndividualAccountInformation => 32
  | MerchantIdentifier => 32
  | AcquiringBank => 32
  | BillNumber => 25
  | MobileNumber => 25
  | StoreLabel => 25
  | TerminalLabel => 25
  | PurposeOfTransaction => 25
  | LanguagePreference => 2
  | MerchantNameAlternateLanguage => 25
  | MerchantCityAlternateLanguage => 15
  | CreationTimestamp => 13
  | ExpirationTimestamp => 13
  end.

(** [SubTags::validate_length]: exact length and alphabet for the
    language code and the two timestamps, maximum length and digits for
    the mobile number, maximum length for the rest. *)
Definition validate_length (t : SubTags) (value : string) : result unit string :=
  let len := String.length value in
  let max := max_length t in
  match t with
  | LanguagePreference =>
      if negb (Nat.eqb len 2) then Err "LanguagePreference must be exactly 2 characters"
      else if negb (str_all is_ascii_alphabetic value)
      then Err "LanguagePreference must contain only alphabetic characters"
      else Ok tt
  | CreationTimestamp | ExpirationTimestamp =>
      if negb (Nat.eqb len 13) then Err (debug_name t ++ " must be exactly 13 digits")
      else if negb (str_all is_ascii_digit value) then Err (debug_name t ++ " must contain only digits")
      else Ok tt
  | MobileNumber =>
      if Nat.ltb max len then Err (debug_name t ++ " exceeds max length " ++ fmt_u (Z.of_nat max))
      else if negb (str_all is_ascii_digit value) then Err "MobileNumber must contain only digits"
      else Ok tt
  | _ =>
      if Nat.ltb max len then Err (debug_name t ++ " exceeds max length " ++ fmt_u (Z.of_nat max))
      else Ok tt
  end.

(** The boolean condition under which [validate_length] succeeds. *)
Definition valid (t : SubTags) (value : string) : bool :=
  match t with
  | LanguagePreference => Nat.eqb (String.length value) 2 && str_all is_ascii_alphabetic value
  | CreationTimestamp | ExpirationTimestamp =>
      Nat.eqb (String.length value) 13 && str_all is_ascii_digit value
  | MobileNumber => negb (Nat.ltb (max_length t) (String.length value)) && str_all is_ascii_digit value
  | _ => negb (Nat.ltb (max_length t) (String.length value))
  end.

End SubTag.

(** ** Lemmas on [Tags] *)

Import Tag.

Lemma tag_from_code_code t : from_code (code t) = Some t.
Proof. destruct t; reflexivity. Qed.

Lemma tag_code_from_code n t : Tag.from_code n = Some t -> code t = n.
Proof.
  unfold from_code. intros H.
  destruct n as [|p|p]; try discriminate H; [injection H as <-; reflexivity|].
  repeat (destruct p as [p|p|]; try discriminate H; try (injection H as <-; reflexivity)).
Qed.

Lemma tag_code_range t : 0 <= code t < 100.
Proof. destruct t; simpl; lia. Qed.

Lemma tag_validate_length_generic t value :
  t <> MerchantCategoryCode ->
  validate_length t value = Ok tt <-> (String.length value <= max_length t)%nat.
Proof.
  intros Ht. unfold validate_length.
  cbv zeta. destruct (Nat.ltb_spec (max_length t) (String.length value));
  destruct t; try congruence; split; intros; try discriminate; try lia; reflexivity.
Qed.

Lemma tag_validate_length_mcc value :
  validate_length MerchantCategoryCode value = Ok tt <->
  String.length value = 4%nat /\ str_all is_ascii_digit value = true.
Proof.
  unfold validate_length.
  destruct (Nat.eqb_spec (String.length value) 4), (str_all is_ascii_digit value);
    simpl; split; intros H; first [reflexivity | discriminate | (destruct H; congruence) | tauto].
Qed.

(** ** Lemmas on [SubTags] *)

Import SubTag.

Lemma subtag_validate_length_ok t value : validate_length t value = Ok tt <-> valid t value = true.
Proof.
  unfold validate_length, valid. cbv zeta.
  destruct (Nat.ltb (max_length t) (String.length value)), (Nat.eqb (String.length value) 2),
    (Nat.eqb (String.length value) 13), (str_all is_ascii_digit value),
    (str_all is_ascii_alphabetic value);
  destruct t; simpl; split; intros; (reflexivity || discriminate).
Qed.

Lemma subtag_validate_length_valid t value : valid t value = true -> validate_length t value = Ok tt.
Proof. apply subtag_validate_length_ok. Qed.

Lemma subtag_valid_max_length t value : valid t value = true -> (String.length value <= max_length t)%nat.
Proof.
  unfold valid. destruct t; rewrite ?andb_true_iff, ?negb_true_iff, ?Nat.eqb_eq, ?Nat.ltb_ge;
    simpl; lia.
Qed.

Lemma subtag_from_code_code_eq tag c t : from_code tag c = Some t -> code t = c.
Proof.
  intros H. destruct tag; try discriminate H;
    destruct c as [|p|p]; try discriminate H; try (injection H as <-; reflexivity);
    repeat (destruct p as [p|p|]; try discriminate H; try (injection H as <-; reflexivity)).
Qed.

Lemma subtag_code_range t : 0 <= code t < 100.
Proof. destruct t; simpl; lia. Qed.

Lemma subtag_max_length_le_32 t : (max_length t <= 32)%nat.
Proof. destruct t; simpl; lia. Qed.

Lemma subtag_valid_len_100 t value : valid t value = true -> 0 <= Z.of_nat (String.length value) < 100.
Proof. intros H. pose proof (subtag_valid_max_length t value H). pose proof (subtag_max_length_le_32 t). lia. Qed.

(** Only codes 00 and 01 are in the scope of the timestamp field. *)
Lemma subtag_from_code_adf c t : from_code Tag.AdditionalDataField c = Some t -> c = 0 \/ c = 1.
Proof.
  intros H. pose proof (subtag_from_code_code_eq _ _ _ H) as <-.
  destruct t; cbn in H |- *; try discriminate; auto.
Qed.

#[export] Hint Resolve tag_from_code_code tag_code_range subtag_code_range
  subtag_validate_length_valid subtag_valid_max_length : khqr.

(** Turn the [validate_length] results of an inverted call into
    [valid] facts, and [valid] facts into [validate_length] results. *)
Ltac valid_of_ok :=
  repeat match goal with
  | E : SubTag.validate_length ?t ?v = Ok ?u |- _ =>
      destruct u; apply subtag_validate_length_ok in E
  end.

Ltac ok_of_valid :=
  repeat match goal with
  | E : SubTag.valid ?t ?v = true |- context [SubTag.validate_length ?t ?v] =>
      rewrite (subtag_validate_length_valid t v E)
  end.
