(* ===== verification/Tlv.v ===== *)
(** * The TLV scan and emit primitives

    Each nested decoder ([IndivualInformation::from_string],
    [MerchantInformation::from_string], [AdditionalDataTemplate::from_string],
    [AdditionalDataField::from_string],
    [MerchantInformationLanguageTemplate::from_string]) repeats the same
    [while !slice.is_empty()] loop, differing only in its parent tag,
    its error texts and what it does with a field.  [Section Scan]
    models that loop once, over a record [ScanMsgs] of the texts and a
    field handler [apply]; each decoder instantiates it.  The emit side
    is [write_tlv] of [RustStr]; the crate's [TLV] trait
    ([to_tlv(&self, temp, buffer)]) is the class [TLV]. *)

From Stdlib Require Import String Ascii ZArith List Lia Bool.
From S2P Require Import Prelude RustStr Tags.
Import ListNotations.
Open Scope string_scope.
Open Scope Z_scope.

(** The error texts of one decoder's loop. *)
Record ScanMsgs : Type := {
  msg_tag : string -> string;   (* tag of two characters does not parse as u8 *)
  msg_len : Z -> string;        (* length does not parse as usize *)
  msg_bound : string;           (* declared length exceeds the remaining slice *)
  msg_unknown : Z -> string     (* no sub-tag with this code under the parent *)
}.

(** [trait TLV { fn to_tlv(&self, temp: &mut String, buffer: &mut String) -> Result<(), Error>; }]:
    the two buffers are passed in and returned as (temp, buffer). *)
Class TLV (A : Type) := to_tlv : A -> string -> string -> io_result (string * string).

Section Scan.
Context {St : Type}.
Variable parent : Tag.Tags.
Variable msgs : ScanMsgs.
(** What the loop body does with a validated field. *)
Variable apply : St -> SubTag.SubTags -> string -> io_result St.

(** One iteration of the loop body, on a non-empty [slice]. *)
Definition scan_step (slice : string) (st : St) : io_result (St * string) :=
  tag_s <- str_slice slice 0 2 ;;
  tag <- ok_or (parse_u8 tag_s) (IoError InvalidData (msg_tag msgs tag_s)) ;;
  len_s <- str_slice slice 2 4 ;;
  length <- ok_or (parse_usize len_s) (IoError InvalidData (msg_len msgs tag)) ;;
  let value_end := (4 + Z.to_nat length)%nat in
  if Nat.ltb (String.length slice) value_end then Err (IoError InvalidData (msg_bound msgs)) else
  data <- str_slice slice 4 value_end ;;
  sub_tag <- ok_or (SubTag.from_code parent tag) (IoError InvalidData (msg_unknown msgs tag)) ;;
  invalid_data (SubTag.validate_length sub_tag data) ;;
  st' <- apply st sub_tag data ;;
  rest <- str_slice_from slice value_end ;;
  Ok (st', rest).

(** [while !slice.is_empty() { .. }] with at most [fuel] iterations. *)
Fixpoint scan (fuel : nat) (slice : string) (st : St) : io_result St :=
  match slice with
  | EmptyString => Ok st
  | String _ _ =>
      match fuel with
      | O => Err OutOfFuel
      | S f => '(st', rest) <- scan_step slice st ;; scan f rest st'
      end
  end.

(** The loop run with fuel = the input length, enough by [scan_fuel_enough]. *)
Definition scan_all (slice : string) (st : St) : io_result St :=
  scan (String.length slice) slice st.

(** [fields] applied in order, as the loop applies them. *)
Fixpoint apply_fields (fields : list (SubTag.SubTags * string)) (st : St) : io_result St :=
  match fields with
  | [] => Ok st
  | (t, v) :: fs => st' <- apply st t v ;; apply_fields fs st'
  end.
(** A field the loop under [parent] accepts: its code is in the
    parent's scope, its value passes [validate_length], and it starts
    on a char boundary (true of any valid UTF-8 string). *)
Definition field_ok (f : SubTag.SubTags * string) : Prop :=
  SubTag.from_code parent (SubTag.code (fst f)) = Some (fst f) /\
  SubTag.valid (fst f) (snd f) = true /\ starts_clean (snd f) = true.
End Scan.

(** The fragments [code(2) len(2) value] of [fields], concatenated: what
    the emitters write with [write!(temp, "{:02}{:02}{}", ..)]. *)
Fixpoint emit_fields (fields : list (SubTag.SubTags * string)) : string :=
  match fields with
  | [] => ""
  | (t, v) :: fs => write_tlv "" (SubTag.code t) v ++ emit_fields fs
  end.

(** ** Lemmas on the scan loop *)

Section ScanLemmas.
Context {St : Type}.
Variable parent : Tag.Tags.
Variable msgs : ScanMsgs.
Variable apply : St -> SubTag.SubTags -> string -> io_result St.

Lemma scan_cons f slice st :
  slice <> EmptyString ->
  scan parent msgs apply (S f) slice st =
  ('(st', rest) <- scan_step parent msgs apply slice st ;; scan parent msgs apply f rest st').
Proof. destruct slice; [congruence | reflexivity]. Qed.

(** Every iteration consumes its 4-byte header at least. *)
Lemma scan_step_shrinks slice st st' rest :
  scan_step parent msgs apply slice st = Ok (st', rest) ->
  (String.length rest + 4 <= String.length slice)%nat.
Proof.
  unfold scan_step. intros H. res_inv.
  match goal with H : (if Nat.ltb ?a ?b then _ else _) = _ |- _ =>
    destruct (Nat.ltb_spec a b); [discriminate|] end.
  res_inv. subst.
  match goal with H : str_slice_from _ _ = Ok _ |- _ => apply str_slice_from_ok in H end.
  subst. rewrite str_drop_length. lia.
Qed.

(** The loop body never runs out of fuel unless the handler does. *)
Hypothesis apply_no_fuel : forall st t v, apply st t v <> Err OutOfFuel.

Lemma scan_step_no_fuel slice st : scan_step parent msgs apply slice st <> Err OutOfFuel.
Proof.
  unfold scan_step.
  destruct (str_slice slice 0 2) eqn:E1; [|apply str_slice_err in E1; subst; discriminate].
  destruct (parse_u8 a); [|discriminate]. cbn [ok_or].
  destruct (str_slice slice 2 4) eqn:E2; [|apply str_slice_err in E2; subst; discriminate].
  destruct (parse_usize a0); [|discriminate]. cbn [ok_or].
  destruct (Nat.ltb _ _); [discriminate|].
  destruct (str_slice slice 4 _) eqn:E3; [|apply str_slice_err in E3; subst; discriminate].
  destruct (SubTag.from_code parent z); [|discriminate]. cbn [ok_or].
  destruct (SubTag.validate_length s a1) as [[]|]; [|discriminate]. cbn [invalid_data map_err].
  destruct (apply st s a1) eqn:E4;
    [|intros Hc; injection Hc as ->; exact (apply_no_fuel _ _ _ E4)].
  destruct (str_slice_from _ _) eqn:E5; [discriminate | apply str_slice_from_err in E5; subst; discriminate].
Qed.

(** with fuel at least the input length the scan
    loop never reports [OutOfFuel]: it finishes with a state or with
    an error of the code. *)
Theorem scan_fuel_enough fuel : forall slice st,
  (String.length slice <= fuel)%nat -> scan parent msgs apply fuel slice st <> Err OutOfFuel.
Proof.
  induction fuel as [|f IH]; intros slice st Hl; destruct slice as [|c s]; simpl; try discriminate.
  - simpl in Hl. lia.
  - destruct (scan_step _ _ _ _ _) as [[st' rest]|e] eqn:E.
    + apply scan_step_shrinks in E. apply IH. simpl in *. lia.
    + intros Hc. injection Hc as ->. exact (scan_step_no_fuel _ _ E).
Qed.
(** The loop fails only as its body does: a validation error, a slice
    panic, or an error of [apply] of the same kinds. *)
Lemma scan_err fuel : forall slice st e,
  (forall st t v e, apply st t v = Err e -> decode_error e) ->
  scan parent msgs apply fuel slice st = Err e -> decode_error e.
Proof.
  induction fuel as [|f IH]; intros slice st e Ha H; destruct slice as [|c s]; cbn [scan] in H;
    try discriminate H.
  - injection H as <-. auto with errkind.
  - destruct (scan_step parent msgs apply (String c s) st) as [[st' rest]|e'] eqn:E;
      [eapply IH; eauto|].
    injection H as <-. unfold scan_step, ok_or in E. err_inv; eauto with errkind.
Qed.

End ScanLemmas.

(** ** Emitting then scanning *)

Lemma starts_clean_app_l (p r : string) :
  p <> EmptyString -> starts_clean (p ++ r) = starts_clean p.
Proof. destruct p; [congruence | reflexivity]. Qed.

Lemma app_nonempty_l (p r : string) : p <> EmptyString -> p ++ r <> EmptyString.
Proof. destruct p; [congruence | discriminate]. Qed.

Lemma write_tlv_empty c v : write_tlv "" c v = fmt_02 c ++ fmt_02 (Z.of_nat (String.length v)) ++ v.
Proof. reflexivity. Qed.

(** The header of a fragment [code(2) len(2)] followed by any text that
    starts on a char boundary: the slices and parses of a loop's first
    steps. *)
Lemma fragment_header c n s :
  0 <= c < 100 -> 0 <= n < 100 -> starts_clean s = true ->
  str_slice (fmt_02 c ++ fmt_02 n ++ s) 0 2 = Ok (fmt_02 c) /\ parse_u8 (fmt_02 c) = Some c /\
  str_slice (fmt_02 c ++ fmt_02 n ++ s) 2 4 = Ok (fmt_02 n) /\ parse_usize (fmt_02 n) = Some n.
Proof.
  intros Hc Hn Hs.
  assert (LA : String.length (fmt_02 c) = 2%nat) by (apply fmt_02_length; lia).
  assert (LB : String.length (fmt_02 n) = 2%nat) by (apply fmt_02_length; lia).
  assert (CB : starts_clean (fmt_02 n) = true) by (apply digits_starts_clean, fmt_02_digits; lia).
  assert (NA : fmt_02 c <> EmptyString) by (intros E; rewrite E in LA; discriminate).
  assert (NB : fmt_02 n <> EmptyString) by (intros E; rewrite E in LB; discriminate).
  repeat split.
  - apply str_slice_prefix; [auto|]. rewrite starts_clean_app_l; auto.
  - apply parse_u8_fmt_02; lia.
  - apply str_slice_mid; auto; lia.
  - apply parse_usize_fmt_02; lia.
Qed.

(** The slices and parses one iteration of a decoding loop takes of an
    emitted fragment [code(2) len(2) value] followed by [rest]. *)
Lemma fragment_slices c v rest :
  0 <= c < 100 -> (String.length v < 100)%nat -> starts_clean v = true -> starts_clean rest = true ->
  str_slice (write_tlv "" c v ++ rest) 0 2 = Ok (fmt_02 c) /\ parse_u8 (fmt_02 c) = Some c /\
  str_slice (write_tlv "" c v ++ rest) 2 4 = Ok (fmt_02 (Z.of_nat (String.length v))) /\
  parse_usize (fmt_02 (Z.of_nat (String.length v))) = Some (Z.of_nat (String.length v)) /\
  str_slice (write_tlv "" c v ++ rest) 4 (4 + String.length v) = Ok v /\
  str_slice_from (write_tlv "" c v ++ rest) (4 + String.length v) = Ok rest /\
  String.length (write_tlv "" c v ++ rest) = (4 + String.length v + String.length rest)%nat.
Proof.
  intros Hcr Hl Hcl Hr. rewrite write_tlv_empty.
  destruct (fragment_header c (Z.of_nat (String.length v)) (v ++ rest)) as (S1 & P1 & S2 & P2);
    [lia | lia | now apply starts_clean_app |].
  rewrite !string_app_assoc. repeat (split; [assumption|]).
  set (A := fmt_02 c). set (B := fmt_02 (Z.of_nat (String.length v))).
  assert (LA : String.length A = 2%nat) by (apply fmt_02_length; lia).
  assert (LB : String.length B = 2%nat) by (apply fmt_02_length; lia).
  assert (NA : A <> EmptyString) by (intros E; rewrite E in LA; discriminate).
  replace (A ++ B ++ v ++ rest) with ((A ++ B) ++ v ++ rest) by (rewrite !string_app_assoc; reflexivity).
  repeat split.
  - apply (str_slice_mid (A ++ B) v rest); auto using app_nonempty_l; rewrite ?string_length_app; lia.
  - rewrite <- (string_app_assoc (A ++ B)).
    apply str_slice_from_mid; auto using app_nonempty_l; rewrite ?string_length_app; lia.
  - rewrite !string_length_app. lia.
Qed.

Section EmitScan.
Context {St : Type}.
Variable parent : Tag.Tags.
Variable msgs : ScanMsgs.
Variable apply : St -> SubTag.SubTags -> string -> io_result St.

(** One iteration over an emitted fragment of a valid value: the
    header parses back, and the loop continues with the sub-tag the
    parent's scope gives the code. *)
Lemma scan_step_emit_gen t v rest st :
  SubTag.valid t v = true -> starts_clean v = true -> starts_clean rest = true ->
  scan_step parent msgs apply (write_tlv "" (SubTag.code t) v ++ rest) st =
  (sub_tag <- ok_or (SubTag.from_code parent (SubTag.code t))
                    (IoError InvalidData (msg_unknown msgs (SubTag.code t))) ;;
   invalid_data (SubTag.validate_length sub_tag v) ;;
   st' <- apply st sub_tag v ;;
   Ok (st', rest)).
Proof.
  intros Hv Hcl Hr.
  pose proof (subtag_code_range t) as Hcr. pose proof (subtag_valid_len_100 t v Hv) as Hl.
  destruct (fragment_slices (SubTag.code t) v rest Hcr ltac:(lia) Hcl Hr)
    as (S1 & PA & S2 & PB & S3 & S4 & L).
  unfold scan_step. rewrite S1, PA. cbn [ok_or].
  rewrite S2, PB. cbn [ok_or]. rewrite Nat2Z.id.
  rewrite (proj2 (Nat.ltb_ge _ _)) by lia.
  rewrite S3.
  destruct (SubTag.from_code parent (SubTag.code t)); [|reflexivity]. cbn [ok_or].
  destruct (invalid_data _); [|reflexivity].
  destruct (apply st _ v); [|reflexivity].
  now rewrite S4.
Qed.

Lemma scan_step_emit t v rest st :
  field_ok parent (t, v) -> starts_clean rest = true ->
  scan_step parent msgs apply (write_tlv "" (SubTag.code t) v ++ rest) st =
  (st' <- apply st t v ;; Ok (st', rest)).
Proof.
  intros (Hc & Hv & Hcl) Hr. simpl in Hc, Hv, Hcl.
  rewrite scan_step_emit_gen, Hc by auto. cbn [ok_or].
  now rewrite subtag_validate_length_valid by exact Hv.
Qed.

(** A fragment whose code the parent's scope does not know stops the
    loop with the decoder's "unknown sub-tag" error. *)
Lemma scan_step_emit_unknown t v rest st :
  SubTag.from_code parent (SubTag.code t) = None ->
  SubTag.valid t v = true -> starts_clean v = true -> starts_clean rest = true ->
  scan_step parent msgs apply (write_tlv "" (SubTag.code t) v ++ rest) st =
  Err (IoError InvalidData (msg_unknown msgs (SubTag.code t))).
Proof. intros Hn Hv Hcl Hr. now rewrite scan_step_emit_gen, Hn. Qed.

Lemma emit_fields_clean fs : Forall (field_ok parent) fs -> starts_clean (emit_fields fs) = true.
Proof.
  destruct fs as [|[t v] fs]; intros H; [reflexivity|].
  inversion H as [|? ? [_ [Hv _]] _]; subst. simpl in Hv.
  pose proof (subtag_code_range t).
  cbn [emit_fields]. rewrite write_tlv_empty, !string_app_assoc, starts_clean_app_l.
  - apply digits_starts_clean, fmt_02_digits. lia.
  - apply fmt_02_nonempty. lia.
Qed.

Lemma emit_fields_cons_length t v :
  (2 <= String.length (write_tlv "" (SubTag.code t) v))%nat.
Proof.
  rewrite write_tlv_empty, string_length_app, fmt_02_length; [lia|].
  apply subtag_code_range.
Qed.

(** Fields of at most [k < 100] bytes are emitted in [4 + k] bytes each. *)
Lemma emit_fields_bound k fs :
  (k < 100)%nat -> Forall (fun f => (String.length (snd f) <= k)%nat) fs ->
  (String.length (emit_fields fs) <= length fs * (4 + k))%nat.
Proof.
  intros Hk HF. induction HF as [|[t v] fs Hv HF IH]; cbn [emit_fields length snd] in *; [cbn; lia|].
  pose proof (subtag_code_range t).
  rewrite string_length_app, write_tlv_empty, !string_length_app, !fmt_02_length by lia.
  cbn [Nat.mul]. lia.
Qed.

Lemma scan_fuel_irrelevant f1 : forall f2 slice st,
  (String.length slice <= f1)%nat -> (String.length slice <= f2)%nat ->
  scan parent msgs apply f1 slice st = scan parent msgs apply f2 slice st.
Proof.
  induction f1 as [|f IH]; intros f2 slice st H1 H2; destruct slice as [|c s];
    try (destruct f2; reflexivity); [simpl in H1; lia|].
  destruct f2 as [|g]; [simpl in H2; lia|]. simpl.
  destruct (scan_step _ _ _ _ _) as [[st' rest]|] eqn:E; [|reflexivity].
  apply scan_step_shrinks in E. simpl in *. apply IH; lia.
Qed.

Lemma emit_then_clean fs rest :
  Forall (field_ok parent) fs -> starts_clean rest = true -> starts_clean (emit_fields fs ++ rest) = true.
Proof.
  intros Hf Hr. destruct fs as [|f fs]; [exact Hr|].
  apply starts_clean_app; [apply emit_fields_clean; exact Hf | exact Hr].
Qed.

(** Scanning emitted fragments followed by anything applies the fields,
    then goes on with what follows. *)
Lemma scan_emit_fields_app fs : forall rest fuel st,
  Forall (field_ok parent) fs -> starts_clean rest = true ->
  (String.length (emit_fields fs ++ rest) <= fuel)%nat ->
  scan parent msgs apply fuel (emit_fields fs ++ rest) st =
  (st' <- apply_fields apply fs st ;; scan_all parent msgs apply rest st').
Proof.
  induction fs as [|[t v] fs IH]; intros rest fuel st Hf Hr Hl.
  - apply scan_fuel_irrelevant; [exact Hl | apply le_n].
  - inversion Hf as [|? ? Hok Hfs]; subst.
    pose proof (emit_fields_cons_length t v) as L2.
    cbn [emit_fields] in *. rewrite string_app_assoc in *. rewrite string_length_app in Hl.
    destruct fuel as [|f]; [lia|].
    rewrite scan_cons by (intros E; apply (f_equal String.length) in E;
                          rewrite string_length_app in E; simpl in E; lia).
    rewrite scan_step_emit by auto using emit_then_clean.
    cbn [apply_fields]. destruct (apply st t v); [|reflexivity].
    apply IH; auto. lia.
Qed.

(** the scan loop run over the fragments the emitters
    write for accepted fields applies exactly those fields, in order. *)
Theorem scan_emit_fields fs st :
  Forall (field_ok parent) fs ->
  scan_all parent msgs apply (emit_fields fs) st = apply_fields apply fs st.
Proof.
  intros H. unfold scan_all.
  rewrite <- (string_app_nil_r (emit_fields fs)) at 1 2.
  rewrite scan_emit_fields_app by auto.
  now destruct (apply_fields apply fs st).
Qed.
(** A fragment with a code out of the parent's scope ends the loop. *)
Lemma scan_all_emit_unknown t v st :
  SubTag.from_code parent (SubTag.code t) = None ->
  SubTag.valid t v = true -> starts_clean v = true ->
  scan_all parent msgs apply (write_tlv "" (SubTag.code t) v) st =
  Err (IoError InvalidData (msg_unknown msgs (SubTag.code t))).
Proof.
  intros Hn Hv Hc. unfold scan_all.
  pose proof (emit_fields_cons_length t v) as L.
  destruct (String.length (write_tlv "" (SubTag.code t) v)) as [|f] eqn:E; [lia|].
  rewrite <- (string_app_nil_r (write_tlv "" (SubTag.code t) v)) at 1.
  rewrite scan_cons.
  - now rewrite scan_step_emit_unknown.
  - intros E'. rewrite string_app_nil_r in E'. rewrite E' in E. discriminate E.
Qed.
End EmitScan.

Lemma write_tlv_clean c v : 0 <= c < 100 -> starts_clean (write_tlv "" c v) = true.
Proof.
  intros H. rewrite write_tlv_empty, starts_clean_app_l by (apply fmt_02_nonempty; exact H).
  apply digits_starts_clean, fmt_02_digits, H.
Qed.

(** A handler that cannot fail applies the fields as a fold. *)
Lemma apply_fields_pure {St} (f : St -> SubTag.SubTags -> string -> St) fs st :
  apply_fields (fun st t v => Ok (f st t v)) fs st =
  Ok (fold_left (fun st tv => f st (fst tv) (snd tv)) fs st).
Proof. revert st; induction fs as [|[t v] fs IH]; intros st; simpl; auto. Qed.

(** ** Invariants of the scan loop *)

Section ScanInvariant.
Context {St : Type}.
Variable parent : Tag.Tags.
Variable msgs : ScanMsgs.
Variable apply : St -> SubTag.SubTags -> string -> io_result St.
Variable P : St -> Prop.

(** [P] holds after every field the parent's scope can name. *)
Hypothesis apply_preserves : forall st t c v st',
  P st -> SubTag.from_code parent c = Some t -> apply st t v = Ok st' -> P st'.

Lemma scan_step_preserves slice st st' rest :
  P st -> scan_step parent msgs apply slice st = Ok (st', rest) -> P st'.
Proof.
  intros HP H. unfold scan_step in H. res_inv.
  match goal with H : (if ?c then _ else _) = _ |- _ => destruct c; [discriminate|] end.
  res_inv. subst. eauto.
Qed.

Lemma scan_preserves fuel : forall slice st st',
  P st -> scan parent msgs apply fuel slice st = Ok st' -> P st'.
Proof.
  induction fuel as [|f IH]; intros slice st st' HP H; destruct slice; simpl in H;
    try discriminate; try (injection H as <-; exact HP).
  destruct (scan_step _ _ _ _ _) as [[st1 rest]|] eqn:E; [|discriminate].
  eapply IH; [eapply scan_step_preserves; eauto | exact H].
Qed.
End ScanInvariant.

Lemma emit_fields_app fs gs : emit_fields (fs ++ gs) = emit_fields fs ++ emit_fields gs.
Proof.
  induction fs as [|[t v] fs IH]; simpl; [reflexivity|].
  now rewrite IH, string_app_assoc.
Qed.

(** [write!(temp, "{:02}{:02}{}", ..)] appends a fragment to [temp]. *)
Lemma write_tlv_acc acc c v : write_tlv acc c v = acc ++ write_tlv "" c v.
Proof. reflexivity. Qed.

(** Rewrites every [write_tlv acc c v] with a non-empty [acc] into
    [acc ++ write_tlv "" c v], then reassociates. *)
Ltac norm_tlv :=
  repeat match goal with
         | |- context [write_tlv ?a ?c ?v] =>
             lazymatch a with "" => fail | _ => rewrite (write_tlv_acc a c v) end
         end;
  rewrite ?string_app_assoc, ?string_app_nil_r.

(** A value of one to three bytes makes the loop slice past its end
    (after the tag parses, when it is longer than one byte): Rust panics. *)
Lemma scan_all_short_panic {St} parent msgs (apply : St -> SubTag.SubTags -> string -> io_result St) v st :
  (1 <= String.length v <= 3)%nat ->
  (String.length v = 1%nat \/ exists t, parse_u8 (str_take 2 v) = Some t) ->
  scan_all parent msgs apply v st = Err slice_panic.
Proof.
  intros L H. unfold scan_all. destruct v as [|c r]; [cbn in L; lia|].
  cbn [String.length scan]. unfold scan_step.
  destruct (str_slice (String c r) 0 2) as [ts|e] eqn:E1;
    [|apply str_slice_err in E1; subst; reflexivity].
  pose proof (str_slice_bound _ _ _ _ E1) as B1. apply str_slice_ok in E1. subst ts.
  destruct H as [H|[t Ht]]; [lia|]. cbn [Nat.sub str_drop] in Ht |- *. rewrite Ht. cbn [ok_or].
  destruct (str_slice (String c r) 2 4) as [ls|e] eqn:E2;
    [apply str_slice_bound in E2; lia | apply str_slice_err in E2; subst; reflexivity].
Qed.

(** The loop run by [scan_all] never runs out of fuel when the field
    handler never does. *)
Lemma scan_all_no_fuel {St} parent msgs (apply : St -> SubTag.SubTags -> string -> io_result St) v st :
  (forall st t v, apply st t v <> Err OutOfFuel) -> scan_all parent msgs apply v st <> Err OutOfFuel.
Proof. intros H. apply scan_fuel_enough; [exact H | apply le_n]. Qed.

(** ** Witnesses *)

Lemma scan_fuel_enough_witness :
  (forall (st : unit) (t : SubTag.SubTags) (v : string), @Ok unit Error st <> Err OutOfFuel) /\
  (String.length "0113abcdefghijklm" <= 17)%nat /\
  scan Tag.AdditionalDataField
    {| msg_tag := fun s => s; msg_len := fun _ => ""; msg_bound := ""; msg_unknown := fun _ => "" |}
    (fun (st : unit) (_ : SubTag.SubTags) (_ : string) => Ok st) 17 "0113abcdefghijklm" tt
    <> Err OutOfFuel.
Proof.
  split; [intros; discriminate|]. split; [simpl; lia|].
  apply scan_fuel_enough; [intros; discriminate | simpl; lia].
Defined.

Lemma scan_emit_fields_witness :
  Forall (field_ok Tag.AdditionalDataTemplate)
    [(SubTag.BillNumber, "INV-1"); (SubTag.StoreLabel, "Shop")] /\
  scan_all Tag.AdditionalDataTemplate
    {| msg_tag := fun s => s; msg_len := fun _ => ""; msg_bound := ""; msg_unknown := fun _ => "" |}
    (fun (st : list SubTag.SubTags) t (_ : string) => Ok (t :: st))
    (emit_fields [(SubTag.BillNumber, "INV-1"); (SubTag.StoreLabel, "Shop")]) [] =
  apply_fields (fun (st : list SubTag.SubTags) t (_ : string) => Ok (t :: st))
    [(SubTag.BillNumber, "INV-1"); (SubTag.StoreLabel, "Shop")] [].
Proof.
  assert (H : Forall (field_ok Tag.AdditionalDataTemplate)
    [(SubTag.BillNumber, "INV-1"); (SubTag.StoreLabel, "Shop")])
    by (repeat constructor).
  split; [exact H | apply scan_emit_fields; exact H].
Defined.

(** Close a failure of a decoder built on [scan]: the loop by [scan_err]
    (with the field handler's own failures), the rest by [errkind]. *)
Ltac scan_err_close :=
  match goal with
  | E : scan _ _ _ _ _ _ = Err _ |- decode_error _ =>
      eapply scan_err; [|exact E]; intros ? ? ? ? ?Ha; try discriminate Ha
  | _ => eauto with errkind
  end.
