(* ===== verification/Accounts.v ===== *)
(** * The merchant-account variant ([indivual_information.rs],
      [merchant_information.rs], [merchant_type.rs])

    [Module IndivualInfo] and [Module MerchantInfo] hold the two account
    records, their [apply_sub_tag] and their [from_string] decoder (the
    scan loop of [Tlv] under tag 29, resp. 30, then the required-field
    checks).  [Module MerchantTypes] holds [enum MerchantType] and its
    [TLV::to_tlv]: validate, write the sub-fragments into [temp], wrap
    [temp] as the value of tag 29 or 30 in [buffer], clear [temp].

    Theorems: [MerchantInformation::from_string] never succeeds (its
    scope has no code for the account identifier, which it requires);
    [IndivualInformation::from_string] reads back what [to_tlv] writes
    for an individual account without an acquiring bank, and rejects
    the one with a bank (code 02 is not in scope 29). *)

From Stdlib Require Import String Ascii ZArith List Lia Bool.
From S2P Require Import Prelude RustStr Tags Tlv.
Import ListNotations.
Open Scope string_scope.
Open Scope Z_scope.
Import Tag SubTag.

Module IndivualInfo.

Record IndivualInformation : Type := {
  bakong_account_identifier : string;
  individual_account_information : option string;
  acquiring_bank : option string
}.

(** [IndivualInformation::apply_sub_tag]. *)
Definition apply_sub_tag (self : IndivualInformation) (sub_tag : SubTags) (value : string)
  : IndivualInformation :=
  if Nat.ltb (SubTag.max_length sub_tag) (String.length value) then self else
  match sub_tag with
  | BakongAccountIdentifier =>
      {| bakong_account_identifier := value;
         individual_account_information := individual_account_information self;
         acquiring_bank := acquiring_bank self |}
  | IndividualAccountInformation =>
      {| bakong_account_identifier := bakong_account_identifier self;
         individual_account_information := Some value;
         acquiring_bank := acquiring_bank self |}
  | AcquiringBank =>
      {| bakong_account_identifier := bakong_account_identifier self;
         individual_account_information := individual_account_information self;
         acquiring_bank := Some value |}
  | _ => self
  end.

Definition scan_msgs : ScanMsgs := {|
  msg_tag := fun s => "Tag " ++ s ++ " can't be parsed!!!";
  msg_len := fun tag => "Error length parsing in tag : " ++ fmt_u tag;
  msg_bound := "Length is invalid!!!";
  msg_unknown := fun tag => "Unknown IndivualInformation sub-tag " ++ fmt_u tag |}.

Definition empty : IndivualInformation :=
  {| bakong_account_identifier := ""; individual_account_information := None; acquiring_bank := None |}.

(** [IndivualInformation::from_string]. *)
Definition from_string (value : string) : io_result IndivualInformation :=
  indiv_info <- scan_all MerchantAccountInfoIndividual scan_msgs
                  (fun st t v => Ok (apply_sub_tag st t v)) value empty ;;
  if String.eqb (bakong_account_identifier indiv_info) ""
  then Err (IoError InvalidData "Bakong account identifier is required but missing")
  else Ok indiv_info.

End IndivualInfo.

Module MerchantInfo.

Record MerchantInformation : Type := {
  bakong_account_identifier : string;
  merchant_identifier : string;
  acquiring_bank : string
}.

(** [MerchantInformation::apply_sub_tag]. *)
Definition apply_sub_tag (self : MerchantInformation) (sub_tag : SubTags) (value : string)
  : MerchantInformation :=
  if Nat.ltb (SubTag.max_length sub_tag) (String.length value) then self else
  match sub_tag with
  | BakongAccountIdentifier =>
      {| bakong_account_identifier := value; merchant_identifier := merchant_identifier self;
         acquiring_bank := acquiring_bank self |}
  | MerchantIdentifier =>
      {| bakong_account_identifier := bakong_account_identifier self; merchant_identifier := value;
         acquiring_bank := acquiring_bank self |}
  | AcquiringBank =>
      {| bakong_account_identifier := bakong_account_identifier self;
         merchant_identifier := merchant_identifier self; acquiring_bank := value |}
  | _ => self
  end.

Definition scan_msgs : ScanMsgs := {|
  msg_tag := fun s => "Tag " ++ s ++ " can't be parsed!!!";
  msg_len := fun tag => "Error length parsing in tag : " ++ fmt_u tag;
  msg_bound := "Length is invalid!!!";
  msg_unknown := fun tag => "Unknown MerchantInformation sub-tag " ++ fmt_u tag |}.

Definition empty : MerchantInformation :=
  {| bakong_account_identifier := ""; merchant_identifier := ""; acquiring_bank := "" |}.

(** [MerchantInformation::from_string]. *)
Definition from_string (value : string) : io_result MerchantInformation :=
  merchant_info <- scan_all MerchantAccountInfoMerchant scan_msgs
                     (fun st t v => Ok (apply_sub_tag st t v)) value empty ;;
  if String.eqb (bakong_account_identifier merchant_info) ""
  then Err (IoError InvalidData "Bakong account identifier is required but missing") else
  if String.eqb (merchant_identifier merchant_info) ""
  then Err (IoError InvalidData "Merchant identifier is required but missing") else
  if String.eqb (acquiring_bank merchant_info) ""
  then Err (IoError InvalidData "Acquiring bank is required but missing") else
  Ok merchant_info.

End MerchantInfo.

Module MerchantTypes.
Import IndivualInfo MerchantInfo.

Inductive MerchantType : Type :=
| Indivual (i : IndivualInformation)
| Merchant (m : MerchantInformation).

Definition at_msg : string := "Bakong account identifier must contain exactly one '@'".

(** [validate_length] then [write!(temp, "{:02}{:02}{}", code, len, value)]. *)
Definition write_checked (temp : string) (t : SubTags) (value : string) : io_result string :=
  invalid_data (SubTag.validate_length t value) ;;
  Ok (write_tlv temp (SubTag.code t) value).

(** [if let Some(v) = field { write_checked }]. *)
Definition write_opt (temp : string) (t : SubTags) (value : option string) : io_result string :=
  match value with
  | Some v => write_checked temp t v
  | None => Ok temp
  end.

(** [impl TLV for MerchantType]: [to_tlv(&self, temp, buffer)]. *)
Definition to_tlv (self : MerchantType) (temp buffer : string) : io_result (string * string) :=
  '(temp, tag) <-
    match self with
    | Indivual ii =>
        invalid_data (SubTag.validate_length BakongAccountIdentifier
                        (IndivualInfo.bakong_account_identifier ii)) ;;
        if negb (Nat.eqb (count_char "@" (IndivualInfo.bakong_account_identifier ii)) 1)
        then Err (IoError InvalidData at_msg) else
        let temp := write_tlv temp (SubTag.code BakongAccountIdentifier)
                      (IndivualInfo.bakong_account_identifier ii) in
        temp <- write_opt temp IndividualAccountInformation (individual_account_information ii) ;;
        temp <- write_opt temp AcquiringBank (IndivualInfo.acquiring_bank ii) ;;
        Ok (temp, MerchantAccountInfoIndividual)
    | Merchant mi =>
        invalid_data (SubTag.validate_length BakongAccountIdentifier
                        (MerchantInfo.bakong_account_identifier mi)) ;;
        if negb (Nat.eqb (count_char "@" (MerchantInfo.bakong_account_identifier mi)) 1)
        then Err (IoError InvalidData at_msg) else
        let temp := write_tlv temp (SubTag.code BakongAccountIdentifier)
                      (MerchantInfo.bakong_account_identifier mi) in
        temp <- write_checked temp MerchantIdentifier (merchant_identifier mi) ;;
        temp <- write_checked temp AcquiringBank (MerchantInfo.acquiring_bank mi) ;;
        Ok (temp, MerchantAccountInfoMerchant)
    end ;;
  let buffer := write_tlv buffer (Tag.code tag) temp in
  Ok ("", buffer).

#[export] Instance MerchantType_TLV : TLV MerchantType := to_tlv.

(** The sub-fields [to_tlv] writes, in order (specification helpers). *)
Definition opt_field (t : SubTags) (o : option string) : list (SubTags * string) :=
  match o with Some v => [(t, v)] | None => [] end.

Definition indiv_fields (ii : IndivualInformation) : list (SubTags * string) :=
  (BakongAccountIdentifier, IndivualInfo.bakong_account_identifier ii)
    :: opt_field IndividualAccountInformation (individual_account_information ii)
    ++ opt_field AcquiringBank (IndivualInfo.acquiring_bank ii).

Definition merchant_fields (mi : MerchantInformation) : list (SubTags * string) :=
  [(BakongAccountIdentifier, MerchantInfo.bakong_account_identifier mi);
   (MerchantIdentifier, merchant_identifier mi);
   (AcquiringBank, MerchantInfo.acquiring_bank mi)].

Definition opt_valid (t : SubTags) (o : option string) : bool :=
  match o with Some v => SubTag.valid t v | None => true end.

Definition opt_clean (o : option string) : bool :=
  match o with Some v => starts_clean v | None => true end.

(** The account identifier both variants carry. *)
Definition account_id (mt : MerchantType) : string :=
  match mt with
  | Indivual ii => IndivualInfo.bakong_account_identifier ii
  | Merchant mi => MerchantInfo.bakong_account_identifier mi
  end.

Definition fields_of (mt : MerchantType) : list (SubTags * string) :=
  match mt with Indivual ii => indiv_fields ii | Merchant mi => merchant_fields mi end.

(** The field checks [to_tlv] makes, as one boolean. *)
Definition fields_valid (mt : MerchantType) : bool :=
  SubTag.valid BakongAccountIdentifier (account_id mt) &&
  Nat.eqb (count_char "@" (account_id mt)) 1 &&
  match mt with
  | Indivual ii =>
      opt_valid IndividualAccountInformation (individual_account_information ii) &&
      opt_valid AcquiringBank (IndivualInfo.acquiring_bank ii)
  | Merchant mi =>
      SubTag.valid MerchantIdentifier (merchant_identifier mi) &&
      SubTag.valid AcquiringBank (MerchantInfo.acquiring_bank mi)
  end.

(** The outer tag of the variant. *)
Definition tag_of (mt : MerchantType) : Tags :=
  match mt with Indivual _ => MerchantAccountInfoIndividual | Merchant _ => MerchantAccountInfoMerchant end.

End MerchantTypes.

(** ** Theorems *)

Import IndivualInfo MerchantInfo MerchantTypes.

Lemma write_checked_valid temp t v :
  SubTag.valid t v = true -> write_checked temp t v = Ok (temp ++ emit_fields [(t, v)]).
Proof.
  intros H. unfold write_checked. rewrite subtag_validate_length_valid by exact H.
  simpl. now rewrite string_app_nil_r.
Qed.

Lemma write_opt_valid temp t o :
  opt_valid t o = true -> write_opt temp t o = Ok (temp ++ emit_fields (opt_field t o)).
Proof.
  destruct o as [v|]; simpl; intros H.
  - now rewrite write_checked_valid.
  - now rewrite string_app_nil_r.
Qed.

(** [MerchantInformation::from_string] never
    succeeds.  It requires a non-empty account identifier, but only
    sub-tag [BakongAccountIdentifier] sets it and scope 30 has no code
    for it (code 00 is rejected as unknown), so the scan always ends
    with an empty identifier or an error. *)
Lemma merchant_info_never_decodes (s : string) (m : MerchantInformation) :
  MerchantInfo.from_string s <> Ok m.
Proof.
  unfold MerchantInfo.from_string. intros H.
  destruct (scan_all _ _ _ s _) as [mi|] eqn:E; [|discriminate].
  assert (Hb : MerchantInfo.bakong_account_identifier mi = "").
  { eapply (scan_preserves MerchantAccountInfoMerchant _ _
             (fun m => MerchantInfo.bakong_account_identifier m = "")) with (st := MerchantInfo.empty);
      [|reflexivity|exact E].
    intros st t c v st' Hst Hc Ha. injection Ha as <-.
    pose proof (subtag_from_code_code_eq _ _ _ Hc). subst c.
    unfold MerchantInfo.apply_sub_tag. destruct (Nat.ltb _ _); [exact Hst|].
    destruct t; cbn in Hc; try discriminate Hc; exact Hst. }
  rewrite Hb in H. discriminate H.
Qed.


(** On a variant whose fields pass their checks, [to_tlv] appends
    [tag(2) len(2) temp ++ fields] to [buffer] and returns the scratch
    buffer cleared. *)
Lemma mt_to_tlv_fields mt temp buffer :
  fields_valid mt = true ->
  to_tlv mt temp buffer =
  Ok ("", write_tlv buffer (Tag.code (tag_of mt)) (temp ++ emit_fields (fields_of mt))).
Proof.
  unfold fields_valid. intros H. repeat rewrite andb_true_iff in H.
  destruct H as [[Ha Hat%Nat.eqb_eq] Hrest].
  destruct mt as [ii|mi]; cbn [account_id] in *; unfold to_tlv;
    rewrite subtag_validate_length_valid by exact Ha; cbn [invalid_data map_err];
    rewrite Hat; cbn [negb Nat.eqb].
  - cbn in Hrest. apply andb_true_iff in Hrest as [Hi Hb].
    rewrite write_opt_valid by exact Hi. rewrite write_opt_valid by exact Hb.
    unfold fields_of, indiv_fields. cbn [emit_fields tag_of].
    now rewrite emit_fields_app, (write_tlv_acc temp), (write_tlv_acc buffer), !string_app_assoc.
  - cbn in Hrest. apply andb_true_iff in Hrest as [Hm Hb].
    rewrite write_checked_valid by exact Hm. rewrite write_checked_valid by exact Hb.
    unfold fields_of, merchant_fields. cbn [emit_fields tag_of].
    now rewrite (write_tlv_acc temp), (write_tlv_acc buffer), !string_app_assoc, !string_app_nil_r.
Qed.

(** An account identifier of valid length without exactly one ['@']
    makes [to_tlv] fail with the '@' error, for both variants. *)
Lemma to_tlv_at_err mt temp buffer :
  SubTag.valid BakongAccountIdentifier (account_id mt) = true ->
  count_char "@" (account_id mt) <> 1%nat ->
  to_tlv mt temp buffer = Err (IoError InvalidData at_msg).
Proof.
  intros Ha Hat. apply Nat.eqb_neq in Hat.
  destruct mt; cbn [account_id] in *; unfold to_tlv;
    rewrite subtag_validate_length_valid by exact Ha; cbn [invalid_data map_err];
    now rewrite Hat.
Qed.

(** The two account decoders fail only with a validation error or a
    slice panic (or out of fuel, which [scan_fuel_enough] excludes). *)
Lemma indiv_from_string_err v e : IndivualInfo.from_string v = Err e -> decode_error e.
Proof. unfold IndivualInfo.from_string, scan_all. intros H. err_inv; scan_err_close. Qed.

Lemma merchant_from_string_err v e : MerchantInfo.from_string v = Err e -> decode_error e.
Proof. unfold MerchantInfo.from_string, scan_all. intros H. err_inv; scan_err_close. Qed.

(** [to_tlv] succeeds exactly when the fields pass its checks, and then
    hands back [temp] cleared. *)
Lemma mt_to_tlv_checks mt temp buffer r :
  to_tlv mt temp buffer = Ok r -> fields_valid mt = true /\ fst r = "".
Proof.
  unfold fields_valid, opt_valid, to_tlv, write_opt, write_checked. intros H.
  destruct mt as [[id info bank]|[id mid bank]]; cbn [account_id] in *; ok_inv; valid_of_ok;
    subst; (split; [bool_close | reflexivity]).
Qed.

Lemma mt_to_tlv_valid mt temp buffer :
  fields_valid mt = true -> exists buf, to_tlv mt temp buffer = Ok ("", buf).
Proof.
  unfold fields_valid, opt_valid, to_tlv, write_opt, write_checked.
  destruct mt as [[id info bank]|[id mid bank]];
    cbn [account_id IndivualInfo.bakong_account_identifier individual_account_information
      IndivualInfo.acquiring_bank MerchantInfo.bakong_account_identifier merchant_identifier
      MerchantInfo.acquiring_bank]; intros H; bool_split H;
    try destruct info; try destruct bank; bool_split H; ok_of_valid; rewrite_facts; eexists; reflexivity.
Qed.

Lemma count_char_nonempty a s : count_char a s = 1%nat -> s <> "".
Proof. intros H ->. discriminate H. Qed.

(** [IndivualInformation::from_string] reads back the sub-fields of an
    individual account without an acquiring bank whatever the ['@'] count:
    it only refuses an empty identifier. *)
Lemma indiv_from_emit_any ii :
  SubTag.valid BakongAccountIdentifier (IndivualInfo.bakong_account_identifier ii) = true ->
  IndivualInfo.bakong_account_identifier ii <> "" ->
  starts_clean (IndivualInfo.bakong_account_identifier ii) = true ->
  opt_valid IndividualAccountInformation (individual_account_information ii) = true ->
  opt_clean (individual_account_information ii) = true ->
  IndivualInfo.acquiring_bank ii = None ->
  IndivualInfo.from_string (emit_fields (indiv_fields ii)) = Ok ii.
Proof.
  intros Ha Hne Hc Hi Hic Hb.
  destruct ii as [acct info bank];
    cbn [IndivualInfo.bakong_account_identifier individual_account_information
         IndivualInfo.acquiring_bank] in *; subst bank.
  unfold IndivualInfo.from_string, indiv_fields. cbn [IndivualInfo.bakong_account_identifier
    individual_account_information IndivualInfo.acquiring_bank opt_field].
  rewrite app_nil_r, scan_emit_fields.
  - pose proof (subtag_valid_max_length _ _ Ha) as La.
    apply String.eqb_neq in Hne.
    destruct info as [i|]; cbn [opt_field app apply_fields]; unfold IndivualInfo.apply_sub_tag.
    + cbn [opt_valid] in Hi. pose proof (subtag_valid_max_length _ _ Hi) as Li.
      rewrite !(proj2 (Nat.ltb_ge _ _)) by eassumption. cbn. now rewrite Hne.
    + rewrite !(proj2 (Nat.ltb_ge _ _)) by eassumption. cbn. now rewrite Hne.
  - constructor; [repeat split; auto|].
    destruct info as [i|]; cbn in *; constructor; auto.
    repeat split; auto.
Qed.

(** [IndivualInformation::from_string] reads back the fields [to_tlv]
    writes for an individual account without an acquiring bank. *)
Lemma indiv_from_emit ii :
  fields_valid (Indivual ii) = true ->
  starts_clean (IndivualInfo.bakong_account_identifier ii) = true ->
  opt_clean (individual_account_information ii) = true ->
  IndivualInfo.acquiring_bank ii = None ->
  IndivualInfo.from_string (emit_fields (indiv_fields ii)) = Ok ii.
Proof.
  unfold fields_valid. cbn [account_id]. intros H Hc Hic Hb. repeat rewrite andb_true_iff in H.
  destruct H as [[Ha Hat%Nat.eqb_eq] [Hi _]].
  apply indiv_from_emit_any; auto.
  exact (count_char_nonempty "@"%char _ Hat).
Qed.

(** C18: an individual account with an acquiring bank
    passes [to_tlv], but [IndivualInformation::from_string]
    rejects what it writes: the bank's code 02 is not in scope 29. *)
Theorem indiv_bank_not_decodable ii b temp buffer :
  fields_valid (Indivual ii) = true ->
  starts_clean (IndivualInfo.bakong_account_identifier ii) = true ->
  opt_clean (individual_account_information ii) = true ->
  IndivualInfo.acquiring_bank ii = Some b -> starts_clean b = true ->
  to_tlv (Indivual ii) temp buffer =
    Ok ("", write_tlv buffer (Tag.code MerchantAccountInfoIndividual) (temp ++ emit_fields (indiv_fields ii))) /\
  IndivualInfo.from_string (emit_fields (indiv_fields ii)) =
    Err (IoError InvalidData "Unknown IndivualInformation sub-tag 2").
Proof.
  intros H Hc Hic Hb Hbc. split; [exact (mt_to_tlv_fields (Indivual ii) temp buffer H)|].
  revert H. unfold fields_valid. cbn [account_id]. intros H. repeat rewrite andb_true_iff in H.
  destruct H as [[Ha _] [Hi Hbv]].
  destruct ii as [acct info bank];
    cbn [IndivualInfo.bakong_account_identifier individual_account_information
         IndivualInfo.acquiring_bank opt_valid] in *; subst bank.
  unfold IndivualInfo.from_string, indiv_fields. cbn [IndivualInfo.bakong_account_identifier
    individual_account_information IndivualInfo.acquiring_bank opt_field].
  rewrite app_comm_cons, emit_fields_app.
  replace (emit_fields [(AcquiringBank, b)]) with (write_tlv "" (code AcquiringBank) b)
    by (cbn [emit_fields]; symmetry; apply string_app_nil_r).
  unfold scan_all. rewrite scan_emit_fields_app, apply_fields_pure.
  - now rewrite scan_all_emit_unknown.
  - destruct info as [i|]; cbn in *; repeat constructor; auto.
  - apply write_tlv_clean, subtag_code_range.
  - apply le_n.
Qed.

(** C17: [MerchantInformation::from_string] returns an
    error on every input, so a merchant-account payload never decodes. *)
Theorem merchant_info_from_string_fails (s : string) :
  exists e, MerchantInfo.from_string s = Err e.
Proof.
  destruct (MerchantInfo.from_string s) as [m|e] eqn:E; [|eauto].
  exfalso. exact (merchant_info_never_decodes s m E).
Qed.

(** C19: an individual account without an acquiring bank round-trips:
    [to_tlv] writes its sub-fragments as the value of tag 29 and clears
    [temp], and [IndivualInformation::from_string] of those
    sub-fragments returns the account. *)
Theorem indiv_account_roundtrip ii temp buffer :
  fields_valid (Indivual ii) = true ->
  starts_clean (IndivualInfo.bakong_account_identifier ii) = true ->
  opt_clean (individual_account_information ii) = true ->
  IndivualInfo.acquiring_bank ii = None ->
  to_tlv (Indivual ii) temp buffer =
    Ok ("", write_tlv buffer (Tag.code MerchantAccountInfoIndividual) (temp ++ emit_fields (indiv_fields ii))) /\
  IndivualInfo.from_string (emit_fields (indiv_fields ii)) = Ok ii.
Proof.
  intros H Hc Hic Hb. split; [exact (mt_to_tlv_fields (Indivual ii) temp buffer H)|].
  now apply indiv_from_emit.
Qed.

(** ** Witnesses *)


Lemma indiv_bank_not_decodable_witness :
  to_tlv (Indivual {| IndivualInfo.bakong_account_identifier := "abc@bank.kh";
        individual_account_information := None; IndivualInfo.acquiring_bank := Some "ABA" |}) "" "" =
    Ok ("", "29220011abc@bank.kh0203ABA") /\
  IndivualInfo.from_string "0011abc@bank.kh0203ABA" =
    Err (IoError InvalidData "Unknown IndivualInformation sub-tag 2").
Proof.
  apply (indiv_bank_not_decodable {| IndivualInfo.bakong_account_identifier := "abc@bank.kh";
        individual_account_information := None; IndivualInfo.acquiring_bank := Some "ABA" |} "ABA" "" "");
  reflexivity.
Defined.

Lemma indiv_account_roundtrip_witness :
  to_tlv (Indivual {| IndivualInfo.bakong_account_identifier := "abc@bank.kh";
        individual_account_information := Some "x"; IndivualInfo.acquiring_bank := None |}) "" "" =
    Ok ("", "29200011abc@bank.kh0101x") /\
  IndivualInfo.from_string "0011abc@bank.kh0101x" =
    Ok {| IndivualInfo.bakong_account_identifier := "abc@bank.kh";
          individual_account_information := Some "x"; IndivualInfo.acquiring_bank := None |}.
Proof.
  apply (indiv_account_roundtrip {| IndivualInfo.bakong_account_identifier := "abc@bank.kh";
        individual_account_information := Some "x"; IndivualInfo.acquiring_bank := None |} "" "");
  reflexivity.
Defined.
