(* ===== verification/Templates.v ===== *)
(** * The optional templates ([additional_data_template.rs],
      [additional_data_field.rs], [merchant_information_language_template.rs])

    [Module DataTemplate]: [AdditionalDataTemplate] (five optional
    fields), its [apply_sub_tag], [from_string] and [to_tlv].
    [Module DataField]: [AdditionalDataField], the dynamic-QR validity
    window.  A [DateTime<Utc>] is its count of nanoseconds since the
    epoch ([Z]); [timestamp_millis] floors it to milliseconds;
    [Utc::now()] is an explicit argument [now].  [Utc.timestamp_millis_opt(m)]
    is [m * 10^6]: its [None] case needs |m| beyond 8 * 10^15, out of
    reach of the 13-digit values [validate_length] lets through.
    [Module LanguageTemplate]: [MerchantInformationLanguageTemplate].

    Each [from_string] is the scan loop of [Tlv] under its parent tag;
    each [to_tlv] writes its fields into [temp], wraps [temp] as the
    value of its tag in [buffer] and clears [temp]. *)

From Stdlib Require Import String Ascii ZArith List Lia Bool.
From S2P Require Import Prelude RustStr Tags Tlv.
Import ListNotations.
Open Scope string_scope.
Open Scope Z_scope.
Import SubTag.

Module DataTemplate.

Record AdditionalDataTemplate : Type := {
  bill_number : option string;
  store_label : option string;
  terminal_label : option string;
  mobile_number : option string;
  purpose_of_transaction : option string
}.

(** [AdditionalDataTemplate::apply_sub_tag]. *)
Definition apply_sub_tag (self : AdditionalDataTemplate) (sub_tag : SubTags) (value : string)
  : AdditionalDataTemplate :=
  if Nat.ltb (SubTag.max_length sub_tag) (String.length value) then self else
  let '{| bill_number := b; store_label := s; terminal_label := t; mobile_number := m;
          purpose_of_transaction := p |} := self in
  match sub_tag with
  | BillNumber => {| bill_number := Some value; store_label := s; terminal_label := t;
                     mobile_number := m; purpose_of_transaction := p |}
  | MobileNumber => {| bill_number := b; store_label := s; terminal_label := t;
                       mobile_number := Some value; purpose_of_transaction := p |}
  | StoreLabel => {| bill_number := b; store_label := Some value; terminal_label := t;
                     mobile_number := m; purpose_of_transaction := p |}
  | TerminalLabel => {| bill_number := b; store_label := s; terminal_label := Some value;
                        mobile_number := m; purpose_of_transaction := p |}
  | PurposeOfTransaction => {| bill_number := b; store_label := s; terminal_label := t;
                               mobile_number := m; purpose_of_transaction := Some value |}
  | _ => self
  end.

Definition scan_msgs : ScanMsgs := {|
  msg_tag := fun s => "Tag " ++ s ++ " can't be parsed";
  msg_len := fun tag => "Error parsing length for tag " ++ fmt_u tag;
  msg_bound := "Length is invalid";
  msg_unknown := fun tag => "Unknown AdditionalDataTemplate sub-tag " ++ fmt_u tag |}.

Definition empty : AdditionalDataTemplate :=
  {| bill_number := None; store_label := None; terminal_label := None; mobile_number := None;
     purpose_of_transaction := None |}.

(** [AdditionalDataTemplate::from_string]: no field is required. *)
Definition from_string (value : string) : io_result AdditionalDataTemplate :=
  scan_all Tag.AdditionalDataTemplate scan_msgs (fun st t v => Ok (apply_sub_tag st t v)) value empty.

(** The inner [write_field] of [to_tlv]. *)
Definition write_field (temp : string) (sub_tag : SubTags) (value : option string) : io_result string :=
  match value with
  | Some val =>
      invalid_data (SubTag.validate_length sub_tag val) ;;
      Ok (write_tlv temp (SubTag.code sub_tag) val)
  | None => Ok temp
  end.

(** [impl TLV for AdditionalDataTemplate]. *)
Definition to_tlv (self : AdditionalDataTemplate) (temp buffer : string) : io_result (string * string) :=
  temp <- write_field temp BillNumber (bill_number self) ;;
  temp <- write_field temp MobileNumber (mobile_number self) ;;
  temp <- write_field temp StoreLabel (store_label self) ;;
  temp <- write_field temp TerminalLabel (terminal_label self) ;;
  temp <- write_field temp PurposeOfTransaction (purpose_of_transaction self) ;;
  let buffer := write_tlv buffer (Tag.code Tag.AdditionalDataTemplate) temp in
  Ok ("", buffer).

#[export] Instance AdditionalDataTemplate_TLV : TLV AdditionalDataTemplate := to_tlv.

(** The sub-fields [to_tlv] writes, in its order (specification helper). *)
Definition opt_field (t : SubTags) (o : option string) : list (SubTags * string) :=
  match o with Some v => [(t, v)] | None => [] end.

Definition fields (d : AdditionalDataTemplate) : list (SubTags * string) :=
  opt_field BillNumber (bill_number d) ++ opt_field MobileNumber (mobile_number d) ++
  opt_field StoreLabel (store_label d) ++ opt_field TerminalLabel (terminal_label d) ++
  opt_field PurposeOfTransaction (purpose_of_transaction d).

(** A present field passes its check and starts on a char boundary. *)
Definition opt_ok (t : SubTags) (o : option string) : bool :=
  match o with Some v => SubTag.valid t v && starts_clean v | None => true end.

Definition fields_ok (d : AdditionalDataTemplate) : bool :=
  opt_ok BillNumber (bill_number d) && opt_ok MobileNumber (mobile_number d) &&
  opt_ok StoreLabel (store_label d) && opt_ok TerminalLabel (terminal_label d) &&
  opt_ok PurposeOfTransaction (purpose_of_transaction d).

(** The checks [to_tlv] makes: each present field passes [validate_length]. *)
Definition opt_valid (t : SubTags) (o : option string) : bool :=
  match o with Some v => SubTag.valid t v | None => true end.

Definition lengths_ok (d : AdditionalDataTemplate) : bool :=
  opt_valid BillNumber (bill_number d) && opt_valid MobileNumber (mobile_number d) &&
  opt_valid StoreLabel (store_label d) && opt_valid TerminalLabel (terminal_label d) &&
  opt_valid PurposeOfTransaction (purpose_of_transaction d).

End DataTemplate.

Module DataField.

(** [DateTime<Utc>] as nanoseconds since the epoch. *)
Definition DateTime : Type := Z.

(** [DateTime::timestamp_millis]. *)
Definition timestamp_millis (t : DateTime) : Z := t / 1000000.

(** [Utc.timestamp_millis_opt(millis).single()].  chrono answers [None]
    only outside its range of about 262,000 years around the epoch; the
    value reaching this call has passed [validate_length] (13 digits),
    so it is below 10^13 ms (year 2286) and the answer is always [Some]. *)
Definition timestamp_millis_opt (millis : Z) : option DateTime := Some (millis * 1000000).

Record AdditionalDataField : Type := {
  creation_timestamp : DateTime;
  expiration_timestamp : DateTime
}.

(** [AdditionalDataField::new(expiration)] at clock reading [now]. *)
Definition new (now : DateTime) (expiration : DateTime) : io_result AdditionalDataField :=
  let creation := now in
  if expiration <? creation
  then Err (IoError InvalidData "Expiration timestamp is before creation timestamp") else
  let creation_str := fmt_i (timestamp_millis creation) in
  invalid_data (SubTag.validate_length CreationTimestamp creation_str) ;;
  let expiration_str := fmt_i (timestamp_millis expiration) in
  invalid_data (SubTag.validate_length ExpirationTimestamp expiration_str) ;;
  Ok {| creation_timestamp := creation; expiration_timestamp := expiration |}.

Definition scan_msgs : ScanMsgs := {|
  msg_tag := fun _ => "Invalid sub-tag";
  msg_len := fun _ => "Invalid length";
  msg_bound := "Length error";
  msg_unknown := fun tag => "Unknown AdditionalDataField sub-tag " ++ fmt_u tag |}.

(** The loop body's [match sub_tag] of [from_string]: the locals
    [creation] and [expiration]. *)
Definition apply_sub_tag (st : option DateTime * option DateTime) (sub_tag : SubTags) (data : string)
  : io_result (option DateTime * option DateTime) :=
  let '(creation, expiration) := st in
  match sub_tag with
  | CreationTimestamp =>
      millis <- ok_or (parse_i64 data) (IoError InvalidData "Invalid creation timestamp") ;;
      c <- ok_or (timestamp_millis_opt millis) (IoError InvalidData "Invalid creation timestamp value") ;;
      Ok (Some c, expiration)
  | ExpirationTimestamp =>
      millis <- ok_or (parse_i64 data) (IoError InvalidData "Invalid expiration timestamp") ;;
      e <- ok_or (timestamp_millis_opt millis) (IoError InvalidData "Invalid expiration timestamp value") ;;
      Ok (creation, Some e)
  | _ => Ok st
  end.

(** [AdditionalDataField::from_string(value)] at clock reading [now]. *)
Definition from_string (now : DateTime) (value : string) : io_result AdditionalDataField :=
  '(creation, expiration) <- scan_all Tag.AdditionalDataField scan_msgs apply_sub_tag value (None, None) ;;
  creation <- ok_or creation (IoError InvalidData "Missing creation timestamp") ;;
  expiration <- ok_or expiration (IoError InvalidData "Missing expiration timestamp") ;;
  if expiration <? creation
  then Err (IoError InvalidData "Expiration timestamp is before creation timestamp") else
  if expiration <? now
  then Err (IoError InvalidData "Expiration timestamp is already in the past") else
  Ok {| creation_timestamp := creation; expiration_timestamp := expiration |}.

(** [impl TLV for AdditionalDataField]. *)
Definition to_tlv (self : AdditionalDataField) (temp buffer : string) : io_result (string * string) :=
  let creation_str := fmt_i (timestamp_millis (creation_timestamp self)) in
  invalid_data (SubTag.validate_length CreationTimestamp creation_str) ;;
  let temp := write_tlv temp (SubTag.code CreationTimestamp) creation_str in
  let expiration_str := fmt_i (timestamp_millis (expiration_timestamp self)) in
  invalid_data (SubTag.validate_length ExpirationTimestamp expiration_str) ;;
  let temp := write_tlv temp (SubTag.code ExpirationTimestamp) expiration_str in
  let buffer := write_tlv buffer (Tag.code Tag.AdditionalDataField) temp in
  Ok ("", buffer).

#[export] Instance AdditionalDataField_TLV : TLV AdditionalDataField := to_tlv.

(** The two sub-fields [to_tlv] writes (specification helper). *)
Definition fields (f : AdditionalDataField) : list (SubTags * string) :=
  [(CreationTimestamp, fmt_i (timestamp_millis (creation_timestamp f)));
   (ExpirationTimestamp, fmt_i (timestamp_millis (expiration_timestamp f)))].

End DataField.

Module LanguageTemplate.

Record MerchantInformationLanguageTemplate : Type := {
  language_preference : string;
  merchant_name_alternate_language : string;
  merchant_city_alternate_language : string
}.

(** [impl TLV for MerchantInformationLanguageTemplate]: all three
    fields are validated before any is written. *)
Definition to_tlv (self : MerchantInformationLanguageTemplate) (temp buffer : string)
  : io_result (string * string) :=
  invalid_data (SubTag.validate_length LanguagePreference (language_preference self)) ;;
  invalid_data (SubTag.validate_length MerchantNameAlternateLanguage (merchant_name_alternate_language self)) ;;
  invalid_data (SubTag.validate_length MerchantCityAlternateLanguage (merchant_city_alternate_language self)) ;;
  let temp := write_tlv temp (SubTag.code LanguagePreference) (language_preference self) in
  let temp := write_tlv temp (SubTag.code MerchantNameAlternateLanguage) (merchant_name_alternate_language self) in
  let temp := write_tlv temp (SubTag.code MerchantCityAlternateLanguage) (merchant_city_alternate_language self) in
  let buffer := write_tlv buffer (Tag.code Tag.MerchantInformationLanguageTemplate) temp in
  Ok ("", buffer).

#[export] Instance LanguageTemplate_TLV : TLV MerchantInformationLanguageTemplate := to_tlv.

Definition scan_msgs : ScanMsgs := {|
  msg_tag := fun _ => "Invalid sub-tag";
  msg_len := fun _ => "Invalid length";
  msg_bound := "Length error";
  msg_unknown := fun tag => "Unknown MerchantInformationLanguageTemplate sub-tag " ++ fmt_u tag |}.

Definition empty : MerchantInformationLanguageTemplate :=
  {| language_preference := ""; merchant_name_alternate_language := "";
     merchant_city_alternate_language := "" |}.

(** The loop body's [match sub_tag] of [from_string] (no length guard). *)
Definition apply_sub_tag (template : MerchantInformationLanguageTemplate) (sub_tag : SubTags) (data : string)
  : MerchantInformationLanguageTemplate :=
  let '{| language_preference := l; merchant_name_alternate_language := n;
          merchant_city_alternate_language := c |} := template in
  match sub_tag with
  | LanguagePreference => {| language_preference := data; merchant_name_alternate_language := n;
                             merchant_city_alternate_language := c |}
  | MerchantNameAlternateLanguage => {| language_preference := l; merchant_name_alternate_language := data;
                                        merchant_city_alternate_language := c |}
  | MerchantCityAlternateLanguage => {| language_preference := l; merchant_name_alternate_language := n;
                                        merchant_city_alternate_language := data |}
  | _ => template
  end.

(** [MerchantInformationLanguageTemplate::from_string]. *)
Definition from_string (value : string) : io_result MerchantInformationLanguageTemplate :=
  template <- scan_all Tag.MerchantInformationLanguageTemplate scan_msgs
                (fun st t v => Ok (apply_sub_tag st t v)) value empty ;;
  if String.eqb (language_preference template) "" ||
     String.eqb (merchant_name_alternate_language template) "" ||
     String.eqb (merchant_city_alternate_language template) ""
  then Err (IoError InvalidData "All fields are required but missing")
  else Ok template.

(** The three sub-fields [to_tlv] writes (specification helper). *)
Definition fields (t : MerchantInformationLanguageTemplate) : list (SubTags * string) :=
  [(LanguagePreference, language_preference t);
   (MerchantNameAlternateLanguage, merchant_name_alternate_language t);
   (MerchantCityAlternateLanguage, merchant_city_alternate_language t)].

(** Every sub-field passes [validate_length] and starts on a char
    boundary (specification helper). *)
Definition fields_ok (t : MerchantInformationLanguageTemplate) : bool :=
  forallb (fun f => SubTag.valid (fst f) (snd f) && starts_clean (snd f)) (fields t).

(** The checks [to_tlv] makes: the three [validate_length] calls. *)
Definition lengths_ok (t : MerchantInformationLanguageTemplate) : bool :=
  SubTag.valid LanguagePreference (language_preference t) &&
  SubTag.valid MerchantNameAlternateLanguage (merchant_name_alternate_language t) &&
  SubTag.valid MerchantCityAlternateLanguage (merchant_city_alternate_language t).

End LanguageTemplate.

(** ** Theorems: additional-data template *)

Lemma opt_ok_valid t v : DataTemplate.opt_ok t (Some v) = true -> SubTag.valid t v = true.
Proof. cbn. intros H. apply andb_true_iff in H. tauto. Qed.

Lemma opt_ok_fields t o :
  SubTag.from_code Tag.AdditionalDataTemplate (SubTag.code t) = Some t ->
  DataTemplate.opt_ok t o = true -> Forall (field_ok Tag.AdditionalDataTemplate) (DataTemplate.opt_field t o).
Proof.
  intros Hc H. destruct o as [v|]; cbn in *; constructor; auto.
  apply andb_true_iff in H. unfold field_ok; cbn. tauto.
Qed.

Lemma dt_to_tlv_field temp t o :
  DataTemplate.opt_ok t o = true ->
  DataTemplate.write_field temp t o = Ok (temp ++ emit_fields (DataTemplate.opt_field t o)).
Proof.
  destruct o as [v|]; cbn [DataTemplate.opt_ok DataTemplate.write_field DataTemplate.opt_field]; intros H.
  - apply andb_true_iff in H as [H _]. rewrite subtag_validate_length_valid by exact H.
    cbn [invalid_data map_err emit_fields]. now rewrite string_app_nil_r.
  - cbn [emit_fields]. now rewrite string_app_nil_r.
Qed.

(** [AdditionalDataTemplate::to_tlv] on fields that pass their checks
    wraps [temp ++ fields] as the value of tag 62 and clears [temp]. *)
Lemma data_template_to_tlv_fields d temp buffer :
  DataTemplate.fields_ok d = true ->
  DataTemplate.to_tlv d temp buffer =
  Ok ("", write_tlv buffer (Tag.code Tag.AdditionalDataTemplate) (temp ++ emit_fields (DataTemplate.fields d))).
Proof.
  unfold DataTemplate.fields_ok. intros H. repeat rewrite andb_true_iff in H.
  destruct H as [[[[Hb Hm] Hs] Ht] Hp].
  unfold DataTemplate.to_tlv.
  rewrite dt_to_tlv_field by exact Hb. rewrite dt_to_tlv_field by exact Hm.
  rewrite dt_to_tlv_field by exact Hs. rewrite dt_to_tlv_field by exact Ht.
  rewrite dt_to_tlv_field by exact Hp.
  unfold DataTemplate.fields. now rewrite !emit_fields_app, !string_app_assoc.
Qed.

(** [AdditionalDataTemplate::from_string] reads back its fields. *)
Lemma data_template_from_emit d :
  DataTemplate.fields_ok d = true ->
  DataTemplate.from_string (emit_fields (DataTemplate.fields d)) = Ok d.
Proof.
  unfold DataTemplate.fields_ok. intros H. repeat rewrite andb_true_iff in H.
  destruct H as [[[[Hb Hm] Hs] Ht] Hp].
  unfold DataTemplate.from_string. rewrite scan_emit_fields.
  - rewrite apply_fields_pure. f_equal.
    destruct d as [b st te m p]; cbn [DataTemplate.bill_number DataTemplate.store_label
      DataTemplate.terminal_label DataTemplate.mobile_number DataTemplate.purpose_of_transaction] in *.
    unfold DataTemplate.fields; cbn [DataTemplate.bill_number DataTemplate.store_label
      DataTemplate.terminal_label DataTemplate.mobile_number DataTemplate.purpose_of_transaction].
    destruct b, m, st, te, p; cbn [DataTemplate.opt_field app fold_left fst snd];
      unfold DataTemplate.apply_sub_tag;
      repeat rewrite (proj2 (Nat.ltb_ge _ _))
        by (apply subtag_valid_max_length; eapply opt_ok_valid; eassumption);
      reflexivity.
  - unfold DataTemplate.fields.
    rewrite !Forall_app. repeat split; apply opt_ok_fields; (reflexivity || assumption).
Qed.

(** ** Theorems: additional-data field (the validity window) *)

Lemma millis_roundtrip t : t mod 1000000 = 0 ->
  DataField.timestamp_millis_opt (DataField.timestamp_millis t) = Some t.
Proof.
  intros H. unfold DataField.timestamp_millis_opt, DataField.timestamp_millis. f_equal.
  pose proof (Z.div_mod t 1000000 ltac:(lia)). lia.
Qed.

Lemma timestamp_parse t m :
  SubTag.valid t (fmt_i m) = true -> t = CreationTimestamp \/ t = ExpirationTimestamp ->
  parse_i64 (fmt_i m) = Some m.
Proof.
  intros H [-> | ->]; cbn [SubTag.valid] in H; apply andb_true_iff in H as [L D];
    apply Nat.eqb_eq in L; now apply parse_i64_fmt_i.
Qed.

(** C31: [AdditionalDataField::new] at clock reading [now] succeeds exactly
    when the expiration is not before [now] and both instants render as
    13-digit millisecond counts; it then records [now] as the creation. *)
Theorem data_field_new_spec now e f :
  DataField.new now e = Ok f <->
  f = {| DataField.creation_timestamp := now; DataField.expiration_timestamp := e |} /\ now <= e /\
  SubTag.valid CreationTimestamp (fmt_i (DataField.timestamp_millis now)) = true /\
  SubTag.valid ExpirationTimestamp (fmt_i (DataField.timestamp_millis e)) = true.
Proof.
  unfold DataField.new. rewrite <- !subtag_validate_length_ok.
  destruct (Z.ltb_spec e now).
  - split; [discriminate | lia].
  - destruct (SubTag.validate_length CreationTimestamp _) as [[]|m1];
      destruct (SubTag.validate_length ExpirationTimestamp _) as [[]|m2];
      cbn [invalid_data map_err]; split;
      first [ intros Hf; injection Hf as <-; repeat split; auto
            | intros (-> & _); reflexivity
            | intros Hf; discriminate Hf | intros (_ & _ & H1 & H2); discriminate ].
Qed.

(** A field [AdditionalDataField::from_string] returns at clock reading
    [now] is a window that is not reversed and not yet over. *)
Lemma data_field_decoded_window now s f :
  DataField.from_string now s = Ok f ->
  DataField.creation_timestamp f <= DataField.expiration_timestamp f /\
  now <= DataField.expiration_timestamp f.
Proof.
  unfold DataField.from_string.
  destruct (scan_all _ _ _ _ _) as [[[c|] [e|]]|]; cbn [ok_or]; try discriminate.
  destruct (Z.ltb_spec e c); [discriminate|]. destruct (Z.ltb_spec e now); [discriminate|].
  intros Hf; injection Hf as <-. cbn. lia.
Qed.

(** [AdditionalDataField::to_tlv] on instants that render as 13 digits
    writes creation then expiration as the value of tag 99. *)
Lemma data_field_to_tlv_fields f temp buffer :
  SubTag.valid CreationTimestamp (fmt_i (DataField.timestamp_millis (DataField.creation_timestamp f))) = true ->
  SubTag.valid ExpirationTimestamp (fmt_i (DataField.timestamp_millis (DataField.expiration_timestamp f))) = true ->
  DataField.to_tlv f temp buffer =
  Ok ("", write_tlv buffer (Tag.code Tag.AdditionalDataField) (temp ++ emit_fields (DataField.fields f))).
Proof.
  intros Hc He. unfold DataField.to_tlv.
  rewrite subtag_validate_length_valid by exact Hc.
  rewrite subtag_validate_length_valid by exact He.
  cbn [invalid_data map_err DataField.fields emit_fields].
  now rewrite string_app_nil_r, (write_tlv_acc temp), (write_tlv_acc (temp ++ _)), string_app_assoc.
Qed.

(** [AdditionalDataField::from_string] inside the window reads back
    whole-millisecond instants. *)
Lemma data_field_from_emit now f :
  SubTag.valid CreationTimestamp (fmt_i (DataField.timestamp_millis (DataField.creation_timestamp f))) = true ->
  SubTag.valid ExpirationTimestamp (fmt_i (DataField.timestamp_millis (DataField.expiration_timestamp f))) = true ->
  DataField.creation_timestamp f mod 1000000 = 0 -> DataField.expiration_timestamp f mod 1000000 = 0 ->
  DataField.creation_timestamp f <= DataField.expiration_timestamp f ->
  now <= DataField.expiration_timestamp f ->
  DataField.from_string now (emit_fields (DataField.fields f)) = Ok f.
Proof.
  destruct f as [c e]; cbn [DataField.creation_timestamp DataField.expiration_timestamp].
  intros Hc He Mc Me Hce Hne. unfold DataField.from_string.
  rewrite scan_emit_fields.
  - cbn [DataField.fields apply_fields DataField.apply_sub_tag
         DataField.creation_timestamp DataField.expiration_timestamp].
    rewrite (timestamp_parse CreationTimestamp (DataField.timestamp_millis c)) by auto.
    cbn [ok_or]. rewrite millis_roundtrip by assumption. cbn [ok_or DataField.apply_sub_tag].
    rewrite (timestamp_parse ExpirationTimestamp (DataField.timestamp_millis e)) by auto.
    cbn [ok_or]. rewrite millis_roundtrip by assumption. cbn [ok_or].
    rewrite (proj2 (Z.ltb_ge e c)), (proj2 (Z.ltb_ge e now)) by lia. reflexivity.
  - repeat constructor; cbn [fst snd]; auto;
      apply digits_starts_clean; [apply andb_true_iff in Hc | apply andb_true_iff in He]; tauto.
Qed.

Lemma opt_field_bound t o :
  (SubTag.max_length t <= 25)%nat -> DataTemplate.opt_ok t o = true ->
  Forall (fun f => (String.length (snd f) <= 25)%nat) (DataTemplate.opt_field t o).
Proof.
  intros Ht H. destruct o as [v|]; cbn in *; [|constructor].
  apply andb_true_iff in H as [H _]. constructor; [|constructor].
  pose proof (subtag_valid_max_length t v H). cbn. lia.
Qed.
Lemma data_template_fields_length d : (length (DataTemplate.fields d) <= 5)%nat.
Proof. destruct d as [[] [] [] [] []]; cbn; lia. Qed.

(** The sub-fields of a template that passes its checks are at most
    25 bytes each, so the template's value is at most 145 bytes. *)
Lemma data_template_emit_bound d :
  DataTemplate.fields_ok d = true -> (String.length (emit_fields (DataTemplate.fields d)) <= 145)%nat.
Proof.
  intros H. unfold DataTemplate.fields_ok in H. bool_split H.
  assert (HF : Forall (fun f => (String.length (snd f) <= 25)%nat) (DataTemplate.fields d)).
  { unfold DataTemplate.fields.
    repeat (apply Forall_app; split); apply opt_field_bound; cbn; auto. }
  eapply Nat.le_trans; [exact (emit_fields_bound 25 _ ltac:(lia) HF)|].
  pose proof (data_template_fields_length d) as L. revert L. generalize (length (DataTemplate.fields d)). lia.
Qed.

(** Each template's [to_tlv] succeeds exactly when its fields pass
    the checks it makes, and then hands back [temp] cleared. *)
Lemma data_template_to_tlv_checks d temp buffer r :
  DataTemplate.to_tlv d temp buffer = Ok r -> DataTemplate.lengths_ok d = true /\ fst r = "".
Proof.
  unfold DataTemplate.lengths_ok, DataTemplate.opt_valid, DataTemplate.to_tlv, DataTemplate.write_field.
  intros H. ok_inv; valid_of_ok; subst; (split; [bool_close | reflexivity]).
Qed.

Lemma data_template_to_tlv_valid d temp buffer :
  DataTemplate.lengths_ok d = true -> exists buf, DataTemplate.to_tlv d temp buffer = Ok ("", buf).
Proof.
  unfold DataTemplate.lengths_ok, DataTemplate.opt_valid, DataTemplate.to_tlv, DataTemplate.write_field.
  destruct d as [b s t m p]; cbn [DataTemplate.bill_number DataTemplate.store_label
    DataTemplate.terminal_label DataTemplate.mobile_number DataTemplate.purpose_of_transaction].
  intros H. destruct b, s, t, m, p; bool_split H; ok_of_valid; eexists; reflexivity.
Qed.

Lemma data_field_to_tlv_checks f temp buffer r :
  DataField.to_tlv f temp buffer = Ok r ->
  SubTag.valid CreationTimestamp (fmt_i (DataField.timestamp_millis (DataField.creation_timestamp f))) &&
  SubTag.valid ExpirationTimestamp (fmt_i (DataField.timestamp_millis (DataField.expiration_timestamp f))) = true
  /\ fst r = "".
Proof. unfold DataField.to_tlv. intros H. ok_inv; valid_of_ok; subst; (split; [bool_close | reflexivity]). Qed.

Lemma data_field_to_tlv_valid f temp buffer :
  SubTag.valid CreationTimestamp (fmt_i (DataField.timestamp_millis (DataField.creation_timestamp f))) &&
  SubTag.valid ExpirationTimestamp (fmt_i (DataField.timestamp_millis (DataField.expiration_timestamp f))) = true ->
  exists buf, DataField.to_tlv f temp buffer = Ok ("", buf).
Proof. unfold DataField.to_tlv. intros H. bool_split H. cbv zeta. ok_of_valid; eexists; reflexivity. Qed.

Lemma lang_to_tlv_checks t temp buffer r :
  LanguageTemplate.to_tlv t temp buffer = Ok r -> LanguageTemplate.lengths_ok t = true /\ fst r = "".
Proof.
  unfold LanguageTemplate.lengths_ok, LanguageTemplate.to_tlv. intros H.
  ok_inv; valid_of_ok; subst; (split; [bool_close | reflexivity]).
Qed.

Lemma lang_to_tlv_valid t temp buffer :
  LanguageTemplate.lengths_ok t = true -> exists buf, LanguageTemplate.to_tlv t temp buffer = Ok ("", buf).
Proof.
  unfold LanguageTemplate.lengths_ok, LanguageTemplate.to_tlv. intros H. bool_split H.
  ok_of_valid; eexists; reflexivity.
Qed.

(** The three template decoders fail only with a validation error or a
    slice panic (or out of fuel). *)
Lemma data_template_from_string_err v e : DataTemplate.from_string v = Err e -> decode_error e.
Proof. unfold DataTemplate.from_string, scan_all. intros H. err_inv; scan_err_close. Qed.

Lemma data_field_from_string_err now v e : DataField.from_string now v = Err e -> decode_error e.
Proof.
  unfold DataField.from_string, scan_all, ok_or. intros H. err_inv; scan_err_close.
  unfold DataField.apply_sub_tag, ok_or, DataField.timestamp_millis_opt in Ha. err_inv; eauto with errkind.
Qed.

Lemma lang_from_string_err v e : LanguageTemplate.from_string v = Err e -> decode_error e.
Proof. unfold LanguageTemplate.from_string, scan_all. intros H. err_inv; scan_err_close. Qed.

(** ** Theorems: language template *)

Lemma lang_fields_ok t :
  LanguageTemplate.fields_ok t = true ->
  Forall (field_ok Tag.MerchantInformationLanguageTemplate) (LanguageTemplate.fields t).
Proof.
  unfold LanguageTemplate.fields_ok. intros H. rewrite forallb_forall in H.
  apply Forall_forall. intros [tg v] Hin. specialize (H _ Hin). apply andb_true_iff in H as [H1 H2].
  split; [|tauto]. cbn in Hin. destruct Hin as [E|[E|[E|[]]]]; injection E as <- <-; reflexivity.
Qed.

Lemma lang_fields_valid t :
  LanguageTemplate.fields_ok t = true ->
  SubTag.valid LanguagePreference (LanguageTemplate.language_preference t) = true /\
  SubTag.valid MerchantNameAlternateLanguage (LanguageTemplate.merchant_name_alternate_language t) = true /\
  SubTag.valid MerchantCityAlternateLanguage (LanguageTemplate.merchant_city_alternate_language t) = true.
Proof.
  unfold LanguageTemplate.fields_ok, LanguageTemplate.fields. cbn [forallb fst snd].
  rewrite !andb_true_iff. tauto.
Qed.

Lemma lang_scan_emit t :
  LanguageTemplate.fields_ok t = true ->
  scan_all Tag.MerchantInformationLanguageTemplate LanguageTemplate.scan_msgs
    (fun st tg v => Ok (LanguageTemplate.apply_sub_tag st tg v))
    (emit_fields (LanguageTemplate.fields t)) LanguageTemplate.empty = Ok t.
Proof.
  intros H. rewrite scan_emit_fields by (apply lang_fields_ok; exact H).
  rewrite apply_fields_pure. destruct t; reflexivity.
Qed.

(** C30: a template [MerchantInformationLanguageTemplate::from_string]
    returns has all three fields non-empty. *)
Theorem lang_template_decoded_nonempty s t :
  LanguageTemplate.from_string s = Ok t ->
  LanguageTemplate.language_preference t <> "" /\
  LanguageTemplate.merchant_name_alternate_language t <> "" /\
  LanguageTemplate.merchant_city_alternate_language t <> "".
Proof.
  unfold LanguageTemplate.from_string. destruct (scan_all _ _ _ _ _) as [t'|]; [|discriminate].
  destruct (String.eqb_spec (LanguageTemplate.language_preference t') ""),
    (String.eqb_spec (LanguageTemplate.merchant_name_alternate_language t') ""),
    (String.eqb_spec (LanguageTemplate.merchant_city_alternate_language t') "");
    cbn [orb]; try discriminate.
  intros H; injection H as <-. tauto.
Qed.

(** [to_tlv] of a language template whose fields pass their checks
    writes language, name and city as the value of tag 64 and returns
    [temp] cleared. *)
Lemma lang_to_tlv_fields t temp buffer :
  LanguageTemplate.fields_ok t = true ->
  LanguageTemplate.to_tlv t temp buffer =
  Ok ("", write_tlv buffer (Tag.code Tag.MerchantInformationLanguageTemplate)
            (temp ++ emit_fields (LanguageTemplate.fields t))).
Proof.
  intros H. destruct (lang_fields_valid t H) as (H1 & H2 & H3). unfold LanguageTemplate.to_tlv.
  rewrite !subtag_validate_length_valid by assumption. cbn [invalid_data map_err].
  unfold LanguageTemplate.fields. cbn [emit_fields]. rewrite string_app_nil_r.
  rewrite (write_tlv_acc (write_tlv (write_tlv temp _ _) _ _)), (write_tlv_acc (write_tlv temp _ _)),
    (write_tlv_acc temp). now rewrite !string_app_assoc.
Qed.

(** [MerchantInformationLanguageTemplate::from_string] reads back
    non-empty fields. *)
Lemma lang_from_emit t :
  LanguageTemplate.fields_ok t = true ->
  LanguageTemplate.merchant_name_alternate_language t <> "" ->
  LanguageTemplate.merchant_city_alternate_language t <> "" ->
  LanguageTemplate.from_string (emit_fields (LanguageTemplate.fields t)) = Ok t.
Proof.
  intros H Hn Hc. unfold LanguageTemplate.from_string. rewrite lang_scan_emit by exact H.
  destruct (lang_fields_valid t H) as (H1 & _ & _). cbn [SubTag.valid] in H1.
  apply andb_true_iff in H1 as [L _]. apply Nat.eqb_eq in L.
  destruct (LanguageTemplate.language_preference t) as [|c l]; [discriminate L|].
  apply String.eqb_neq in Hn, Hc. now rewrite Hn, Hc.
Qed.

(** C29: [to_tlv] accepts a language template with an empty alternate
    name ([validate_length] checks only a maximum), but
    [from_string] rejects what it writes: the encoder and the decoder
    disagree on which templates are valid. *)
Theorem lang_template_empty_name_asymmetry t temp buffer :
  LanguageTemplate.fields_ok t = true ->
  LanguageTemplate.merchant_name_alternate_language t = "" ->
  LanguageTemplate.to_tlv t temp buffer =
    Ok ("", write_tlv buffer (Tag.code Tag.MerchantInformationLanguageTemplate)
              (temp ++ emit_fields (LanguageTemplate.fields t))) /\
  LanguageTemplate.from_string (emit_fields (LanguageTemplate.fields t)) =
    Err (IoError InvalidData "All fields are required but missing").
Proof.
  intros H Hn. split; [now apply lang_to_tlv_fields|].
  unfold LanguageTemplate.from_string. rewrite lang_scan_emit by exact H.
  rewrite Hn. now rewrite orb_true_r.
Qed.

(** ** Encoder and decoder of each template *)

(** C26: an additional-data template whose present fields pass their
    checks round-trips: [to_tlv] writes bill, mobile, store, terminal
    and purpose as the value of tag 62 and clears [temp];
    [AdditionalDataTemplate::from_string] of that value returns the
    template. *)
Theorem data_template_roundtrip d temp buffer :
  DataTemplate.fields_ok d = true ->
  DataTemplate.to_tlv d temp buffer =
    Ok ("", write_tlv buffer (Tag.code Tag.AdditionalDataTemplate) (temp ++ emit_fields (DataTemplate.fields d))) /\
  DataTemplate.from_string (emit_fields (DataTemplate.fields d)) = Ok d.
Proof. intros H. split; [apply data_template_to_tlv_fields | apply data_template_from_emit]; exact H. Qed.

(** C27: [AdditionalDataField::to_tlv] writes creation then expiration in
    milliseconds as the value of tag 99 and clears [temp]; at a clock
    reading inside the window, [from_string] of that value returns the
    field, provided both instants are whole milliseconds ([to_tlv]
    truncates to milliseconds). *)
Theorem data_field_roundtrip now f temp buffer :
  SubTag.valid CreationTimestamp (fmt_i (DataField.timestamp_millis (DataField.creation_timestamp f))) = true ->
  SubTag.valid ExpirationTimestamp (fmt_i (DataField.timestamp_millis (DataField.expiration_timestamp f))) = true ->
  DataField.creation_timestamp f mod 1000000 = 0 -> DataField.expiration_timestamp f mod 1000000 = 0 ->
  DataField.creation_timestamp f <= DataField.expiration_timestamp f ->
  now <= DataField.expiration_timestamp f ->
  DataField.to_tlv f temp buffer =
    Ok ("", write_tlv buffer (Tag.code Tag.AdditionalDataField) (temp ++ emit_fields (DataField.fields f))) /\
  DataField.from_string now (emit_fields (DataField.fields f)) = Ok f.
Proof.
  intros Hc He Mc Me Hce Hne. split; [now apply data_field_to_tlv_fields | now apply data_field_from_emit].
Qed.

(** C28: a language template with valid, non-empty fields round-trips:
    [to_tlv] writes language, name and city as the value of tag 64 and
    clears [temp]; [from_string] of that value returns the template. *)
Theorem lang_template_roundtrip t temp buffer :
  LanguageTemplate.fields_ok t = true ->
  LanguageTemplate.merchant_name_alternate_language t <> "" ->
  LanguageTemplate.merchant_city_alternate_language t <> "" ->
  LanguageTemplate.to_tlv t temp buffer =
    Ok ("", write_tlv buffer (Tag.code Tag.MerchantInformationLanguageTemplate)
              (temp ++ emit_fields (LanguageTemplate.fields t))) /\
  LanguageTemplate.from_string (emit_fields (LanguageTemplate.fields t)) = Ok t.
Proof. intros H Hn Hc. split; [now apply lang_to_tlv_fields | now apply lang_from_emit]. Qed.

(** ** Witnesses *)

Lemma lang_template_decoded_nonempty_witness :
  "km" <> "" /\ "Hang" <> "" /\ "PP" <> "".
Proof.
  apply (lang_template_decoded_nonempty "0002km0104Hang0202PP"
    {| LanguageTemplate.language_preference := "km";
       LanguageTemplate.merchant_name_alternate_language := "Hang";
       LanguageTemplate.merchant_city_alternate_language := "PP" |}).
  vm_compute. reflexivity.
Defined.

Lemma lang_template_empty_name_asymmetry_witness :
  let t := {| LanguageTemplate.language_preference := "km";
              LanguageTemplate.merchant_name_alternate_language := "";
              LanguageTemplate.merchant_city_alternate_language := "PP" |} in
  LanguageTemplate.to_tlv t "" "" = Ok ("", "64160002km01000202PP") /\
  LanguageTemplate.from_string "0002km01000202PP" =
    Err (IoError InvalidData "All fields are required but missing").
Proof.
  intros t. apply (lang_template_empty_name_asymmetry t "" ""); vm_compute; reflexivity.
Defined.

Lemma data_template_roundtrip_witness :
  let d := {| DataTemplate.bill_number := Some "INV-1"; DataTemplate.store_label := None;
      DataTemplate.terminal_label := Some "T1"; DataTemplate.mobile_number := Some "85512345678";
      DataTemplate.purpose_of_transaction := None |} in
  DataTemplate.to_tlv d "" "" = Ok ("", "62300105INV-10211855123456780702T1") /\
  DataTemplate.from_string "0105INV-10211855123456780702T1" = Ok d.
Proof. intros d. apply (data_template_roundtrip d "" ""). vm_compute. reflexivity. Defined.

Lemma data_field_roundtrip_witness :
  let f := {| DataField.creation_timestamp := 1700000000000000000;
              DataField.expiration_timestamp := 1700000600000000000 |} in
  DataField.to_tlv f "" "" = Ok ("", "99340013170000000000001131700000600000") /\
  DataField.from_string 1700000300000000000 "0013170000000000001131700000600000" = Ok f.
Proof.
  intros f. apply (data_field_roundtrip 1700000300000000000 f "" "");
    vm_compute; first [reflexivity | discriminate].
Defined.

Lemma lang_template_roundtrip_witness :
  let t := {| LanguageTemplate.language_preference := "km";
              LanguageTemplate.merchant_name_alternate_language := "Hang";
              LanguageTemplate.merchant_city_alternate_language := "PP" |} in
  LanguageTemplate.to_tlv t "" "" = Ok ("", "64200002km0104Hang0202PP") /\
  LanguageTemplate.from_string "0002km0104Hang0202PP" = Ok t.
Proof. intros t. apply (lang_template_roundtrip t "" ""); [vm_compute; reflexivity | discriminate | discriminate]. Defined.

(** ** The timestamp field rejects text led by a non-zero digit *)

(** Its first tag would be at least 10, and only codes 00 and 01 are in
    the scope of tag 99: whatever follows, the scan fails. *)
Lemma data_field_rejects_lead_digit now c1 c2 r :
  is_ascii_digit c1 = true -> c1 <> "0"%char ->
  exists e, DataField.from_string now (String c1 (String c2 r)) = Err e.
Proof.
  intros D N. unfold DataField.from_string, scan_all.
  cbn [String.length scan]. unfold scan_step.
  destruct (str_slice _ 0 2) as [ts|e] eqn:E1; [|eauto].
  apply str_slice_ok in E1. cbn in E1. subst ts.
  destruct (parse_u8 _) as [t|] eqn:E2; cbn [ok_or]; [|eauto].
  apply parse_u8_lead in E2; [|exact D|exact N].
  destruct (str_slice _ 2 4); [|eauto]. destruct (parse_usize _); cbn [ok_or]; [|eauto].
  destruct (Nat.ltb _ _); [eauto|]. destruct (str_slice _ 4 _); [|eauto].
  destruct (SubTag.from_code Tag.AdditionalDataField t) eqn:E3; cbn [ok_or]; [|eauto].
  apply subtag_from_code_adf in E3. lia.
Qed.
