(* ===== verification/Currency.v ===== *)
(** * Currency, amount and point of initiation
      ([transaction_currency.rs], [point_of_initial_method.rs])

    [Module Currency]: [TransactionCurrency] (KHR | USD), its code
    "116"/"840", [from_string] and [write_currency].
    [Module Amount]: [TransactionAmount] (KHR of a [u32], USD of an
    [f32]), [write_amount], [write_currency], [from_string],
    [currency_code] and [Display].
    [Module POI]: [PointOfInitialMethod] (static of a currency, dynamic
    of an optional timestamp field and an amount), [write_currency],
    [from_string], [value], [is_static], [is_static_from_string].

    [f32] and its parsing, comparison and formatting belong to Rust's
    core library; they are the operations of the class [F32], which the
    theorems take as a parameter.  A [u32] is a [Z] in [[0, 2^32)]. *)

From Stdlib Require Import String Ascii ZArith List Lia Bool.
From S2P Require Import Prelude RustStr Tags Tlv Templates.
Import ListNotations.
Open Scope string_scope.
Open Scope Z_scope.

(** The [f32] operations the code calls. *)
Class F32 : Type := {
  f32 : Type;
  f32_parse : string -> option f32;   (** [value.parse::<f32>()] *)
  f32_lt_tenth : f32 -> bool;         (** [*amount < 0.1] *)
  f32_fmt : f32 -> string;            (** [format!("{}", amount)] *)
  f32_fmt2 : f32 -> string            (** [format!("{:.2}", amount)] *)
}.

Module Currency.

Inductive TransactionCurrency : Type := KHR | USD.

Scheme Equality for TransactionCurrency.

(** [TransactionCurrency::currency_code]. *)
Definition currency_code (c : TransactionCurrency) : string :=
  match c with KHR => "116" | USD => "840" end.

(** [TransactionCurrency::from_string]. *)
Definition from_string (value : string) : io_result TransactionCurrency :=
  if String.eqb value "116" then Ok KHR
  else if String.eqb value "840" then Ok USD
  else Err (IoError InvalidData "Invalid currency code").

(** [TransactionCurrency::write_currency]. *)
Definition write_currency (self : TransactionCurrency) (buffer : string) : io_result string :=
  let code := currency_code self in
  invalid_data (Tag.validate_length Tag.TransactionCurrency code) ;;
  Ok (write_tlv buffer (Tag.code Tag.TransactionCurrency) code).

End Currency.

Module Amount.
Import Currency.

Section WithF32.
Context {F : F32}.

Inductive TransactionAmount : Type :=
| KHR (amount : Z)
| USD (amount : f32).

(** [TransactionAmount::write_amount]: the amount is appended to
    [temp_value], which is validated, wrapped as tag 54 in [value] and
    cleared.  An early return leaves the strings as they are; the caller
    propagates the error and drops them. *)
Definition write_amount (self : TransactionAmount) (temp_value value : string)
  : io_result (string * string) :=
  temp_value <-
    match self with
    | KHR amount =>
        if amount <? 100
        then Err (IoError InvalidData ("KHR amount must be at least 100, got " ++ fmt_u amount))
        else Ok (temp_value ++ fmt_u amount)
    | USD amount =>
        if f32_lt_tenth amount
        then Err (IoError InvalidData ("USD amount must be at least 0.1, got " ++ f32_fmt amount))
        else Ok (temp_value ++ f32_fmt2 amount)
    end ;;
  invalid_data (Tag.validate_length Tag.TransactionAmount temp_value) ;;
  let value := write_tlv value (Tag.code Tag.TransactionAmount) temp_value in
  Ok ("", value).

(** [TransactionAmount::currency_code]. *)
Definition currency_code (self : TransactionAmount) : string :=
  match self with
  | KHR _ => Currency.currency_code Currency.KHR
  | USD _ => Currency.currency_code Currency.USD
  end.

(** [TransactionAmount::write_currency]. *)
Definition write_currency (self : TransactionAmount) (buffer : string) : io_result string :=
  let code := currency_code self in
  invalid_data (Tag.validate_length Tag.TransactionCurrency code) ;;
  Ok (write_tlv buffer (Tag.code Tag.TransactionCurrency) code).

(** [TransactionAmount::from_string]. *)
Definition from_string (currency : TransactionCurrency) (value : string) : io_result TransactionAmount :=
  match currency with
  | Currency.KHR =>
      parsed <- ok_or (parse_u32 value) (IoError InvalidData "Invalid KHR amount") ;;
      if parsed <? 100
      then Err (IoError InvalidData ("KHR amount must be at least 100, got " ++ fmt_u parsed))
      else Ok (KHR parsed)
  | Currency.USD =>
      parsed <- ok_or (f32_parse value) (IoError InvalidData "Invalid USD amount") ;;
      if f32_lt_tenth parsed
      then Err (IoError InvalidData ("USD amount must be at least 0.1, got " ++ f32_fmt parsed))
      else Ok (USD parsed)
  end.

(** [impl Display for TransactionAmount]. *)
Definition display (self : TransactionAmount) : string :=
  match self with
  | KHR amount => fmt_u amount
  | USD amount => f32_fmt2 amount
  end.

End WithF32.

Arguments TransactionAmount : clear implicits.

End Amount.

Module POI.
Import Currency Amount.

Section WithF32.
Context {F : F32}.

Inductive PointOfInitialMethod : Type :=
| Static (currency : TransactionCurrency)
| Dynamic (additional_data_field : option DataField.AdditionalDataField)
          (amount : TransactionAmount F).

(** [PointOfInitialMethod::write_currency]. *)
Definition write_currency (self : PointOfInitialMethod) (buffer : string) : io_result string :=
  match self with
  | Static transaction_currency => Currency.write_currency transaction_currency buffer
  | Dynamic _ amount => Amount.write_currency amount buffer
  end.

(** [PointOfInitialMethod::from_string] at clock reading [now] (the
    [Utc::now()] of [AdditionalDataField::from_string]). *)
Definition from_string (is_static : bool) (currency : TransactionCurrency) (value : string)
    (now : DataField.DateTime) : io_result PointOfInitialMethod :=
  if is_static then
    currency <- Currency.from_string value ;;
    Ok (Static currency)
  else
    amount <- Amount.from_string currency value ;;
    additional_data_field <-
      (if Nat.ltb 0 (String.length value)
       then adf <- DataField.from_string now value ;; Ok (Some adf)
       else Ok None) ;;
    Ok (Dynamic additional_data_field amount).

(** [PointOfInitialMethod::value]. *)
Definition value (self : PointOfInitialMethod) : string :=
  match self with Static _ => "11" | Dynamic _ _ => "12" end.

(** [PointOfInitialMethod::is_static]. *)
Definition is_static (self : PointOfInitialMethod) : bool :=
  match self with Static _ => true | Dynamic _ _ => false end.

(** [PointOfInitialMethod::is_static_from_string]. *)
Definition is_static_from_string (value : string) : option bool :=
  if String.eqb value "11" then Some true
  else if String.eqb value "12" then Some false
  else None.

End WithF32.

Arguments PointOfInitialMethod : clear implicits.

End POI.

(** ** Theorems: currency *)

Import POI.

(** C36: [TransactionCurrency::from_string] accepts exactly the two codes
    [currency_code] renders, and returns the currency they name. *)
Theorem currency_from_string_iff s c :
  Currency.from_string s = Ok c <-> s = Currency.currency_code c.
Proof.
  unfold Currency.from_string.
  destruct (String.eqb_spec s "116") as [->|N1]; [destruct c; cbn; split; congruence|].
  destruct (String.eqb_spec s "840") as [->|N2]; [destruct c; cbn; split; congruence|].
  split; [discriminate|]. destruct c; cbn; intros ->; congruence.
Qed.

Lemma currency_from_code c : Currency.from_string (Currency.currency_code c) = Ok c.
Proof. destruct c; reflexivity. Qed.

Lemma currency_code_valid c : Tag.validate_length Tag.TransactionCurrency (Currency.currency_code c) = Ok tt.
Proof. destruct c; reflexivity. Qed.

(** Writing the currency of a point of initiation, static or dynamic,
    appends tag 53 with the three-digit code of its currency. *)
Lemma poi_write_currency_tlv {F : F32} (p : PointOfInitialMethod F) buffer :
  POI.write_currency p buffer =
  Ok (write_tlv buffer (Tag.code Tag.TransactionCurrency)
       (match p with
        | Static c => Currency.currency_code c
        | Dynamic _ a => Amount.currency_code a
        end)).
Proof.
  destruct p as [c|adf [a|x]]; cbn [POI.write_currency];
    unfold Currency.write_currency, Amount.write_currency, Amount.currency_code;
    rewrite currency_code_valid; reflexivity.
Qed.

(** ** Theorems: amount *)

Lemma fmt_u_u32_length a : 0 <= a <= 2 ^ 32 - 1 -> (String.length (fmt_u a) <= 14)%nat.
Proof. intros H. pose proof (fmt_u_length a 10 ltac:(lia) ltac:(lia)) as L. simpl in L. lia. Qed.

Lemma amount_len_ok v : (String.length v <= 14)%nat ->
  invalid_data (Tag.validate_length Tag.TransactionAmount v) = Ok tt.
Proof.
  intros H. rewrite (proj2 (tag_validate_length_generic Tag.TransactionAmount v ltac:(discriminate)));
    [reflexivity | exact H].
Qed.

(** C33: [write_amount] of a KHR amount (into the empty [temp_value] the
    encoder hands it) rejects amounts below 100 with the message naming
    the amount, and otherwise writes the decimal digits as tag 54 and
    leaves [temp_value] cleared. *)
Theorem khr_write_amount_spec {F : F32} a value :
  0 <= a <= 2 ^ 32 - 1 ->
  Amount.write_amount (Amount.KHR a) "" value =
  if a <? 100
  then Err (IoError InvalidData ("KHR amount must be at least 100, got " ++ fmt_u a))
  else Ok ("", write_tlv value (Tag.code Tag.TransactionAmount) (fmt_u a)).
Proof.
  intros Ha. unfold Amount.write_amount. destruct (a <? 100); [reflexivity|].
  cbn [append]. rewrite amount_len_ok by (apply fmt_u_u32_length; exact Ha). reflexivity.
Qed.

(** C34: [TransactionAmount::from_string] for KHR returns an amount exactly
    when the text parses as a [u32] of at least 100; the amount is then
    within [[100, 2^32 - 1]]. *)
Theorem khr_from_string_spec {F : F32} s amt :
  Amount.from_string Currency.KHR s = Ok amt <->
  exists a, amt = Amount.KHR a /\ parse_u32 s = Some a /\ 100 <= a <= 2 ^ 32 - 1.
Proof.
  cbn [Amount.from_string]. destruct (parse_u32 s) as [a|] eqn:P; cbn [ok_or].
  - apply parse_int_unsigned_range in P. destruct (Z.ltb_spec a 100).
    + split; [discriminate|]. intros (a' & _ & E & R). injection E as <-. lia.
    + split; [intros Hk; injection Hk as <-; eauto with zarith|].
      intros (a' & -> & E & _). now injection E as <-.
  - split; [discriminate|]. intros (a' & _ & E & _). discriminate E.
Qed.

(** C35: the amount an encoder writes for KHR reads back: [from_string]
    of the [Display] text of a KHR amount of at least 100 is that amount. *)
Theorem khr_amount_roundtrip {F : F32} a :
  100 <= a <= 2 ^ 32 - 1 ->
  Amount.from_string Currency.KHR (Amount.display (Amount.KHR a)) = Ok (Amount.KHR a).
Proof.
  intros Ha. cbn [Amount.from_string Amount.display]. unfold parse_u32.
  rewrite parse_int_fmt_u by lia. cbn [ok_or]. now rewrite (proj2 (Z.ltb_ge a 100)) by lia.
Qed.

(** The currency and amount parsers fail only with validation errors. *)
Lemma currency_from_string_err v e : Currency.from_string v = Err e -> decode_error e.
Proof. unfold Currency.from_string. intros H. err_inv; eauto with errkind. Qed.

Lemma amount_from_string_err {F : F32} c v e : Amount.from_string c v = Err e -> decode_error e.
Proof. unfold Amount.from_string, ok_or. intros H. err_inv; eauto with errkind. Qed.

(** ** Theorems: point of initiation *)

(** the value "11"/"12" a point of initiation writes reads back as
    whether it is static. *)
Theorem poi_is_static_roundtrip {F : F32} (p : PointOfInitialMethod F) :
  POI.is_static_from_string (POI.value p) = Some (POI.is_static p).
Proof. destruct p; reflexivity. Qed.

(** C32: the dynamic branch of [PointOfInitialMethod::from_string] parses
    the same text both as the amount and as an [AdditionalDataField]; no
    amount text of two or more digits led by a non-zero digit passes
    both, so it fails on every KHR amount the encoder writes. *)
Theorem poi_dynamic_from_string_fails {F : F32} cur a now :
  10 <= a ->
  exists e, POI.from_string false cur (fmt_u a) now = Err e.
Proof.
  intros Ha. destruct (fmt_u_lead a Ha) as (c1 & c2 & r & E & D & N). rewrite E.
  cbn [POI.from_string]. destruct (Amount.from_string cur _); [|eauto].
  cbn [String.length Nat.ltb Nat.leb].
  destruct (data_field_rejects_lead_digit now c1 c2 r D N) as [e ->]. eauto.
Qed.

(** ** Witnesses (the KHR statements do not depend on the [f32]
    operations; they are evaluated with inert ones) *)

Lemma khr_write_amount_spec_witness :
  let F := {| f32 := unit; f32_parse := fun _ => None; f32_lt_tenth := fun _ => false;
              f32_fmt := fun _ => ""; f32_fmt2 := fun _ => "" |} in
  @Amount.write_amount F (Amount.KHR 5000) "" "5303116" = Ok ("", "530311654045000") /\
  @Amount.write_amount F (Amount.KHR 99) "" "" =
    Err (IoError InvalidData "KHR amount must be at least 100, got 99").
Proof.
  intros F. split.
  - rewrite (khr_write_amount_spec 5000 "5303116") by lia. vm_compute. reflexivity.
  - rewrite (khr_write_amount_spec 99 "") by lia. vm_compute. reflexivity.
Defined.

Lemma khr_amount_roundtrip_witness :
  let F := {| f32 := unit; f32_parse := fun _ => None; f32_lt_tenth := fun _ => false;
              f32_fmt := fun _ => ""; f32_fmt2 := fun _ => "" |} in
  @Amount.from_string F Currency.KHR "100" = Ok (Amount.KHR 100).
Proof. intros F. apply (khr_amount_roundtrip 100). lia. Defined.

Lemma poi_dynamic_from_string_fails_witness :
  let F := {| f32 := unit; f32_parse := fun _ => None; f32_lt_tenth := fun _ => false;
              f32_fmt := fun _ => ""; f32_fmt2 := fun _ => "" |} in
  exists e, @POI.from_string F false Currency.KHR (fmt_u 5000) 0 = Err e.
Proof. intros F. apply (poi_dynamic_from_string_fails Currency.KHR 5000 0). lia. Defined.
