(* ===== verification/Bakong.v ===== *)
(** * The payload: [Bakong::decode_qr] and [Bakong::generate_qr] ([bakong.rs])

    [Section Payload] (under an [F32] and a [CityModel]): the [Bakong]
    record; the locals of [decode_qr] as the record [Locals] with one
    setter per assignment of the loop body; [dispatch] (the body's
    [match tag]); [decode_step] (one iteration: header, bounds, value,
    dispatch, advance); [decode_loop] ([while slice.len() >= 4], with
    fuel); [resolve] (the code after the loop: the initiation and account
    variants); [decode_qr]; [generate_qr], the encoder as explicit
    passing of [qr_code] and [temp_value].

    [MerchantCity] and [CountryCode] are declared in modules that are not
    part of the sources; they are modelled from the specification: the
    class [CityModel] (a city's text, the partial parse back, the default
    [PhnomPenh]) and the constant [country_code]. *)

From Stdlib Require Import String Ascii ZArith List Lia Bool.
From S2P Require Import Prelude RustStr Crc Tags Tlv Accounts Templates Currency.
Import ListNotations.
Open Scope string_scope.
Open Scope Z_scope.

(** [MerchantCity]: its variants, [city()], [from_string] and the
    default [MerchantCity::PhnomPenh]. *)
Class CityModel : Type := {
  MerchantCity : Type;
  city : MerchantCity -> string;
  city_from_string : string -> option MerchantCity;
  PhnomPenh : MerchantCity
}.

(** [CountryCode::KH.code()]. *)
Definition country_code : string := "KH".

#[local] Existing Instances MerchantTypes.MerchantType_TLV DataTemplate.AdditionalDataTemplate_TLV
  DataField.AdditionalDataField_TLV LanguageTemplate.LanguageTemplate_TLV.

Section Payload.
Context {F : F32} {C : CityModel}.

Record Bakong : Type := {
  qr_type : POI.PointOfInitialMethod F;
  merchant_type : MerchantTypes.MerchantType;
  merchant_category_code : option string;
  merchant_name : string;
  merchant_city : option MerchantCity;
  additional_data_template : option DataTemplate.AdditionalDataTemplate;
  unionpay_merchant : option string;
  merchant_information_language_template : option LanguageTemplate.MerchantInformationLanguageTemplate
}.

(** The locals of [decode_qr] the loop assigns. *)
Record Locals : Type := {
  l_is_static : option bool;
  l_currency : option Currency.TransactionCurrency;
  l_amount_raw : option string;
  l_merchant_category_code : option string;
  l_merchant_name : string;
  l_merchant_city : option MerchantCity;
  l_additional_data_template : option DataTemplate.AdditionalDataTemplate;
  l_additional_data_field : option DataField.AdditionalDataField;
  l_unionpay_merchant : option string;
  l_merchant_information_language_template : option LanguageTemplate.MerchantInformationLanguageTemplate;
  l_merchant_type : option MerchantTypes.MerchantType
}.

(** The assignments [x = v;] of the loop body. *)
Definition set_is_static (v : option bool) (l : Locals) : Locals :=
  {| l_is_static := v; l_currency := l_currency l; l_amount_raw := l_amount_raw l;
     l_merchant_category_code := l_merchant_category_code l; l_merchant_name := l_merchant_name l;
     l_merchant_city := l_merchant_city l;
     l_additional_data_template := l_additional_data_template l;
     l_additional_data_field := l_additional_data_field l;
     l_unionpay_merchant := l_unionpay_merchant l;
     l_merchant_information_language_template := l_merchant_information_language_template l;
     l_merchant_type := l_merchant_type l |}.

Definition set_currency (v : option Currency.TransactionCurrency) (l : Locals) : Locals :=
  {| l_is_static := l_is_static l; l_currency := v; l_amount_raw := l_amount_raw l;
     l_merchant_category_code := l_merchant_category_code l; l_merchant_name := l_merchant_name l;
     l_merchant_city := l_merchant_city l;
     l_additional_data_template := l_additional_data_template l;
     l_additional_data_field := l_additional_data_field l;
     l_unionpay_merchant := l_unionpay_merchant l;
     l_merchant_information_language_template := l_merchant_information_language_template l;
     l_merchant_type := l_merchant_type l |}.

Definition set_amount_raw (v : option string) (l : Locals) : Locals :=
  {| l_is_static := l_is_static l; l_currency := l_currency l; l_amount_raw := v;
     l_merchant_category_code := l_merchant_category_code l; l_merchant_name := l_merchant_name l;
     l_merchant_city := l_merchant_city l;
     l_additional_data_template := l_additional_data_template l;
     l_additional_data_field := l_additional_data_field l;
     l_unionpay_merchant := l_unionpay_merchant l;
     l_merchant_information_language_template := l_merchant_information_language_template l;
     l_merchant_type := l_merchant_type l |}.

Definition set_merchant_category_code (v : option string) (l : Locals) : Locals :=
  {| l_is_static := l_is_static l; l_currency := l_currency l; l_amount_raw := l_amount_raw l;
     l_merchant_category_code := v; l_merchant_name := l_merchant_name l;
     l_merchant_city := l_merchant_city l;
     l_additional_data_template := l_additional_data_template l;
     l_additional_data_field := l_additional_data_field l;
     l_unionpay_merchant := l_unionpay_merchant l;
     l_merchant_information_language_template := l_merchant_information_language_template l;
     l_merchant_type := l_merchant_type l |}.

Definition set_merchant_name (v : string) (l : Locals) : Locals :=
  {| l_is_static := l_is_static l; l_currency := l_currency l; l_amount_raw := l_amount_raw l;
     l_merchant_category_code := l_merchant_category_code l; l_merchant_name := v;
     l_merchant_city := l_merchant_city l;
     l_additional_data_template := l_additional_data_template l;
     l_additional_data_field := l_additional_data_field l;
     l_unionpay_merchant := l_unionpay_merchant l;
     l_merchant_information_language_template := l_merchant_information_language_template l;
     l_merchant_type := l_merchant_type l |}.

Definition set_merchant_city (v : option MerchantCity) (l : Locals) : Locals :=
  {| l_is_static := l_is_static l; l_currency := l_currency l; l_amount_raw := l_amount_raw l;
     l_merchant_category_code := l_merchant_category_code l; l_merchant_name := l_merchant_name l;
     l_merchant_city := v; l_additional_data_template := l_additional_data_template l;
     l_additional_data_field := l_additional_data_field l;
     l_unionpay_merchant := l_unionpay_merchant l;
     l_merchant_information_language_template := l_merchant_information_language_template l;
     l_merchant_type := l_merchant_type l |}.

Definition set_additional_data_template (v : option DataTemplate.AdditionalDataTemplate) (l : Locals) : Locals :=
  {| l_is_static := l_is_static l; l_currency := l_currency l; l_amount_raw := l_amount_raw l;
     l_merchant_category_code := l_merchant_category_code l; l_merchant_name := l_merchant_name l;
     l_merchant_city := l_merchant_city l; l_additional_data_template := v;
     l_additional_data_field := l_additional_data_field l;
     l_unionpay_merchant := l_unionpay_merchant l;
     l_merchant_information_language_template := l_merchant_information_language_template l;
     l_merchant_type := l_merchant_type l |}.

Definition set_additional_data_field (v : option DataField.AdditionalDataField) (l : Locals) : Locals :=
  {| l_is_static := l_is_static l; l_currency := l_currency l; l_amount_raw := l_amount_raw l;
     l_merchant_category_code := l_merchant_category_code l; l_merchant_name := l_merchant_name l;
     l_merchant_city := l_merchant_city l;
     l_additional_data_template := l_additional_data_template l; l_additional_data_field := v;
     l_unionpay_merchant := l_unionpay_merchant l;
     l_merchant_information_language_template := l_merchant_information_language_template l;
     l_merchant_type := l_merchant_type l |}.

Definition set_unionpay_merchant (v : option string) (l : Locals) : Locals :=
  {| l_is_static := l_is_static l; l_currency := l_currency l; l_amount_raw := l_amount_raw l;
     l_merchant_category_code := l_merchant_category_code l; l_merchant_name := l_merchant_name l;
     l_merchant_city := l_merchant_city l;
     l_additional_data_template := l_additional_data_template l;
     l_additional_data_field := l_additional_data_field l; l_unionpay_merchant := v;
     l_merchant_information_language_template := l_merchant_information_language_template l;
     l_merchant_type := l_merchant_type l |}.

Definition set_merchant_information_language_template (v : option LanguageTemplate.MerchantInformationLanguageTemplate) (l : Locals) : Locals :=
  {| l_is_static := l_is_static l; l_currency := l_currency l; l_amount_raw := l_amount_raw l;
     l_merchant_category_code := l_merchant_category_code l; l_merchant_name := l_merchant_name l;
     l_merchant_city := l_merchant_city l;
     l_additional_data_template := l_additional_data_template l;
     l_additional_data_field := l_additional_data_field l;
     l_unionpay_merchant := l_unionpay_merchant l; l_merchant_information_language_template := v;
     l_merchant_type := l_merchant_type l |}.

Definition set_merchant_type (v : option MerchantTypes.MerchantType) (l : Locals) : Locals :=
  {| l_is_static := l_is_static l; l_currency := l_currency l; l_amount_raw := l_amount_raw l;
     l_merchant_category_code := l_merchant_category_code l; l_merchant_name := l_merchant_name l;
     l_merchant_city := l_merchant_city l;
     l_additional_data_template := l_additional_data_template l;
     l_additional_data_field := l_additional_data_field l;
     l_unionpay_merchant := l_unionpay_merchant l;
     l_merchant_information_language_template := l_merchant_information_language_template l;
     l_merchant_type := v |}.
(** [let mut .. = None] (and [String::new()]) before the loop. *)
Definition init_locals : Locals :=
  {| l_is_static := None; l_currency := None; l_amount_raw := None;
     l_merchant_category_code := None; l_merchant_name := "";
     l_merchant_city := None; l_additional_data_template := None;
     l_additional_data_field := None; l_unionpay_merchant := None;
     l_merchant_information_language_template := None; l_merchant_type := None |}.

(** The loop body's [match tag], at clock reading [now]. *)
Definition dispatch (now : DataField.DateTime) (tag : Tag.Tags) (value : string) (l : Locals)
  : io_result Locals :=
  match tag with
  | Tag.PointOfInitialMethod => Ok (set_is_static (POI.is_static_from_string value) l)
  | Tag.TransactionCurrency =>
      c <- Currency.from_string value ;; Ok (set_currency (Some c) l)
  | Tag.TransactionAmount => Ok (set_amount_raw (Some value) l)
  | Tag.MerchantName => Ok (set_merchant_name value l)
  | Tag.MerchantCategoryCode => Ok (set_merchant_category_code (Some value) l)
  | Tag.MerchantCity => Ok (set_merchant_city (city_from_string value) l)
  | Tag.AdditionalDataTemplate =>
      d <- DataTemplate.from_string value ;; Ok (set_additional_data_template (Some d) l)
  | Tag.AdditionalDataField =>
      f <- DataField.from_string now value ;; Ok (set_additional_data_field (Some f) l)
  | Tag.UnionPayMerchant => Ok (set_unionpay_merchant (Some value) l)
  | Tag.MerchantInformationLanguageTemplate =>
      t <- LanguageTemplate.from_string value ;;
      Ok (set_merchant_information_language_template (Some t) l)
  | Tag.MerchantAccountInfoIndividual =>
      match l_merchant_type l with
      | Some _ => Err (IoError InvalidData "Multiple merchant account types found (Individual + Merchant)")
      | None =>
          individual <- IndivualInfo.from_string value ;;
          Ok (set_merchant_type (Some (MerchantTypes.Indivual individual)) l)
      end
  | Tag.MerchantAccountInfoMerchant =>
      match l_merchant_type l with
      | Some _ => Err (IoError InvalidData "Multiple merchant account types found (Merchant + Individual)")
      | None =>
          merchant <- MerchantInfo.from_string value ;;
          Ok (set_merchant_type (Some (MerchantTypes.Merchant merchant)) l)
      end
  | _ => Ok l
  end.

(** One iteration of [while slice.len() >= 4]: the remaining slice. *)
Definition decode_step (now : DataField.DateTime) (slice : string) (l : Locals)
  : io_result (Locals * string) :=
  tag_s <- str_slice slice 0 2 ;;
  raw_tag <- ok_or (parse_u8 tag_s) (IoError InvalidData ("Invalid tag code '" ++ tag_s ++ "'")) ;;
  tag <- ok_or (Tag.from_code raw_tag) (IoError InvalidData ("Unknown tag '" ++ fmt_u raw_tag ++ "'")) ;;
  len_s <- str_slice slice 2 4 ;;
  length <- ok_or (parse_usize len_s) (IoError InvalidData ("Invalid length '" ++ len_s ++ "'")) ;;
  let end_ := (4 + Z.to_nat length)%nat in
  if Nat.ltb (String.length slice) end_
  then Err (IoError InvalidData "Declared length exceeds remaining slice") else
  value <- str_slice slice 4 end_ ;;
  l' <- dispatch now tag value l ;;
  rest <- str_slice_from slice end_ ;;
  Ok (l', rest).

(** [while slice.len() >= 4 { .. }] with at most [fuel] iterations. *)
Fixpoint decode_loop (now : DataField.DateTime) (fuel : nat) (slice : string) (l : Locals)
  : io_result Locals :=
  if Nat.ltb (String.length slice) 4 then Ok l else
  match fuel with
  | O => Err OutOfFuel
  | S f => '(l', rest) <- decode_step now slice l ;; decode_loop now f rest l'
  end.

(** The code after the loop: the initiation variant, the account
    variant, the record. *)
Definition resolve (l : Locals) : io_result Bakong :=
  qr_type <-
    match l_is_static l with
    | Some true =>
        currency <- ok_or (l_currency l) (IoError InvalidData "Missing currency for static QR") ;;
        Ok (POI.Static currency)
    | Some false =>
        currency <- ok_or (l_currency l) (IoError InvalidData "Missing currency for dynamic QR") ;;
        amount_value <- ok_or (l_amount_raw l) (IoError InvalidData "Missing amount for dynamic QR") ;;
        amount <- Amount.from_string currency amount_value ;;
        Ok (POI.Dynamic (l_additional_data_field l) amount)
    | None => Ok (POI.Static Currency.KHR)
    end ;;
  merchant_type <- ok_or (l_merchant_type l) (IoError InvalidData "Missing merchant account information") ;;
  Ok {| qr_type := qr_type; merchant_type := merchant_type;
        merchant_category_code := l_merchant_category_code l; merchant_name := l_merchant_name l;
        merchant_city := l_merchant_city l; additional_data_template := l_additional_data_template l;
        unionpay_merchant := l_unionpay_merchant l;
        merchant_information_language_template := l_merchant_information_language_template l |}.

(** [Bakong::decode_qr] at clock reading [now]; the loop's fuel is the
    input length, enough by [decode_qr_terminates] of [Decoder.v]. *)
Definition decode_qr (now : DataField.DateTime) (qr : string) : io_result Bakong :=
  if Nat.ltb 256 (String.length qr)
  then Err (IoError InvalidInput "QR string length exceeds maximum allowed") else
  l <- decode_loop now (String.length qr) qr init_locals ;;
  resolve l.

(** The [validate_length] then [write_tlv!] that [generate_qr] does for
    each plain field. *)
Definition write_tag (qr_code : string) (tag : Tag.Tags) (value : string) : io_result string :=
  invalid_data (Tag.validate_length tag value) ;;
  Ok (write_tlv qr_code (Tag.code tag) value).

(** [Bakong::generate_qr]: [qr_code] and [temp_value] passed explicitly,
    in the order of the code. *)
Definition generate_qr (self : Bakong) : io_result string :=
  let qr_code := "" in
  let temp_value := "" in
  qr_code <- write_tag qr_code Tag.PayloadFormatIndicator "01" ;;
  let poi_value := POI.value (qr_type self) in
  qr_code <- write_tag qr_code Tag.PointOfInitialMethod poi_value ;;
  '(temp_value, qr_code) <- to_tlv (merchant_type self) temp_value qr_code ;;
  qr_code <-
    match merchant_category_code self with
    | Some mcc => write_tag qr_code Tag.MerchantCategoryCode mcc
    | None => Ok qr_code
    end ;;
  qr_code <- POI.write_currency (qr_type self) qr_code ;;
  qr_code <-
    match unionpay_merchant self with
    | Some unionpay => write_tag qr_code Tag.UnionPayMerchant unionpay
    | None => Ok qr_code
    end ;;
  '(dynamic_additional, (temp_value, qr_code)) <-
    match qr_type self with
    | POI.Dynamic additional_data_field amount =>
        r <- Amount.write_amount amount temp_value qr_code ;; Ok (additional_data_field, r)
    | POI.Static _ => Ok (None, (temp_value, qr_code))
    end ;;
  qr_code <- write_tag qr_code Tag.CountryCode country_code ;;
  qr_code <- write_tag qr_code Tag.MerchantName (merchant_name self) ;;
  let merchant_city := match merchant_city self with Some c => c | None => PhnomPenh end in
  qr_code <- write_tag qr_code Tag.MerchantCity (city merchant_city) ;;
  '(temp_value, qr_code) <-
    match additional_data_template self with
    | Some t => to_tlv t temp_value qr_code
    | None => Ok (temp_value, qr_code)
    end ;;
  '(temp_value, qr_code) <-
    match merchant_information_language_template self with
    | Some t => to_tlv t temp_value qr_code
    | None => Ok (temp_value, qr_code)
    end ;;
  '(temp_value, qr_code) <-
    match dynamic_additional with
    | Some a => to_tlv a temp_value qr_code
    | None => Ok (temp_value, qr_code)
    end ;;
  let qr_code := qr_code ++ fmt_02 (Tag.code Tag.Crc) ++ fmt_02 4 in
  let crc := Crc.crc16_ccitt qr_code in
  Ok (qr_code ++ fmt_04X crc).

End Payload.

(** ** Specification helpers *)

Section PayloadSpec.
Context {F : F32} {C : CityModel}.

(** Top-level fragments [code(2) len(2) value], concatenated. *)
Fixpoint emit_top (fs : list (Tag.Tags * string)) : string :=
  match fs with
  | [] => ""
  | (t, v) :: fs' => write_tlv "" (Tag.code t) v ++ emit_top fs'
  end.

Definition opt_top (t : Tag.Tags) (o : option string) : list (Tag.Tags * string) :=
  match o with Some v => [(t, v)] | None => [] end.

Definition poi_currency_code (p : POI.PointOfInitialMethod F) : string :=
  match p with
  | POI.Static c => Currency.currency_code c
  | POI.Dynamic _ a => Amount.currency_code a
  end.

Definition poi_currency (p : POI.PointOfInitialMethod F) : Currency.TransactionCurrency :=
  match p with
  | POI.Static c => c
  | POI.Dynamic _ (Amount.KHR _) => Currency.KHR
  | POI.Dynamic _ (Amount.USD _) => Currency.USD
  end.

Definition dynamic_amount (p : POI.PointOfInitialMethod F) : list (Tag.Tags * string) :=
  match p with
  | POI.Dynamic _ a => [(Tag.TransactionAmount, Amount.display a)]
  | POI.Static _ => []
  end.

Definition dynamic_field (p : POI.PointOfInitialMethod F) : option DataField.AdditionalDataField :=
  match p with POI.Dynamic f _ => f | POI.Static _ => None end.

Definition default_city (b : Bakong) : MerchantCity :=
  match merchant_city b with Some c => c | None => PhnomPenh end.

(** The fragments [generate_qr] writes before the checksum, in its order. *)
Definition top_fields (b : Bakong) : list (Tag.Tags * string) :=
  [(Tag.PayloadFormatIndicator, "01"); (Tag.PointOfInitialMethod, POI.value (qr_type b));
   (MerchantTypes.tag_of (merchant_type b), emit_fields (MerchantTypes.fields_of (merchant_type b)))] ++
  opt_top Tag.MerchantCategoryCode (merchant_category_code b) ++
  [(Tag.TransactionCurrency, poi_currency_code (qr_type b))] ++
  opt_top Tag.UnionPayMerchant (unionpay_merchant b) ++
  dynamic_amount (qr_type b) ++
  [(Tag.CountryCode, country_code); (Tag.MerchantName, merchant_name b);
   (Tag.MerchantCity, city (default_city b))] ++
  opt_top Tag.AdditionalDataTemplate
    (option_map (fun d => emit_fields (DataTemplate.fields d)) (additional_data_template b)) ++
  opt_top Tag.MerchantInformationLanguageTemplate
    (option_map (fun t => emit_fields (LanguageTemplate.fields t))
       (merchant_information_language_template b)) ++
  opt_top Tag.AdditionalDataField
    (option_map (fun f => emit_fields (DataField.fields f)) (dynamic_field (qr_type b))).

(** The checksum trailer: tag 63, length 04, the CRC of all before it. *)
Definition with_crc (payload : string) : string :=
  let p := payload ++ fmt_02 (Tag.code Tag.Crc) ++ fmt_02 4 in
  p ++ fmt_04X (Crc.crc16_ccitt p).

Definition tag_ok (t : Tag.Tags) (v : string) : bool :=
  match Tag.validate_length t v with Ok _ => true | Err _ => false end.

Definition opt_tag_ok (t : Tag.Tags) (o : option string) : bool :=
  match o with Some v => tag_ok t v | None => true end.

Definition amount_ok (a : Amount.TransactionAmount F) : bool :=
  match a with
  | Amount.KHR x => (100 <=? x) && (x <? 2 ^ 32)
  | Amount.USD x => negb (f32_lt_tenth x) && Nat.leb (String.length (f32_fmt2 x)) 14
  end.

Definition timestamps_ok (f : DataField.AdditionalDataField) : bool :=
  SubTag.valid SubTag.CreationTimestamp (fmt_i (DataField.timestamp_millis (DataField.creation_timestamp f))) &&
  SubTag.valid SubTag.ExpirationTimestamp (fmt_i (DataField.timestamp_millis (DataField.expiration_timestamp f))).

(** A payload every check of [generate_qr] passes (the nested templates'
    values also start on a char boundary, as any Rust string does). *)
Definition encodable (b : Bakong) : bool :=
  MerchantTypes.fields_valid (merchant_type b) &&
  opt_tag_ok Tag.MerchantCategoryCode (merchant_category_code b) &&
  opt_tag_ok Tag.UnionPayMerchant (unionpay_merchant b) &&
  match qr_type b with
  | POI.Dynamic f a => amount_ok a && match f with Some f => timestamps_ok f | None => true end
  | POI.Static _ => true
  end &&
  tag_ok Tag.MerchantName (merchant_name b) &&
  tag_ok Tag.MerchantCity (city (default_city b)) &&
  match additional_data_template b with Some d => DataTemplate.fields_ok d | None => true end &&
  match merchant_information_language_template b with
  | Some t => LanguageTemplate.fields_ok t
  | None => true
  end.

(** The checks [write_amount] makes on an amount, written into the
    empty [temp_value] the encoder hands it. *)
Definition amount_writable (a : Amount.TransactionAmount F) : bool :=
  match a with
  | Amount.KHR x => negb (x <? 100) && tag_ok Tag.TransactionAmount (fmt_u x)
  | Amount.USD x => negb (f32_lt_tenth x) && tag_ok Tag.TransactionAmount (f32_fmt2 x)
  end.

(** Every check [generate_qr] makes, in the order it makes them. *)
Definition writable (b : Bakong) : bool :=
  tag_ok Tag.PayloadFormatIndicator "01" &&
  tag_ok Tag.PointOfInitialMethod (POI.value (qr_type b)) &&
  MerchantTypes.fields_valid (merchant_type b) &&
  opt_tag_ok Tag.MerchantCategoryCode (merchant_category_code b) &&
  tag_ok Tag.TransactionCurrency (poi_currency_code (qr_type b)) &&
  opt_tag_ok Tag.UnionPayMerchant (unionpay_merchant b) &&
  match qr_type b with POI.Dynamic _ a => amount_writable a | POI.Static _ => true end &&
  tag_ok Tag.CountryCode country_code &&
  tag_ok Tag.MerchantName (merchant_name b) &&
  tag_ok Tag.MerchantCity (city (default_city b)) &&
  match additional_data_template b with Some d => DataTemplate.lengths_ok d | None => true end &&
  match merchant_information_language_template b with
  | Some t => LanguageTemplate.lengths_ok t
  | None => true
  end &&
  match dynamic_field (qr_type b) with Some f => timestamps_ok f | None => true end.

(** The top-level tags the loop body stores without parsing: a repeated
    one replaces the earlier value. *)
Definition plain_tag (t : Tag.Tags) : bool :=
  match t with
  | Tag.PointOfInitialMethod | Tag.TransactionAmount | Tag.MerchantName
  | Tag.MerchantCategoryCode | Tag.MerchantCity | Tag.UnionPayMerchant => true
  | _ => false
  end.

(** The loop body applied to a list of fragments, in order. *)
Fixpoint dispatch_fields (now : DataField.DateTime) (fs : list (Tag.Tags * string)) (l : Locals)
  : io_result Locals :=
  match fs with
  | [] => Ok l
  | (t, v) :: fs' => l' <- dispatch now t v l ;; dispatch_fields now fs' l'
  end.

(** A fragment the top-level loop reads back: a two-digit length and a
    value that starts on a char boundary. *)
Definition top_ok (f : Tag.Tags * string) : bool :=
  Nat.ltb (String.length (snd f)) 100 && starts_clean (snd f).

(** What [decode_qr] returns for an encoded payload: the payload with
    the city [generate_qr] falls back to made explicit. *)
Definition decoded_form (b : Bakong) : Bakong :=
  {| qr_type := qr_type b; merchant_type := merchant_type b;
     merchant_category_code := merchant_category_code b; merchant_name := merchant_name b;
     merchant_city := Some (default_city b); additional_data_template := additional_data_template b;
     unionpay_merchant := unionpay_merchant b;
     merchant_information_language_template := merchant_information_language_template b |}.

(** Instances at which the theorems are evaluated on concrete payloads:
    amounts in KHR only (the [f32] operations are inert) and cities
    named by their text. *)
Definition khr_only : F32 :=
  {| f32 := unit; f32_parse := fun _ => None; f32_lt_tenth := fun _ => false;
     f32_fmt := fun _ => ""; f32_fmt2 := fun _ => "" |}.

Definition named_cities : CityModel :=
  {| MerchantCity := string; city := fun c => c; city_from_string := fun s => Some s;
     PhnomPenh := "Phnom Penh" |}.

End PayloadSpec.

(** ** Lemmas: the encoder *)


Lemma emit_top_app fs gs : emit_top (fs ++ gs) = emit_top fs ++ emit_top gs.
Proof.
  induction fs as [|[t v] fs IH]; [reflexivity|]. cbn [app emit_top].
  now rewrite IH, string_app_assoc.
Qed.

Lemma write_tag_ok q t v : tag_ok t v = true -> write_tag q t v = Ok (q ++ write_tlv "" (Tag.code t) v).
Proof.
  unfold tag_ok, write_tag. destruct (Tag.validate_length t v) as [[]|]; [|discriminate].
  intros _. cbn [invalid_data map_err]. now rewrite write_tlv_acc.
Qed.

Lemma opt_write_tag q t o :
  opt_tag_ok t o = true ->
  match o with Some v => write_tag q t v | None => Ok q end = Ok (q ++ emit_top (opt_top t o)).
Proof.
  destruct o as [v|]; cbn [opt_tag_ok opt_top emit_top]; intros H.
  - rewrite write_tag_ok by exact H. now rewrite string_app_nil_r.
  - now rewrite string_app_nil_r.
Qed.

(** An optional template written by its [to_tlv] into the empty scratch
    buffer. *)
Lemma opt_to_tlv {A} {T : TLV A} (ok : A -> bool) (tag : Tag.Tags) (f : A -> string) o q :
  (forall x temp buf, ok x = true ->
     to_tlv x temp buf = Ok ("", write_tlv buf (Tag.code tag) (temp ++ f x))) ->
  match o with Some x => ok x | None => true end = true ->
  match o with Some x => to_tlv x "" q | None => Ok ("", q) end =
  Ok ("", q ++ emit_top (opt_top tag (option_map f o))).
Proof.
  intros Hspec Ho. destruct o as [x|]; cbn [option_map opt_top emit_top].
  - rewrite (Hspec x "" q Ho). cbn [append]. now rewrite string_app_nil_r, write_tlv_acc.
  - now rewrite string_app_nil_r.
Qed.

Lemma write_amount_ok {F : F32} (a : Amount.TransactionAmount F) value :
  amount_ok a = true ->
  Amount.write_amount a "" value = Ok ("", value ++ write_tlv "" (Tag.code Tag.TransactionAmount) (Amount.display a)).
Proof.
  destruct a as [x|x]; cbn [amount_ok Amount.display]; intros H; apply andb_true_iff in H as [H1 H2];
    unfold Amount.write_amount.
  - apply Z.leb_le in H1. apply Z.ltb_lt in H2. rewrite (proj2 (Z.ltb_ge x 100)) by lia.
    cbn [append]. rewrite amount_len_ok by (apply fmt_u_u32_length; lia).
    now rewrite write_tlv_acc.
  - apply negb_true_iff in H1. apply Nat.leb_le in H2. rewrite H1.
    cbn [append]. rewrite amount_len_ok by exact H2. now rewrite write_tlv_acc.
Qed.

(** C2: [generate_qr] of a payload that passes its checks writes the
    fragments in the standard's order (payload format, initiation
    method, account, category code, currency, union-pay, amount, country,
    name, city, additional-data template, language template, timestamp
    field), then tag 63 with length 04 and the CRC16-CCITT of everything
    before it as four upper-case hex digits. *)
Theorem generate_qr_spec {F : F32} {C : CityModel} (b : Bakong) :
  encodable b = true -> generate_qr b = Ok (with_crc (emit_top (top_fields b))).
Proof.
  unfold encodable. intros H. repeat rewrite andb_true_iff in H.
  destruct H as [[[[[[[Hmt Hmcc] Hup] Hq] Hn] Hc] Hd] Hl].
  destruct b as [q mt mcc name mc adt up lang].
  unfold generate_qr, with_crc, top_fields, default_city in *.
  cbn [qr_type merchant_type merchant_category_code merchant_name merchant_city
       additional_data_template unionpay_merchant merchant_information_language_template] in *.
  rewrite (write_tag_ok "" Tag.PayloadFormatIndicator "01") by reflexivity. cbv beta iota zeta.
  rewrite write_tag_ok by (destruct q; reflexivity). cbv beta iota zeta.
  unfold to_tlv at 1, MerchantTypes.MerchantType_TLV.
  rewrite (mt_to_tlv_fields mt "" _ Hmt). cbv beta iota zeta. cbn [append].
  rewrite opt_write_tag by exact Hmcc. cbv beta iota zeta.
  rewrite poi_write_currency_tlv. cbv beta iota zeta.
  rewrite opt_write_tag by exact Hup. cbv beta iota zeta.
  destruct q as [cur|adf a]; cbv beta iota zeta;
    [ | apply andb_true_iff in Hq as [Ha Hts]; rewrite write_amount_ok by exact Ha;
        cbv beta iota zeta ];
    rewrite (write_tag_ok _ Tag.CountryCode) by reflexivity; cbv beta iota zeta;
    rewrite (write_tag_ok _ Tag.MerchantName) by exact Hn; cbv beta iota zeta;
    rewrite (write_tag_ok _ Tag.MerchantCity) by exact Hc; cbv beta iota zeta;
    rewrite (opt_to_tlv (T := DataTemplate.AdditionalDataTemplate_TLV) DataTemplate.fields_ok
               Tag.AdditionalDataTemplate (fun d => emit_fields (DataTemplate.fields d)))
      by first [exact Hd | intros ? ? ? Hx; now apply data_template_to_tlv_fields];
    cbv beta iota zeta;
    rewrite (opt_to_tlv (T := LanguageTemplate.LanguageTemplate_TLV) LanguageTemplate.fields_ok
               Tag.MerchantInformationLanguageTemplate (fun t => emit_fields (LanguageTemplate.fields t)))
      by first [exact Hl | intros ? ? ? Hx; now apply lang_to_tlv_fields];
    cbv beta iota zeta.
  - cbn [dynamic_amount dynamic_field poi_currency_code option_map opt_top].
    rewrite !emit_top_app. cbn [emit_top]. norm_tlv. reflexivity.
  - rewrite (opt_to_tlv (T := DataField.AdditionalDataField_TLV) timestamps_ok
               Tag.AdditionalDataField (fun f => emit_fields (DataField.fields f)))
      by first [exact Hts | intros ? ? ? Hx; apply andb_true_iff in Hx as [H1 H2];
                            now apply data_field_to_tlv_fields].
    cbv beta iota zeta.
    cbn [dynamic_amount dynamic_field poi_currency_code option_map].
    rewrite !emit_top_app. cbn [emit_top]. norm_tlv. reflexivity.
Qed.

(** C9: every text [generate_qr] returns, whatever the payload, ends
    with a well-formed checksum field: it is some prefix followed by
    tag 63, length 04 and the four hex digits of the CRC16-CCITT of all
    that precedes them. *)
Theorem generate_qr_trailer {F : F32} {C : CityModel} (b : Bakong) qr :
  generate_qr b = Ok qr -> exists payload, qr = with_crc payload.
Proof.
  unfold generate_qr, with_crc. intros H. cbv zeta in H.
  repeat (res_inv; match goal with
    | H : match ?o with Some _ => _ | None => _ end = Ok _ |- _ => destruct o
    | H : (match ?o with Some _ => _ | None => _ end) = _ |- _ => destruct o
    | H : (let '(_, _) := ?p in _) = _ |- _ => destruct p
    end); res_inv; subst; eexists; reflexivity.
Qed.

(** C20: [generate_qr] of a payload whose account identifier has a valid
    length but not exactly one ['@'] fails with the '@' error: the two
    fields written before the account always pass, and nothing after
    the account is written. *)
Theorem generate_qr_at_count {F : F32} {C : CityModel} (b : Bakong) :
  SubTag.valid SubTag.BakongAccountIdentifier (MerchantTypes.account_id (merchant_type b)) = true ->
  count_char "@" (MerchantTypes.account_id (merchant_type b)) <> 1%nat ->
  generate_qr b = Err (IoError InvalidData MerchantTypes.at_msg).
Proof.
  intros Ha Hat. unfold generate_qr.
  rewrite (write_tag_ok "" Tag.PayloadFormatIndicator "01") by reflexivity. cbv beta iota zeta.
  rewrite write_tag_ok by (destruct (qr_type b); reflexivity). cbv beta iota zeta.
  unfold to_tlv at 1, MerchantTypes.MerchantType_TLV.
  now rewrite to_tlv_at_err by assumption.
Qed.

Lemma tag_ok_valid t v : tag_ok t v = true -> Tag.validate_length t v = Ok tt.
Proof. unfold tag_ok. destruct (Tag.validate_length t v) as [[]|]; congruence. Qed.

(** [write_amount] into the empty [temp_value] succeeds exactly when the
    amount passes its checks, and then hands [temp_value] back cleared. *)
Lemma write_amount_checks {F : F32} (a : Amount.TransactionAmount F) value r :
  Amount.write_amount a "" value = Ok r -> amount_writable a = true /\ fst r = "".
Proof.
  unfold Amount.write_amount, amount_writable, tag_ok. intros H.
  destruct a; cbn [append] in H; ok_inv; subst; (split; [bool_close | reflexivity]).
Qed.

Lemma write_amount_valid {F : F32} (a : Amount.TransactionAmount F) value :
  amount_writable a = true -> exists buf, Amount.write_amount a "" value = Ok ("", buf).
Proof.
  unfold Amount.write_amount, amount_writable. intros H.
  destruct a; bool_split H; cbn [append]; rewrite_facts; rewrite (tag_ok_valid _ _ H0);
    eexists; reflexivity.
Qed.

(** Invert the successful calls of the encoder's components. *)
Ltac component_checks :=
  repeat match goal with
  | E : MerchantTypes.to_tlv _ _ _ = Ok _ |- _ =>
      apply mt_to_tlv_checks in E as [? E]; cbn [fst] in E; subst
  | E : DataTemplate.to_tlv _ _ _ = Ok _ |- _ =>
      apply data_template_to_tlv_checks in E as [? E]; cbn [fst] in E; subst
  | E : LanguageTemplate.to_tlv _ _ _ = Ok _ |- _ =>
      apply lang_to_tlv_checks in E as [? E]; cbn [fst] in E; subst
  | E : DataField.to_tlv _ _ _ = Ok _ |- _ =>
      apply data_field_to_tlv_checks in E as [? E]; cbn [fst] in E; subst
  | E : Amount.write_amount _ "" _ = Ok _ |- _ =>
      apply write_amount_checks in E as [? E]; cbn [fst] in E; subst
  end.

(** Turn the [validate_length] results of an inverted call into its
    [tag_ok] checks. *)
Ltac tag_facts :=
  unfold tag_ok;
  repeat match goal with E : Tag.validate_length ?t ?v = Ok _ |- _ => try rewrite E; clear E end.

(** Rewrite each call of the encoder's components with its success. *)
Ltac component_valid :=
  repeat (cbv beta iota zeta delta [invalid_data map_err]; match goal with
  | E : tag_ok ?t ?v = true |- context [Tag.validate_length ?t ?v] => rewrite (tag_ok_valid t v E)
  | |- context [MerchantTypes.to_tlv ?m ?t ?bf] =>
      destruct (mt_to_tlv_valid m t bf ltac:(first [assumption | bool_close])) as [? ->]
  | |- context [DataTemplate.to_tlv ?m ?t ?bf] =>
      destruct (data_template_to_tlv_valid m t bf ltac:(first [assumption | bool_close])) as [? ->]
  | |- context [LanguageTemplate.to_tlv ?m ?t ?bf] =>
      destruct (lang_to_tlv_valid m t bf ltac:(first [assumption | bool_close])) as [? ->]
  | |- context [DataField.to_tlv ?m ?t ?bf] =>
      destruct (data_field_to_tlv_valid m t bf ltac:(first [assumption | bool_close])) as [? ->]
  | |- context [Amount.write_amount ?m "" ?bf] =>
      destruct (write_amount_valid m bf ltac:(first [assumption | bool_close])) as [? ->]
  | |- context [POI.write_currency ?p ?bf] => rewrite (poi_write_currency_tlv p bf)
  end).

(** C3: [generate_qr] succeeds exactly when the payload passes every
    check it makes ([writable]): its errors are the validation errors
    and nothing else. *)
Theorem generate_qr_ok_iff {F : F32} {C : CityModel} (b : Bakong) :
  (exists qr, generate_qr b = Ok qr) <-> writable b = true.
Proof.
  destruct b as [q mt mcc name mc adt up lang].
  unfold generate_qr, write_tag, writable, opt_tag_ok, to_tlv, MerchantTypes.MerchantType_TLV,
    DataTemplate.AdditionalDataTemplate_TLV, LanguageTemplate.LanguageTemplate_TLV,
    DataField.AdditionalDataField_TLV, poi_currency_code, dynamic_field, default_city, timestamps_ok.
  cbn [qr_type merchant_type merchant_category_code merchant_name merchant_city
       additional_data_template unionpay_merchant merchant_information_language_template].
  split.
  - intros [qr H]. destruct q as [[]|adf [x|x]]; ok_inv; component_checks; tag_facts; bool_close.
  - intros H. bool_split H. destruct q as [[]|[adf|] [x|x]], mcc, up, adt, lang;
      component_valid; eexists; reflexivity.
Qed.

(** ** Witnesses *)

Lemma generate_qr_spec_witness :
  let b : @Bakong khr_only named_cities :=
    {| qr_type := POI.Static Currency.KHR;
       merchant_type := MerchantTypes.Indivual {| IndivualInfo.bakong_account_identifier := "abc@bank.kh";
          IndivualInfo.individual_account_information := Some "x"; IndivualInfo.acquiring_bank := None |};
       merchant_category_code := Some "5999"; merchant_name := "Coffee"; merchant_city := None;
       additional_data_template := Some {| DataTemplate.bill_number := Some "INV-1";
          DataTemplate.store_label := None; DataTemplate.terminal_label := None;
          DataTemplate.mobile_number := None; DataTemplate.purpose_of_transaction := None |};
       unionpay_merchant := None; merchant_information_language_template := None |} in
  generate_qr b = Ok ("00020101021129200011abc@bank.kh0101x5204599953031165802KH5906Coffee"
                      ++ "6010Phnom Penh62090105INV-16304D4EE").
Proof. intros b. rewrite (generate_qr_spec b) by (vm_compute; reflexivity). vm_compute. reflexivity. Defined.

Lemma generate_qr_trailer_witness :
  let b : @Bakong khr_only named_cities :=
    {| qr_type := POI.Static Currency.USD;
       merchant_type := MerchantTypes.Indivual {| IndivualInfo.bakong_account_identifier := "shop@aba";
          IndivualInfo.individual_account_information := None; IndivualInfo.acquiring_bank := None |};
       merchant_category_code := None; merchant_name := "Noodle Bar"; merchant_city := None;
       additional_data_template := None; unionpay_merchant := None;
       merchant_information_language_template := None |} in
  exists payload, generate_qr b = Ok (with_crc payload).
Proof.
  intros b. destruct (generate_qr b) as [qr|] eqn:E; [|discriminate E].
  destruct (generate_qr_trailer b qr E) as [p ->]. exists p. reflexivity.
Defined.

Lemma generate_qr_at_count_witness :
  let b : @Bakong khr_only named_cities :=
    {| qr_type := POI.Static Currency.KHR;
       merchant_type := MerchantTypes.Indivual {| IndivualInfo.bakong_account_identifier := "abc.bank.kh";
          IndivualInfo.individual_account_information := None; IndivualInfo.acquiring_bank := None |};
       merchant_category_code := None; merchant_name := "Coffee"; merchant_city := None;
       additional_data_template := None; unionpay_merchant := None;
       merchant_information_language_template := None |} in
  generate_qr b = Err (IoError InvalidData MerchantTypes.at_msg).
Proof. intros b. apply generate_qr_at_count; [reflexivity | discriminate]. Defined.

