(* ===== verification/Decoder.v ===== *)
(** * Decoding a payload: the top-level loop of [Bakong::decode_qr]

    What the decoder does, proved on the model of [Bakong]: the loop
    over emitted fragments (what [generate_qr] writes reads back);
    invariants of the loop's locals (only individual accounts, only open
    timestamp windows); termination (fuel = input length is enough); the
    kinds of error it returns; the inputs it rejects (unknown top-level
    tag, both account kinds), the ones it panics on (a template value of
    1 to 3 bytes, a length ending inside a character), and what it does
    not check (the CRC, the '@' of the account identifier, the digits of
    a header, the length of containers the encoder writes). *)

From Stdlib Require Import String Ascii ZArith List Lia Bool.
From S2P Require Import Prelude RustStr Crc Tags Tlv Accounts Templates Currency Bakong.
Import ListNotations.
Open Scope string_scope.
Open Scope Z_scope.

#[local] Existing Instances MerchantTypes.MerchantType_TLV DataTemplate.AdditionalDataTemplate_TLV
  DataField.AdditionalDataField_TLV LanguageTemplate.LanguageTemplate_TLV.


(** ** Lemmas: the decoding loop *)

Section DecodeLoop.
Context {F : F32} {C : CityModel}.
Variable now : DataField.DateTime.

Lemma decode_step_shrinks slice l l' rest :
  decode_step now slice l = Ok (l', rest) -> (String.length rest + 4 <= String.length slice)%nat.
Proof.
  unfold decode_step. intros H. res_inv.
  match goal with H : (if Nat.ltb ?a ?b then _ else _) = _ |- _ =>
    destruct (Nat.ltb_spec a b); [discriminate|] end.
  res_inv. subst.
  match goal with H : str_slice_from _ _ = Ok _ |- _ => apply str_slice_from_ok in H end.
  subst. rewrite str_drop_length. lia.
Qed.

Lemma decode_loop_fuel_irrelevant f1 : forall f2 slice l,
  (String.length slice <= f1)%nat -> (String.length slice <= f2)%nat ->
  decode_loop now f1 slice l = decode_loop now f2 slice l.
Proof.
  induction f1 as [|f IH]; intros f2 slice l H1 H2; destruct f2 as [|g]; cbn [decode_loop];
    destruct (Nat.ltb_spec (String.length slice) 4); try reflexivity; try lia.
  destruct (decode_step now slice l) as [[l' rest]|] eqn:E; [|reflexivity].
  apply decode_step_shrinks in E. apply IH; lia.
Qed.

(** One iteration over an emitted fragment: the header parses back and
    the body dispatches on the tag. *)
Lemma decode_step_emit t v rest l :
  top_ok (t, v) = true -> starts_clean rest = true ->
  decode_step now (write_tlv "" (Tag.code t) v ++ rest) l =
  (l' <- dispatch now t v l ;; Ok (l', rest)).
Proof.
  unfold top_ok. cbn [snd]. intros H Hr. apply andb_true_iff in H as [Hl Hc]. apply Nat.ltb_lt in Hl.
  destruct (fragment_slices (Tag.code t) v rest (tag_code_range t) Hl Hc Hr)
    as (S1 & PA & S2 & PB & S3 & S4 & L).
  unfold decode_step. rewrite S1, PA. cbn [ok_or]. rewrite tag_from_code_code. cbn [ok_or].
  rewrite S2, PB. cbn [ok_or]. rewrite Nat2Z.id.
  rewrite (proj2 (Nat.ltb_ge _ _)) by lia. rewrite S3.
  destruct (dispatch now t v l); [|reflexivity]. now rewrite S4.
Qed.

Lemma emit_top_cons_length t v : (4 <= String.length (write_tlv "" (Tag.code t) v))%nat.
Proof.
  rewrite write_tlv_empty, !string_length_app, fmt_02_length by apply tag_code_range.
  destruct (Z.ltb_spec (Z.of_nat (String.length v)) 100).
  - rewrite fmt_02_length by lia. lia.
  - unfold fmt_02, pad_left. pose proof (fmt_u_length (Z.of_nat (String.length v))).
    destruct (fmt_u _) as [|c s] eqn:E; [|cbn; lia].
    exfalso. destruct (fmt_u_head (Z.of_nat (String.length v)) ltac:(lia)) as (c & r & E' & _).
    congruence.
Qed.

Lemma emit_top_clean fs rest :
  starts_clean rest = true -> starts_clean (emit_top fs ++ rest) = true.
Proof.
  destruct fs as [|[t v] fs]; intros Hr; [exact Hr|]. cbn [emit_top].
  rewrite string_app_assoc, write_tlv_empty, !string_app_assoc, starts_clean_app_l.
  - apply digits_starts_clean, fmt_02_digits, tag_code_range.
  - apply fmt_02_nonempty, tag_code_range.
Qed.

(** The loop over emitted fragments followed by [rest] dispatches each
    fragment in order, then goes on with [rest]. *)
Lemma decode_loop_emit fs : forall rest fuel l,
  forallb top_ok fs = true -> starts_clean rest = true ->
  (String.length (emit_top fs ++ rest) <= fuel)%nat ->
  decode_loop now fuel (emit_top fs ++ rest) l =
  (l' <- dispatch_fields now fs l ;; decode_loop now (String.length rest) rest l').
Proof.
  induction fs as [|[t v] fs IH]; intros rest fuel l Hf Hr Hl.
  - apply decode_loop_fuel_irrelevant; [exact Hl | apply le_n].
  - cbn [forallb] in Hf. apply andb_true_iff in Hf as [Ht Hfs].
    pose proof (emit_top_cons_length t v) as L4.
    cbn [emit_top] in *. rewrite string_app_assoc in *. rewrite string_length_app in Hl.
    destruct fuel as [|f]; [lia|]. cbn [decode_loop].
    rewrite (proj2 (Nat.ltb_ge _ _)) by (rewrite string_length_app; lia).
    rewrite decode_step_emit by auto using emit_top_clean.
    cbn [dispatch_fields]. destruct (dispatch now t v l); [|reflexivity].
    apply IH; auto. lia.
Qed.

End DecodeLoop.

(** ** Lemmas: decoding an encoded payload *)

(** The checksum trailer is one more fragment: tag 63, four hex digits. *)
Lemma with_crc_emit p :
  with_crc p =
  p ++ emit_top [(Tag.Crc, fmt_04X (Crc.crc16_ccitt (p ++ fmt_02 (Tag.code Tag.Crc) ++ fmt_02 4)))].
Proof.
  unfold with_crc. cbn [emit_top]. rewrite write_tlv_empty, string_app_nil_r.
  destruct (fmt_04X_ok (Crc.crc16_ccitt (p ++ fmt_02 (Tag.code Tag.Crc) ++ fmt_02 4))) as [L _];
    [pose proof (Crc.crc16_ccitt_range (p ++ fmt_02 (Tag.code Tag.Crc) ++ fmt_02 4)); lia|].
  rewrite L. now rewrite !string_app_assoc.
Qed.

Lemma crc_fragment_ok s : top_ok (Tag.Crc, fmt_04X (Crc.crc16_ccitt s)) = true.
Proof.
  destruct (fmt_04X_ok (Crc.crc16_ccitt s)) as [L A]; [pose proof (Crc.crc16_ccitt_range s); lia|].
  unfold top_ok. cbn [snd]. rewrite L, str_all_ascii_clean by exact A. reflexivity.
Qed.

Section DecodeEncoded.
Context {F : F32} {C : CityModel}.
Variable now : DataField.DateTime.

Lemma dispatch_fields_app fs gs l :
  dispatch_fields now (fs ++ gs) l = (l' <- dispatch_fields now fs l ;; dispatch_fields now gs l').
Proof.
  revert l; induction fs as [|[t v] fs IH]; intros l; cbn [app dispatch_fields]; [reflexivity|].
  destruct (dispatch now t v l); [apply IH | reflexivity].
Qed.

(** Decoding the checksummed fragments: the top-level loop dispatches
    every fragment, the trailer included. *)
Lemma decode_qr_emit fs :
  forallb top_ok fs = true ->
  (String.length (with_crc (emit_top fs)) <= 256)%nat ->
  decode_qr now (with_crc (emit_top fs)) =
  (l <- dispatch_fields now fs init_locals ;; resolve l).
Proof.
  intros Hf Hl. unfold decode_qr. rewrite (proj2 (Nat.ltb_ge _ _)) by exact Hl.
  rewrite with_crc_emit, <- emit_top_app, <- (string_app_nil_r (emit_top _)).
  rewrite decode_loop_emit.
  - rewrite dispatch_fields_app. destruct (dispatch_fields now fs init_locals) as [l|]; [|reflexivity].
    reflexivity.
  - rewrite forallb_app, Hf. cbn [forallb]. now rewrite crc_fragment_ok.
  - reflexivity.
  - apply le_n.
Qed.

End DecodeEncoded.

(** C1: decoding what [generate_qr] writes gives the payload back, with
    the default city made explicit, for a payload [generate_qr] accepts
    whose fragments the decoder can read back: an individual account
    without an acquiring bank, every fragment (containers included)
    shorter than 100 bytes, at most 256 bytes in all, an amount whose
    text parses back to it, a timestamp window of whole milliseconds
    still open at [now], non-empty alternate name and city, and a city
    whose name parses back to it. *)
Theorem decode_generate_roundtrip {F : F32} {C : CityModel} now (b : Bakong) ii :
  encodable b = true ->
  merchant_type b = MerchantTypes.Indivual ii ->
  starts_clean (IndivualInfo.bakong_account_identifier ii) = true ->
  MerchantTypes.opt_clean (IndivualInfo.individual_account_information ii) = true ->
  IndivualInfo.acquiring_bank ii = None ->
  forallb top_ok (top_fields b) = true ->
  (String.length (with_crc (emit_top (top_fields b))) <= 256)%nat ->
  city_from_string (city (default_city b)) = Some (default_city b) ->
  (forall f a, qr_type b = POI.Dynamic f a ->
     Amount.from_string (poi_currency (qr_type b)) (Amount.display a) = Ok a /\
     forall t, f = Some t ->
       DataField.creation_timestamp t mod 1000000 = 0 /\ DataField.expiration_timestamp t mod 1000000 = 0 /\
       DataField.creation_timestamp t <= DataField.expiration_timestamp t /\
       now <= DataField.expiration_timestamp t) ->
  (forall t, merchant_information_language_template b = Some t ->
     LanguageTemplate.merchant_name_alternate_language t <> "" /\
     LanguageTemplate.merchant_city_alternate_language t <> "") ->
  exists qr, generate_qr b = Ok qr /\ decode_qr now qr = Ok (decoded_form b).
Proof.
  intros Henc Hmt Hc Hic Hb Htop Hlen Hcity Hdyn Hlang.
  exists (with_crc (emit_top (top_fields b))). split; [now apply generate_qr_spec|].
  rewrite decode_qr_emit by assumption.
  pose proof Henc as E. unfold encodable in E. repeat rewrite andb_true_iff in E.
  destruct E as [[[[[[[Hfv _] _] Hq] _] _] Hd] Hl].
  assert (Hi : IndivualInfo.from_string (emit_fields (MerchantTypes.indiv_fields ii)) = Ok ii).
  { apply indiv_from_emit; [rewrite <- Hmt; exact Hfv | assumption ..]. }
  destruct b as [q mt mcc name mc adt up lang]; cbn [merchant_type qr_type
    merchant_information_language_template additional_data_template] in *; subst mt.
  unfold top_fields, decoded_form, default_city in *.
  cbn [qr_type merchant_type merchant_category_code merchant_name merchant_city
       additional_data_template unionpay_merchant merchant_information_language_template] in *.
  cbn [MerchantTypes.tag_of MerchantTypes.fields_of].
  clear Henc Htop Hlen.
  assert (Hcur : forall c, Currency.from_string (Currency.currency_code c) = Ok c) by exact currency_from_code.
  destruct q as [cur|adf a];
    [| destruct (Hdyn adf a eq_refl) as [Ha Ht]; clear Hdyn; destruct a as [x|x]; cbn [poi_currency] in Ha;
       destruct adf as [f|];
       try (destruct (Ht f eq_refl) as (Mc & Me & Hce & Hne);
            apply andb_true_iff in Hq as [_ Hts]; unfold timestamps_ok in Hts;
            apply andb_true_iff in Hts as [Ht1 Ht2])].
  all: destruct mcc, up, adt as [d|], lang as [t|];
    cbn [opt_top option_map app dynamic_amount dynamic_field poi_currency_code dispatch_fields
         MerchantTypes.fields_of MerchantTypes.tag_of Amount.currency_code] in *;
    cbn [dispatch].
  all: try (destruct (Hlang t eq_refl) as [Hn1 Hn2]).
  all: rewrite ?Hi, ?Hcur, ?data_template_from_emit, ?lang_from_emit, ?data_field_from_emit by assumption.
  all: rewrite Hcity; cbn [l_merchant_type set_is_static init_locals]; unfold resolve;
    cbn [l_is_static l_currency l_amount_raw l_merchant_category_code l_merchant_name l_merchant_city
         l_additional_data_template l_additional_data_field l_unionpay_merchant
         l_merchant_information_language_template l_merchant_type
         set_is_static set_currency set_amount_raw set_merchant_category_code set_merchant_name
         set_merchant_city set_additional_data_template set_additional_data_field
         set_unionpay_merchant set_merchant_information_language_template set_merchant_type
         init_locals POI.value POI.is_static_from_string String.eqb Ascii.eqb Bool.eqb ok_or].
  all: rewrite ?Ha; reflexivity.
Qed.

(** ** Lemmas: what the decoding loop preserves *)

(** Splits a successful [dispatch] into the assignments it made. *)
Ltac dispatch_inv :=
  repeat match goal with
  | H : match ?x with Ok _ => _ | Err _ => _ end = Ok _ |- _ => destruct x eqn:?; [|discriminate H]
  | H : match ?x with Some _ => _ | None => _ end = Ok _ |- _ => destruct x eqn:?
  | H : Ok _ = Ok _ |- _ => injection H as <-
  | H : Err _ = Ok _ |- _ => discriminate H
  end.

Section LoopInvariant.
Context {F : F32} {C : CityModel}.
Variable now : DataField.DateTime.
Variable P : Locals -> Prop.
Hypothesis dispatch_preserves : forall t v l l', P l -> dispatch now t v l = Ok l' -> P l'.

Lemma decode_step_preserves slice l l' rest :
  P l -> decode_step now slice l = Ok (l', rest) -> P l'.
Proof.
  unfold decode_step. intros Hp H. res_inv.
  match goal with H : (if Nat.ltb ?a ?b then _ else _) = _ |- _ =>
    destruct (Nat.ltb a b); [discriminate|] end.
  res_inv. subst. eauto.
Qed.

Lemma decode_loop_preserves fuel : forall slice l l',
  P l -> decode_loop now fuel slice l = Ok l' -> P l'.
Proof.
  induction fuel as [|f IH]; intros slice l l' Hp H; cbn [decode_loop] in H;
    destruct (Nat.ltb (String.length slice) 4); try (injection H as <-; exact Hp); [discriminate|].
  destruct (decode_step now slice l) as [[l1 rest]|] eqn:E; [|discriminate].
  eapply IH; [eapply decode_step_preserves; eauto | exact H].
Qed.

(** What [decode_qr] returns comes from locals the loop reached. *)
Lemma decode_qr_locals qr b :
  P init_locals -> decode_qr now qr = Ok b -> exists l, P l /\ resolve l = Ok b.
Proof.
  unfold decode_qr. intros Hi H. destruct (Nat.ltb 256 _); [discriminate|].
  destruct (decode_loop now _ qr init_locals) as [l|] eqn:E; [|discriminate].
  exists l. split; [eapply decode_loop_preserves; eauto | exact H].
Qed.

End LoopInvariant.

(** C6: [decode_qr] only ever returns an individual account:
    [MerchantInformation::from_string] never succeeds, so the merchant
    variant is never built. *)
Theorem decode_qr_individual_only {F : F32} {C : CityModel} now qr b :
  decode_qr now qr = Ok b -> exists ii, merchant_type b = MerchantTypes.Indivual ii.
Proof.
  intros H.
  destruct (decode_qr_locals now (fun l => forall m, l_merchant_type l = Some m ->
              exists ii, m = MerchantTypes.Indivual ii)) with (qr := qr) (b := b)
    as (l & Hl & Hr); [| discriminate | exact H |].
  - intros t v l0 l' Hp Hd m Hm. destruct t; cbn [dispatch] in Hd;
      repeat match goal with
      | H : match ?x with Ok _ => _ | Err _ => _ end = Ok _ |- _ => destruct x eqn:?; [|discriminate H]
      | H : match ?x with Some _ => _ | None => _ end = Ok _ |- _ => destruct x eqn:?
      | H : Ok _ = Ok _ |- _ => injection H as <-
      | H : Err _ = Ok _ |- _ => discriminate H
      end; cbn in Hm; eauto.
    + injection Hm as <-. eauto.
    + injection Hm as <-. exfalso. eapply merchant_info_never_decodes; eassumption.
  - unfold resolve in Hr. res_inv. destruct (l_merchant_type l) as [m|]; [|discriminate]. subst.
    cbn. eauto.
Qed.

(** C7: a dynamic payload [decode_qr] returns at clock reading [now]
    carries a timestamp window, if any, that is not reversed and not yet
    over. *)
Theorem decode_qr_window {F : F32} {C : CityModel} now qr b f a :
  decode_qr now qr = Ok b -> qr_type b = POI.Dynamic (Some f) a ->
  DataField.creation_timestamp f <= DataField.expiration_timestamp f /\
  now <= DataField.expiration_timestamp f.
Proof.
  intros H Hq.
  destruct (decode_qr_locals now (fun l => forall f, l_additional_data_field l = Some f ->
              DataField.creation_timestamp f <= DataField.expiration_timestamp f /\
              now <= DataField.expiration_timestamp f)) with (qr := qr) (b := b)
    as (l & Hl & Hr); [| discriminate | exact H |].
  - intros t v l0 l' Hp Hd g Hg. destruct t; cbn [dispatch] in Hd; dispatch_inv; cbn in Hg; eauto.
    injection Hg as <-. eapply data_field_decoded_window; eassumption.
  - unfold resolve in Hr. destruct (l_is_static l) as [[]|]; dispatch_inv; subst; try discriminate.
    cbn in Hq. injection Hq as Hf _. now apply Hl.
Qed.

(** ** Termination: the decoder never runs out of fuel *)

Create HintDb nofuel.
#[export] Hint Resolve scan_all_no_fuel : nofuel.
#[export] Hint Extern 1 (_ <> Err OutOfFuel) => cbv beta; discriminate : nofuel.

(** Proves [e <> Err OutOfFuel] for an [e] built of binds, matches and
    the errors of the code, with the facts of [nofuel] for the calls. *)
Ltac no_fuel :=
  repeat match goal with
  | |- Ok _ <> Err _ => discriminate
  | |- Err (IoError _ _) <> Err OutOfFuel => discriminate
  | |- Err ?e <> Err OutOfFuel =>
      is_var e; let Hc := fresh in intros Hc; injection Hc as ->;
      match goal with E : ?x = Err OutOfFuel |- _ =>
        assert (x <> Err OutOfFuel) by (eauto with nofuel); contradiction end
  | |- match (match ?y with _ => _ end) with _ => _ end <> _ => destruct y eqn:?; cbv beta iota
  | |- match ?x with _ => _ end <> _ => destruct x eqn:?
  | |- _ <> Err OutOfFuel => solve [eauto with nofuel]
  end.

Lemma ok_or_no_fuel {A} (o : option A) k m : ok_or o (IoError k m) <> Err OutOfFuel.
Proof. destruct o; discriminate. Qed.

#[export] Hint Resolve ok_or_no_fuel : nofuel.

Lemma data_field_apply_no_fuel st t v : DataField.apply_sub_tag st t v <> Err OutOfFuel.
Proof. destruct st; destruct t; cbn [DataField.apply_sub_tag]; no_fuel. Qed.

#[export] Hint Resolve data_field_apply_no_fuel : nofuel.

Lemma nested_no_fuel now v :
  DataTemplate.from_string v <> Err OutOfFuel /\ DataField.from_string now v <> Err OutOfFuel /\
  LanguageTemplate.from_string v <> Err OutOfFuel /\ IndivualInfo.from_string v <> Err OutOfFuel /\
  MerchantInfo.from_string v <> Err OutOfFuel.
Proof.
  unfold DataTemplate.from_string, DataField.from_string, LanguageTemplate.from_string,
    IndivualInfo.from_string, MerchantInfo.from_string.
  repeat split; no_fuel.
Qed.

Lemma str_slice_no_fuel s a b : str_slice s a b <> Err OutOfFuel.
Proof. intros E. apply str_slice_err in E. discriminate E. Qed.

Lemma str_slice_from_no_fuel s a : str_slice_from s a <> Err OutOfFuel.
Proof. intros E. apply str_slice_from_err in E. discriminate E. Qed.

Lemma currency_no_fuel v : Currency.from_string v <> Err OutOfFuel.
Proof. unfold Currency.from_string. no_fuel. Qed.

Lemma amount_no_fuel {F : F32} c v : Amount.from_string c v <> Err OutOfFuel.
Proof. destruct c; cbn [Amount.from_string]; no_fuel. Qed.

#[export] Hint Resolve str_slice_no_fuel str_slice_from_no_fuel currency_no_fuel amount_no_fuel : nofuel.

Section Termination.
Context {F : F32} {C : CityModel}.
Variable now : DataField.DateTime.

Lemma dispatch_no_fuel t v l : dispatch now t v l <> Err OutOfFuel.
Proof.
  destruct (nested_no_fuel now v) as (N1 & N2 & N3 & N4 & N5).
  destruct t; cbn [dispatch]; no_fuel.
Qed.

#[local] Hint Resolve dispatch_no_fuel : nofuel.

Lemma decode_step_no_fuel slice l : decode_step now slice l <> Err OutOfFuel.
Proof. unfold decode_step. no_fuel. Qed.

Lemma decode_loop_no_fuel fuel : forall slice l,
  (String.length slice <= fuel)%nat -> decode_loop now fuel slice l <> Err OutOfFuel.
Proof.
  induction fuel as [|f IH]; intros slice l Hl; cbn [decode_loop];
    destruct (Nat.ltb_spec (String.length slice) 4); try discriminate; [lia|].
  destruct (decode_step now slice l) as [[l' rest]|e] eqn:E.
  - apply decode_step_shrinks in E. apply IH. lia.
  - intros Hc. injection Hc as ->. exact (decode_step_no_fuel _ _ E).
Qed.

Lemma resolve_no_fuel l : resolve l <> Err OutOfFuel.
Proof. unfold resolve. destruct (l_is_static l) as [[]|]; cbv beta iota; no_fuel. Qed.

End Termination.

(** ** The kinds of failure of the decoder *)

Section ErrorKinds.
Context {F : F32} {C : CityModel}.
Variable now : DataField.DateTime.

#[local] Hint Resolve indiv_from_string_err merchant_from_string_err data_template_from_string_err
  data_field_from_string_err lang_from_string_err currency_from_string_err amount_from_string_err : errkind.

Lemma dispatch_err t v l e : dispatch now t v l = Err e -> decode_error e.
Proof. intros H. destruct t; cbn [dispatch] in H; err_inv; eauto with errkind. Qed.

#[local] Hint Resolve dispatch_err : errkind.

Lemma decode_step_err slice l e : decode_step now slice l = Err e -> decode_error e.
Proof. unfold decode_step, ok_or. intros H. err_inv; eauto with errkind. Qed.

Lemma decode_loop_err fuel : forall slice l e, decode_loop now fuel slice l = Err e -> decode_error e.
Proof.
  induction fuel as [|f IH]; intros slice l e H; cbn [decode_loop] in H;
    destruct (Nat.ltb (String.length slice) 4); try discriminate H.
  - injection H as <-. auto with errkind.
  - destruct (decode_step now slice l) as [[l' rest]|e'] eqn:E; [eapply IH; eauto|].
    injection H as <-. eapply decode_step_err; eauto.
Qed.

Lemma resolve_err l e : resolve l = Err e -> decode_error e.
Proof. unfold resolve, ok_or. intros H. err_inv; eauto with errkind. Qed.

End ErrorKinds.

(** C5: [decode_qr] terminates on every input: the loop's fuel, the
    input length, is never exhausted, so every result is a payload or an
    error of the code. *)
Theorem decode_qr_terminates {F : F32} {C : CityModel} now qr : decode_qr now qr <> Err OutOfFuel.
Proof.
  unfold decode_qr. destruct (Nat.ltb 256 (String.length qr)); [discriminate|].
  pose proof (decode_loop_no_fuel now _ qr init_locals (le_n _)) as L.
  destruct (decode_loop now _ qr init_locals) as [l|e]; [apply resolve_no_fuel | congruence].
Qed.

(** ** Theorems: what the decoder rejects, and what it does not check *)

Section DecodeFindings.
Context {F : F32} {C : CityModel}.
Variable now : DataField.DateTime.

(** The checksum fragment, whatever its four characters, is skipped. *)
Lemma decode_qr_emit_crc fs h :
  forallb top_ok fs = true -> top_ok (Tag.Crc, h) = true ->
  (String.length (emit_top fs ++ write_tlv "" (Tag.code Tag.Crc) h) <= 256)%nat ->
  decode_qr now (emit_top fs ++ write_tlv "" (Tag.code Tag.Crc) h) =
  (l <- dispatch_fields now fs init_locals ;; resolve l).
Proof.
  intros Hf Hh Hl. unfold decode_qr. rewrite (proj2 (Nat.ltb_ge _ _)) by exact Hl.
  replace (emit_top fs ++ write_tlv "" (Tag.code Tag.Crc) h)
    with (emit_top (fs ++ [(Tag.Crc, h)]) ++ "")
    by (rewrite emit_top_app; cbn [emit_top]; now rewrite !string_app_nil_r).
  rewrite decode_loop_emit.
  - rewrite dispatch_fields_app. destruct (dispatch_fields now fs init_locals); reflexivity.
  - rewrite forallb_app, Hf. cbn [forallb]. now rewrite Hh.
  - reflexivity.
  - rewrite string_app_nil_r, emit_top_app. cbn [emit_top]. now rewrite string_app_nil_r.
Qed.

End DecodeFindings.

Lemma crc_value_ok h :
  String.length h = 4%nat -> str_all (fun c => negb (is_utf8_cont c)) h = true ->
  top_ok (Tag.Crc, h) = true.
Proof. intros L A. unfold top_ok. cbn [snd]. now rewrite L, str_all_ascii_clean. Qed.

(** C16: the decoder fails with [InvalidInput] exactly when the input is
    longer than 256 bytes, before any scanning; every other failure is
    an [InvalidData] error of a validation or a slice panic, never the
    loop running out of fuel. *)
Theorem decode_qr_error_kinds {F : F32} {C : CityModel} now qr e :
  decode_qr now qr = Err e ->
  if Nat.ltb 256 (String.length qr)
  then e = IoError InvalidInput "QR string length exceeds maximum allowed"
  else data_error e \/ e = slice_panic.
Proof.
  unfold decode_qr. destruct (Nat.ltb_spec 256 (String.length qr)) as [Hl|Hl]; intros H.
  - now injection H as <-.
  - destruct (decode_loop now (String.length qr) qr init_locals) as [l|e'] eqn:E.
    + pose proof (resolve_no_fuel l).
      destruct (resolve_err l e H) as [|[|]]; [left | right |]; congruence.
    + injection H as <-. pose proof (decode_loop_no_fuel now _ qr init_locals (le_n _)).
      destruct (decode_loop_err now _ qr init_locals e' E) as [|[|]]; [left | right |]; congruence.
Qed.

(** C10: the decoder never checks the CRC: a payload decodes the same
    whatever four ASCII characters stand in its checksum field, the
    correct checksum [generate_qr] writes among them. *)
Theorem decode_qr_ignores_crc {F : F32} {C : CityModel} now fs h h' :
  forallb top_ok fs = true ->
  String.length h = 4%nat -> str_all (fun c => negb (is_utf8_cont c)) h = true ->
  String.length h' = 4%nat -> str_all (fun c => negb (is_utf8_cont c)) h' = true ->
  (String.length (emit_top fs) + 8 <= 256)%nat ->
  decode_qr now (emit_top fs ++ write_tlv "" (Tag.code Tag.Crc) h) =
  decode_qr now (emit_top fs ++ write_tlv "" (Tag.code Tag.Crc) h').
Proof.
  intros Hf L A L' A' Hl.
  assert (Len : forall k, String.length k = 4%nat ->
            String.length (emit_top fs ++ write_tlv "" (Tag.code Tag.Crc) k) = (String.length (emit_top fs) + 8)%nat).
  { intros k Lk. rewrite write_tlv_empty, !string_length_app, Lk, !fmt_02_length by (cbn; lia). lia. }
  rewrite !decode_qr_emit_crc; auto using crc_value_ok; rewrite Len; auto.
Qed.

(** C8: an unknown top-level tag is an error: the decoder stops with
    "Unknown tag", where the specification says unknown top-level tags
    are skipped. *)
Theorem decode_qr_unknown_tag {F : F32} {C : CityModel} now c v rest :
  0 <= c < 100 -> Tag.from_code c = None ->
  (String.length v < 100)%nat -> starts_clean v = true -> starts_clean rest = true ->
  (String.length (write_tlv "" c v ++ rest) <= 256)%nat ->
  decode_qr now (write_tlv "" c v ++ rest) = Err (IoError InvalidData ("Unknown tag '" ++ fmt_u c ++ "'")).
Proof.
  intros Hc Hn Hv Hcl Hr Hl.
  destruct (fragment_slices c v rest Hc Hv Hcl Hr) as (S1 & PA & _ & _ & _ & _ & L).
  unfold decode_qr. rewrite (proj2 (Nat.ltb_ge _ _)) by exact Hl.
  remember (String.length (write_tlv "" c v ++ rest)) as n eqn:En.
  destruct n as [|n]; [lia|]. cbn [decode_loop].
  rewrite (proj2 (Nat.ltb_ge _ _)) by lia. unfold decode_step.
  rewrite S1, PA. cbn [ok_or]. now rewrite Hn.
Qed.

(** C11: an additional-data template value of one to three bytes makes
    the nested loop slice past its end: [decode_qr] panics (here
    [Err slice_panic]) instead of returning an error. *)
Theorem decode_qr_short_template_panics {F : F32} {C : CityModel} now v rest :
  (1 <= String.length v <= 3)%nat ->
  (String.length v = 1%nat \/ exists t, parse_u8 (str_take 2 v) = Some t) ->
  starts_clean v = true -> starts_clean rest = true ->
  (String.length (write_tlv "" (Tag.code Tag.AdditionalDataTemplate) v ++ rest) <= 256)%nat ->
  decode_qr now (write_tlv "" (Tag.code Tag.AdditionalDataTemplate) v ++ rest) = Err slice_panic.
Proof.
  intros Hv Ht Hcl Hr Hl. unfold decode_qr. rewrite (proj2 (Nat.ltb_ge _ _)) by exact Hl.
  replace (write_tlv "" (Tag.code Tag.AdditionalDataTemplate) v ++ rest)
    with (emit_top [(Tag.AdditionalDataTemplate, v)] ++ rest)
    by (cbn [emit_top]; now rewrite string_app_nil_r).
  rewrite decode_loop_emit.
  - cbn [dispatch_fields dispatch]. unfold DataTemplate.from_string.
    now rewrite scan_all_short_panic.
  - unfold top_ok. cbn [forallb snd]. rewrite Hcl, (proj2 (Nat.ltb_lt _ _)) by lia. reflexivity.
  - exact Hr.
  - apply le_n.
Qed.

(** The loop does nothing on fewer than four bytes, whatever the fuel. *)
Lemma decode_loop_short {F : F32} {C : CityModel} now fuel slice l :
  (String.length slice < 4)%nat -> decode_loop now fuel slice l = Ok l.
Proof. intros H. destruct fuel; cbn [decode_loop]; now rewrite (proj2 (Nat.ltb_lt _ _) H). Qed.

(** C21: the top-level values are never checked against their tag's rule:
    [decode_qr] returns a merchant name of any length below 100, where
    [Tags::validate_length] allows 25, and the payload it returns is one
    [generate_qr] refuses ([writable] fails). *)
Theorem decode_qr_unvalidated_name {F : F32} {C : CityModel} now acct ii v :
  IndivualInfo.from_string acct = Ok ii ->
  forallb top_ok [(Tag.MerchantAccountInfoIndividual, acct); (Tag.MerchantName, v)] = true ->
  (String.length (emit_top [(Tag.MerchantAccountInfoIndividual, acct); (Tag.MerchantName, v)]) <= 256)%nat ->
  exists b, decode_qr now (emit_top [(Tag.MerchantAccountInfoIndividual, acct); (Tag.MerchantName, v)]) = Ok b /\
            merchant_name b = v /\
            ((Tag.max_length Tag.MerchantName < String.length v)%nat -> writable b = false).
Proof.
  intros Hi Hf Hl. unfold decode_qr. rewrite (proj2 (Nat.ltb_ge _ _)) by exact Hl.
  set (fs := [(Tag.MerchantAccountInfoIndividual, acct); (Tag.MerchantName, v)]) in *.
  replace (decode_loop now _ (emit_top fs) init_locals)
    with (decode_loop now (String.length (emit_top fs)) (emit_top fs ++ "") init_locals)
    by now rewrite string_app_nil_r.
  rewrite decode_loop_emit by (auto; rewrite string_app_nil_r; lia). subst fs.
  cbn [dispatch_fields dispatch l_merchant_type init_locals]. rewrite Hi.
  cbn [dispatch_fields dispatch]. rewrite decode_loop_short by (cbn; lia).
  eexists. split; [reflexivity|]. split; [reflexivity|]. intros Hn.
  assert (E : tag_ok Tag.MerchantName v = false).
  { unfold tag_ok. destruct (Tag.validate_length Tag.MerchantName v) as [[]|] eqn:E; [|reflexivity].
    apply tag_validate_length_generic in E; [lia | discriminate]. }
  unfold writable. cbn [merchant_name l_merchant_name set_merchant_name set_merchant_type].
  now rewrite E, ?andb_false_r, ?andb_false_l.
Qed.

(** C13: up to three bytes after the last fragment are ignored: the loop
    [while slice.len() >= 4] stops before them, where the specification
    makes a header of fewer than four bytes an error.  The payload with
    the trailing bytes decodes exactly as the payload without them. *)
Theorem decode_qr_trailing_ignored {F : F32} {C : CityModel} now fs junk :
  forallb top_ok fs = true -> starts_clean junk = true -> (String.length junk < 4)%nat ->
  (String.length (emit_top fs ++ junk) <= 256)%nat ->
  decode_qr now (emit_top fs ++ junk) = decode_qr now (emit_top fs).
Proof.
  intros Hf Hj H4 Hl. pose proof Hl as Hl'. rewrite string_length_app in Hl'.
  unfold decode_qr. rewrite (proj2 (Nat.ltb_ge _ _)) by exact Hl.
  rewrite (proj2 (Nat.ltb_ge _ _)) by lia.
  rewrite <- (string_app_nil_r (emit_top fs)) at 4.
  rewrite !decode_loop_emit by (auto; rewrite ?string_app_nil_r; lia).
  destruct (dispatch_fields now fs init_locals) as [l|]; [|reflexivity].
  now rewrite !decode_loop_short by (cbn; lia).
Qed.

(** C12: a declared length whose end falls inside a multi-byte UTF-8
    character (on a continuation byte) makes [decode_qr] panic on the
    slice [&slice[4..end]] (or on [&slice[2..4]] when the value itself
    starts on a continuation byte) instead of returning an error: an
    input of at most 256 bytes that any caller can send. *)
Theorem decode_qr_split_char_panics {F : F32} {C : CityModel} now c v rest :
  0 <= c < 100 -> Tag.from_code c <> None -> (String.length v < 100)%nat ->
  starts_clean rest = false ->
  (String.length (write_tlv "" c v ++ rest) <= 256)%nat ->
  decode_qr now (write_tlv "" c v ++ rest) = Err slice_panic.
Proof.
  intros Hc Hk Hv Hr Hl.
  assert (Hrn : String.length rest <> 0%nat) by (destruct rest; [discriminate | cbn; lia]).
  unfold decode_qr. rewrite (proj2 (Nat.ltb_ge _ _)) by exact Hl.
  rewrite write_tlv_empty, !string_app_assoc in *. rewrite !string_length_app in *.
  set (L := Z.of_nat (String.length v)).
  assert (LA : String.length (fmt_02 c) = 2%nat) by (apply fmt_02_length; lia).
  assert (LB : String.length (fmt_02 L) = 2%nat) by (apply fmt_02_length; lia).
  assert (NA : fmt_02 c <> EmptyString) by (intros E; rewrite E in LA; discriminate).
  remember (String.length (fmt_02 c) + _)%nat as n eqn:En.
  destruct n as [|n]; [lia|]. cbn [decode_loop].
  rewrite string_length_app in *.
  rewrite (proj2 (Nat.ltb_ge _ _)) by (rewrite !string_length_app; lia). unfold decode_step.
  destruct (starts_clean (v ++ rest)) eqn:Hvr.
  - destruct (fragment_header c L (v ++ rest)) as (S1 & P1 & S2 & P2); [lia | lia | exact Hvr |].
    rewrite S1, P1. cbn [ok_or]. destruct (Tag.from_code c) as [t|]; [|congruence].
    rewrite S2, P2. cbn [ok_or]. subst L. rewrite Nat2Z.id.
    rewrite (proj2 (Nat.ltb_ge _ _)) by (rewrite !string_length_app; lia).
    rewrite <- (string_app_assoc (fmt_02 c)).
    rewrite (str_slice_split (fmt_02 c ++ fmt_02 _) v rest); auto using app_nonempty_l;
      rewrite ?string_length_app; lia.
  - assert (CB : starts_clean (fmt_02 L) = true) by (apply digits_starts_clean, fmt_02_digits; lia).
    rewrite (str_slice_prefix (fmt_02 c)) by (rewrite ?starts_clean_app_l; auto;
      intros E; rewrite E in LB; discriminate).
    rewrite parse_u8_fmt_02 by lia. cbn [ok_or].
    destruct (Tag.from_code c) as [t|]; [|congruence]. cbn [ok_or].
    rewrite (str_slice_split (fmt_02 c) (fmt_02 L) (v ++ rest)); auto; lia.
Qed.

(** A payload of fragments without a checksum: the loop dispatches
    every fragment, then [resolve] runs. *)
Lemma decode_qr_emit_plain {F : F32} {C : CityModel} now fs :
  forallb top_ok fs = true -> (String.length (emit_top fs) <= 256)%nat ->
  decode_qr now (emit_top fs) = (l <- dispatch_fields now fs init_locals ;; resolve l).
Proof.
  intros Hf Hl. unfold decode_qr. rewrite (proj2 (Nat.ltb_ge _ _)) by exact Hl.
  replace (decode_loop now _ (emit_top fs) init_locals)
    with (decode_loop now (String.length (emit_top fs)) (emit_top fs ++ "") init_locals)
    by now rewrite string_app_nil_r.
  rewrite decode_loop_emit by (auto; rewrite string_app_nil_r; lia).
  destruct (dispatch_fields now fs init_locals); [|reflexivity].
  now rewrite decode_loop_short by (cbn; lia).
Qed.

(** A second plain field overwrites the first (the [update_eq] law of
    the setters). *)
Lemma dispatch_plain_twice {F : F32} {C : CityModel} now t v1 v2 l :
  plain_tag t = true -> (l1 <- dispatch now t v1 l ;; dispatch now t v2 l1) = dispatch now t v2 l.
Proof. destruct t; try discriminate; reflexivity. Qed.

(** Only the initiation-method fragment sets [is_static]. *)
Lemma dispatch_keeps_is_static {F : F32} {C : CityModel} now t v l l' :
  Tag.Tags_beq t Tag.PointOfInitialMethod = false -> dispatch now t v l = Ok l' ->
  l_is_static l' = l_is_static l.
Proof. intros Ht H. destruct t; try discriminate Ht; cbn [dispatch] in H; ok_inv; subst; reflexivity. Qed.

Lemma dispatch_fields_keeps_is_static {F : F32} {C : CityModel} now fs : forall l l',
  forallb (fun f => negb (Tag.Tags_beq (fst f) Tag.PointOfInitialMethod)) fs = true ->
  dispatch_fields now fs l = Ok l' -> l_is_static l' = l_is_static l.
Proof.
  induction fs as [|[t v] fs IH]; intros l l' Hp H; cbn [dispatch_fields forallb fst] in *.
  - now injection H as <-.
  - apply andb_true_iff in Hp as [Ht Hp]. apply negb_true_iff in Ht.
    destruct (dispatch now t v l) as [l1|] eqn:E; [|discriminate H].
    rewrite (IH l1 l' Hp H). exact (dispatch_keeps_is_static now t v l l1 Ht E).
Qed.

(** C22: of two consecutive fragments with the same plain tag (initiation
    method, amount, name, category code, city, union-pay) the second
    silently wins: the payload decodes as if the first were absent,
    where the specification reports every failure and allows no
    leniency but unknown top-level tags. *)
Theorem decode_qr_last_plain_wins {F : F32} {C : CityModel} now t v1 v2 fs gs :
  plain_tag t = true ->
  forallb top_ok (fs ++ (t, v1) :: (t, v2) :: gs) = true ->
  (String.length (emit_top (fs ++ (t, v1) :: (t, v2) :: gs)) <= 256)%nat ->
  decode_qr now (emit_top (fs ++ (t, v1) :: (t, v2) :: gs)) =
  decode_qr now (emit_top (fs ++ (t, v2) :: gs)).
Proof.
  intros Hp Hf Hl.
  assert (Hf' : forallb top_ok (fs ++ (t, v2) :: gs) = true).
  { rewrite forallb_app in *. cbn [forallb] in *. bool_split Hf. bool_close. }
  assert (Hl' : (String.length (emit_top (fs ++ (t, v2) :: gs)) <= 256)%nat).
  { rewrite emit_top_app in *. cbn [emit_top] in *. rewrite !string_length_app in *. lia. }
  rewrite !decode_qr_emit_plain by assumption. rewrite !dispatch_fields_app.
  destruct (dispatch_fields now fs init_locals) as [l|]; [|reflexivity].
  cbn [dispatch_fields]. rewrite <- (dispatch_plain_twice now t v1 v2 l Hp).
  destruct (dispatch now t v1 l); reflexivity.
Qed.

(** C23: without an initiation-method fragment the decoder returns a static
    QR in KHR, whatever currency and amount fragments the payload
    carries: the declared currency is dropped without an error. *)
Theorem decode_qr_default_static {F : F32} {C : CityModel} now fs b :
  forallb top_ok fs = true ->
  forallb (fun f => negb (Tag.Tags_beq (fst f) Tag.PointOfInitialMethod)) fs = true ->
  (String.length (emit_top fs) <= 256)%nat ->
  decode_qr now (emit_top fs) = Ok b -> qr_type b = POI.Static Currency.KHR.
Proof.
  intros Hf Hp Hl H. rewrite decode_qr_emit_plain in H by assumption.
  destruct (dispatch_fields now fs init_locals) as [l|] eqn:E; [|discriminate H].
  apply dispatch_fields_keeps_is_static in E; [|exact Hp].
  unfold resolve in H. rewrite E in H. cbn [init_locals l_is_static] in H. ok_inv. subst. reflexivity.
Qed.

(** C15: a payload that carries an individual account and then a merchant
    account is rejected as conflicting. *)
Theorem decode_qr_both_accounts {F : F32} {C : CityModel} now v1 v2 rest ii :
  IndivualInfo.from_string v1 = Ok ii ->
  forallb top_ok [(Tag.MerchantAccountInfoIndividual, v1); (Tag.MerchantAccountInfoMerchant, v2)] = true ->
  starts_clean rest = true ->
  (String.length (emit_top [(Tag.MerchantAccountInfoIndividual, v1);
                            (Tag.MerchantAccountInfoMerchant, v2)] ++ rest) <= 256)%nat ->
  decode_qr now (emit_top [(Tag.MerchantAccountInfoIndividual, v1);
                           (Tag.MerchantAccountInfoMerchant, v2)] ++ rest) =
  Err (IoError InvalidData "Multiple merchant account types found (Merchant + Individual)").
Proof.
  intros Hi Hf Hr Hl. unfold decode_qr. rewrite (proj2 (Nat.ltb_ge _ _)) by exact Hl.
  rewrite decode_loop_emit by auto. cbn [dispatch_fields dispatch]. rewrite Hi. reflexivity.
Qed.

(** C25: A header whose code is ['+'] followed by a digit [d] is read as
    the code ["0d"]: [str::parse::<u8>] accepts a leading sign, so a
    non-numeric code byte is not refused and the step behaves exactly as
    on the zero-padded header. *)
Theorem decode_step_plus_code {C : CityModel} now c rest l :
  is_ascii_digit c = true ->
  decode_step now (String "+" (String c rest)) l = decode_step now (String "0" (String c rest)) l.
Proof.
  intros Hc. unfold decode_step. rewrite !str_slice_code. destruct (starts_clean rest); [|reflexivity].
  destruct (parse_u8_plus c Hc) as (v & P1 & P2). rewrite P1, P2. cbn [ok_or].
  destruct (Tag.from_code v); cbn [ok_or]; [|reflexivity].
  rewrite (str_slice_head "+" "0" _ 2 4) by discriminate.
  destruct (str_slice _ 2 4); [|reflexivity].
  destruct (parse_usize _); cbn [ok_or]; [|reflexivity].
  cbn [String.length]. destruct (Nat.ltb _ _); [reflexivity|].
  rewrite (str_slice_head "+" "0"), (str_slice_from_head "+" "0") by lia. reflexivity.
Qed.

(** ** Payloads the encoder and the decoder disagree on *)

(** C14: A template whose sub-fields pass their checks but come to 100
    bytes or more is written by [to_tlv] with a three-digit length
    ([{:02}] does not truncate), and the decoder's step over that
    fragment reads the first two of those digits as the length: it takes
    [n / 10] bytes as the value and resumes inside the fragment, so the
    payload the encoder writes is not read back. *)
Theorem generate_long_template_misread {C : CityModel} now d buf rest l :
  DataTemplate.fields_ok d = true ->
  (100 <= String.length (emit_fields (DataTemplate.fields d)))%nat ->
  let v := emit_fields (DataTemplate.fields d) in
  let q := write_tlv "" (Tag.code Tag.AdditionalDataTemplate) v ++ rest in
  let k := (String.length v / 10)%nat in
  DataTemplate.to_tlv d "" buf = Ok ("", write_tlv buf (Tag.code Tag.AdditionalDataTemplate) v) /\
  decode_step now q l =
    (value <- str_slice q 4 (4 + k) ;;
     l' <- dispatch now Tag.AdditionalDataTemplate value l ;;
     rest' <- str_slice_from q (4 + k) ;; Ok (l', rest')).
Proof.
  intros Hd Hn v q k. split; [exact (data_template_to_tlv_fields d "" buf Hd)|].
  pose proof (data_template_emit_bound d Hd) as Hb.
  destruct (fmt_02_three_digits (Z.of_nat (String.length v)) ltac:(subst v; lia))
    as (a & b & c & Ef & Da & Db & Dc & Pk).
  assert (Eq : q = "62" ++ String a (String b EmptyString) ++ String c (v ++ rest)).
  { subst q. rewrite write_tlv_empty, Ef. reflexivity. }
  assert (Eq0 : q = "62" ++ String a (String b (String c (v ++ rest)))) by (rewrite Eq; reflexivity).
  unfold decode_step. rewrite Eq0 at 1.
  rewrite (str_slice_prefix "62" _ 2 eq_refl (digit_starts_clean a (String b (String c (v ++ rest))) Da)).
  replace (parse_u8 "62") with (Some 62) by reflexivity. cbn [ok_or].
  replace (Tag.from_code 62) with (Some Tag.AdditionalDataTemplate) by reflexivity. cbn [ok_or].
  replace (str_slice q 2 4) with (Ok (E := Error) (String a (String b EmptyString))) by (rewrite Eq; symmetry;
    apply str_slice_mid; auto using digit_starts_clean; discriminate).
  rewrite Pk. cbn [ok_or].
  replace (Z.to_nat (Z.of_nat (String.length v) / 10)) with k
    by (subst k; change 10 with (Z.of_nat 10); rewrite <- Nat2Z.inj_div, Nat2Z.id; reflexivity).
  rewrite (proj2 (Nat.ltb_ge _ _)); [reflexivity|].
  assert (Hk : (k <= String.length v)%nat) by (subst k; apply Nat.Div0.div_le_upper_bound; lia).
  rewrite Eq, !string_length_app. cbn [String.length]. rewrite string_length_app. lia.
Qed.

(** C24: The decoder accepts an individual account whose identifier has
    a valid length but not exactly one ['@'] (only an empty identifier is
    refused), and [generate_qr] of what it decoded fails with the '@'
    error: the decoder admits payloads the encoder never writes. *)
Theorem decode_accepts_identifier_without_at {F : F32} {C : CityModel} now acct :
  SubTag.valid SubTag.BakongAccountIdentifier acct = true -> acct <> "" -> starts_clean acct = true ->
  count_char "@" acct <> 1%nat ->
  exists b, decode_qr now (emit_top [(Tag.MerchantAccountInfoIndividual,
                                      emit_fields [(SubTag.BakongAccountIdentifier, acct)])]) = Ok b /\
    MerchantTypes.account_id (merchant_type b) = acct /\
    generate_qr b = Err (IoError InvalidData MerchantTypes.at_msg).
Proof.
  intros Ha Hne Hc Hat.
  pose proof (subtag_valid_max_length _ _ Ha) as La. cbn [SubTag.max_length] in La.
  set (ii := {| IndivualInfo.bakong_account_identifier := acct;
                IndivualInfo.individual_account_information := None;
                IndivualInfo.acquiring_bank := None |}).
  assert (Hi : IndivualInfo.from_string (emit_fields [(SubTag.BakongAccountIdentifier, acct)]) = Ok ii)
    by exact (indiv_from_emit_any ii Ha Hne Hc eq_refl eq_refl eq_refl).
  assert (Hv : String.length (emit_fields [(SubTag.BakongAccountIdentifier, acct)]) = (4 + String.length acct)%nat).
  { cbn [emit_fields]. rewrite string_length_app, write_tlv_empty, !string_length_app, !fmt_02_length by
      (cbn; lia). cbn. lia. }
  rewrite decode_qr_emit_plain.
  - cbn [dispatch_fields dispatch init_locals l_merchant_type]. rewrite Hi.
    eexists. split; [reflexivity|]. split; [reflexivity|].
    unfold generate_qr.
    rewrite (write_tag_ok "" Tag.PayloadFormatIndicator "01") by reflexivity. cbv beta iota zeta.
    rewrite write_tag_ok by reflexivity. cbv beta iota zeta.
    unfold to_tlv at 1, MerchantTypes.MerchantType_TLV.
    now rewrite to_tlv_at_err by assumption.
  - cbn [forallb]. unfold top_ok. cbn [snd]. rewrite Hv. apply andb_true_iff. split; [|reflexivity].
    apply andb_true_iff; split; [apply Nat.ltb_lt; lia | reflexivity].
  - cbn [emit_top]. rewrite string_app_nil_r, write_tlv_empty, !string_length_app, Hv, !fmt_02_length by
      (cbn; lia). lia.
Qed.

(** ** Witnesses *)

Lemma decode_step_plus_code_witness :
  is_ascii_digit "1" = true /\
  decode_step (C := named_cities) 0 "+10211" init_locals = decode_step 0 "010211" init_locals /\
  decode_step (C := named_cities) 0 "+10211" init_locals =
    Ok (set_is_static (Some true) init_locals, "").
Proof.
  split; [reflexivity|]. split; [exact (decode_step_plus_code 0 "1" "0211" init_locals eq_refl)|].
  vm_compute. reflexivity.
Defined.

Lemma decode_accepts_identifier_without_at_witness :
  SubTag.valid SubTag.BakongAccountIdentifier "abcbank.kh" = true /\ "abcbank.kh" <> "" /\
  starts_clean "abcbank.kh" = true /\ count_char "@" "abcbank.kh" <> 1%nat /\
  exists b, decode_qr (F := khr_only) (C := named_cities) 0
              (emit_top [(Tag.MerchantAccountInfoIndividual,
                          emit_fields [(SubTag.BakongAccountIdentifier, "abcbank.kh")])]) = Ok b /\
    MerchantTypes.account_id (merchant_type b) = "abcbank.kh" /\
    generate_qr b = Err (IoError InvalidData MerchantTypes.at_msg).
Proof.
  assert (Hne : "abcbank.kh" <> "") by discriminate.
  assert (Hat : count_char "@" "abcbank.kh" <> 1%nat) by discriminate.
  refine (conj eq_refl (conj Hne (conj eq_refl (conj Hat _)))).
  exact (decode_accepts_identifier_without_at 0 "abcbank.kh" eq_refl Hne eq_refl Hat).
Defined.

Lemma generate_long_template_misread_witness :
  let d := {| DataTemplate.bill_number := Some "1234567890123456789012345";
              DataTemplate.store_label := Some "1234567890123456789012345";
              DataTemplate.terminal_label := Some "1234567890123456789012345";
              DataTemplate.mobile_number := Some "1234567890123456789012345";
              DataTemplate.purpose_of_transaction := None |} in
  DataTemplate.fields_ok d = true /\ (100 <= String.length (emit_fields (DataTemplate.fields d)))%nat /\
  decode_step (C := named_cities) 0
    (write_tlv "" (Tag.code Tag.AdditionalDataTemplate) (emit_fields (DataTemplate.fields d))) init_locals =
  (value <- str_slice (write_tlv "" (Tag.code Tag.AdditionalDataTemplate) (emit_fields (DataTemplate.fields d))) 4 15 ;;
   l' <- dispatch 0 Tag.AdditionalDataTemplate value init_locals ;;
   rest' <- str_slice_from (write_tlv "" (Tag.code Tag.AdditionalDataTemplate) (emit_fields (DataTemplate.fields d))) 15 ;;
   Ok (l', rest')).
Proof.
  intros d. assert (Hd : DataTemplate.fields_ok d = true) by reflexivity.
  assert (Hn : (100 <= String.length (emit_fields (DataTemplate.fields d)))%nat) by (vm_compute; lia).
  split; [exact Hd|]. split; [exact Hn|].
  pose proof (proj2 (generate_long_template_misread (C := named_cities) 0 d "" "" init_locals Hd Hn)) as H.
  rewrite string_app_nil_r in H. exact H.
Defined.



Lemma decode_generate_roundtrip_witness :
  let b : @Bakong khr_only named_cities :=
    {| qr_type := POI.Static Currency.KHR;
       merchant_type := MerchantTypes.Indivual {| IndivualInfo.bakong_account_identifier := "abc@bank.kh";
          IndivualInfo.individual_account_information := Some "x"; IndivualInfo.acquiring_bank := None |};
       merchant_category_code := Some "5999"; merchant_name := "Coffee"; merchant_city := None;
       additional_data_template := Some {| DataTemplate.bill_number := Some "INV-1";
          DataTemplate.store_label := None; DataTemplate.terminal_label := None;
          DataTemplate.mobile_number := None; DataTemplate.purpose_of_transaction := None |};
       unionpay_merchant := None; merchant_information_language_template := None |} in
  exists qr, generate_qr b = Ok qr /\ decode_qr 0 qr = Ok (decoded_form b).
Proof.
  intros b.
  refine (decode_generate_roundtrip (F := khr_only) (C := named_cities) 0 b
    {| IndivualInfo.bakong_account_identifier := "abc@bank.kh";
       IndivualInfo.individual_account_information := Some "x"; IndivualInfo.acquiring_bank := None |}
    _ eq_refl eq_refl eq_refl eq_refl _ _ _ _ _).
  - vm_compute. reflexivity.
  - vm_compute. reflexivity.
  - apply Nat.leb_le. vm_compute. reflexivity.
  - vm_compute. reflexivity.
  - intros f a Hq. discriminate Hq.
  - intros t Hl. discriminate Hl.
Defined.

Lemma decode_qr_individual_only_witness :
  exists ii, merchant_type (F := khr_only) (C := named_cities)
    {| qr_type := POI.Static Currency.KHR;
       merchant_type := MerchantTypes.Indivual {| IndivualInfo.bakong_account_identifier := "abc@bank.kh";
          IndivualInfo.individual_account_information := None; IndivualInfo.acquiring_bank := None |};
       merchant_category_code := None; merchant_name := "Coffee"; merchant_city := None;
       additional_data_template := None; unionpay_merchant := None;
       merchant_information_language_template := None |} = MerchantTypes.Indivual ii.
Proof.
  apply (decode_qr_individual_only 0 "29150011abc@bank.kh5906Coffee"). vm_compute. reflexivity.
Defined.

Lemma decode_qr_window_witness :
  1700000000000000000 <= 1700000600000000000 /\ 1700000300000000000 <= 1700000600000000000.
Proof.
  apply (decode_qr_window (F := khr_only) (C := named_cities) 1700000300000000000
    ("00020101021229200011abc@bank.kh0101x5303116540450005802KH5906Coffee6010Phnom Penh"
     ++ "9934001317000000000000113170000060000063047A37")
    {| qr_type := POI.Dynamic (Some {| DataField.creation_timestamp := 1700000000000000000;
                                       DataField.expiration_timestamp := 1700000600000000000 |})
                              (Amount.KHR 5000);
       merchant_type := MerchantTypes.Indivual {| IndivualInfo.bakong_account_identifier := "abc@bank.kh";
          IndivualInfo.individual_account_information := Some "x"; IndivualInfo.acquiring_bank := None |};
       merchant_category_code := None; merchant_name := "Coffee"; merchant_city := Some (@PhnomPenh named_cities);
       additional_data_template := None; unionpay_merchant := None;
       merchant_information_language_template := None |}
    {| DataField.creation_timestamp := 1700000000000000000;
       DataField.expiration_timestamp := 1700000600000000000 |} (Amount.KHR 5000));
    [vm_compute; reflexivity | reflexivity].
Defined.

Lemma decode_qr_ignores_crc_witness :
  let fs := [(Tag.PayloadFormatIndicator, "01"); (Tag.PointOfInitialMethod, "11");
             (Tag.MerchantAccountInfoIndividual, "0011abc@bank.kh"); (Tag.TransactionCurrency, "116")] in
  @decode_qr khr_only named_cities 0 (emit_top fs ++ write_tlv "" (Tag.code Tag.Crc) "0000") =
  @decode_qr khr_only named_cities 0 (emit_top fs ++ write_tlv "" (Tag.code Tag.Crc) "D4EE").
Proof. intros fs. apply decode_qr_ignores_crc; vm_compute; first [reflexivity | lia]. Defined.

Lemma decode_qr_unknown_tag_witness :
  @decode_qr khr_only named_cities 0 (write_tlv "" 16 "ab" ++ "") =
  Err (IoError InvalidData ("Unknown tag '" ++ fmt_u 16 ++ "'")).
Proof. apply decode_qr_unknown_tag; first [lia | reflexivity | vm_compute; lia | vm_compute; reflexivity]. Defined.

Lemma decode_qr_short_template_panics_witness :
  @decode_qr khr_only named_cities 0 (write_tlv "" (Tag.code Tag.AdditionalDataTemplate) "1" ++ "") =
  Err slice_panic.
Proof. apply decode_qr_short_template_panics; first [left; reflexivity | reflexivity | vm_compute; lia | vm_compute; reflexivity]. Defined.

Lemma decode_qr_both_accounts_witness :
  @decode_qr khr_only named_cities 0
    (emit_top [(Tag.MerchantAccountInfoIndividual, "0011abc@bank.kh");
               (Tag.MerchantAccountInfoMerchant, "0103xyz")] ++ "") =
  Err (IoError InvalidData "Multiple merchant account types found (Merchant + Individual)").
Proof.
  apply (decode_qr_both_accounts 0 "0011abc@bank.kh" "0103xyz" ""
    {| IndivualInfo.bakong_account_identifier := "abc@bank.kh";
       IndivualInfo.individual_account_information := None; IndivualInfo.acquiring_bank := None |});
    vm_compute; first [reflexivity | lia].
Defined.

Lemma decode_qr_split_char_panics_witness :
  decode_qr (F := khr_only) (C := named_cities) 0
    (write_tlv "" 59 ("Caf" ++ String (ascii_of_nat 195) "") ++ String (ascii_of_nat 169) "")
  = Err slice_panic.
Proof.
  apply decode_qr_split_char_panics.
  - lia.
  - intros H. vm_compute in H. discriminate H.
  - apply Nat.ltb_lt. vm_compute. reflexivity.
  - vm_compute. reflexivity.
  - apply Nat.leb_le. vm_compute. reflexivity.
Defined.

Lemma decode_qr_trailing_ignored_witness :
  decode_qr (F := khr_only) (C := named_cities) 0
    (emit_top [(Tag.PayloadFormatIndicator, "01"); (Tag.MerchantName, "Coffee")] ++ "xyz") =
  decode_qr (F := khr_only) (C := named_cities) 0
    (emit_top [(Tag.PayloadFormatIndicator, "01"); (Tag.MerchantName, "Coffee")]).
Proof.
  apply decode_qr_trailing_ignored.
  - vm_compute. reflexivity.
  - reflexivity.
  - apply Nat.ltb_lt. reflexivity.
  - apply Nat.leb_le. vm_compute. reflexivity.
Defined.

Lemma decode_qr_unvalidated_name_witness :
  exists b, decode_qr (F := khr_only) (C := named_cities) 0
    (emit_top [(Tag.MerchantAccountInfoIndividual, "0011abc@bank.kh");
               (Tag.MerchantName, "The Riverside Coffee Company Ltd")]) = Ok b /\
    merchant_name b = "The Riverside Coffee Company Ltd" /\
    ((Tag.max_length Tag.MerchantName < String.length "The Riverside Coffee Company Ltd")%nat ->
     writable b = false).
Proof.
  apply (decode_qr_unvalidated_name 0 "0011abc@bank.kh"
    {| IndivualInfo.bakong_account_identifier := "abc@bank.kh";
       IndivualInfo.individual_account_information := None; IndivualInfo.acquiring_bank := None |}).
  - vm_compute. reflexivity.
  - vm_compute. reflexivity.
  - apply Nat.leb_le. vm_compute. reflexivity.
Defined.

Lemma decode_qr_last_plain_wins_witness :
  decode_qr (F := khr_only) (C := named_cities) 0
    (emit_top ([(Tag.PayloadFormatIndicator, "01"); (Tag.MerchantAccountInfoIndividual, "0011abc@bank.kh")]
               ++ (Tag.MerchantName, "Coffee") :: (Tag.MerchantName, "Tea House") :: [])) =
  decode_qr (F := khr_only) (C := named_cities) 0
    (emit_top ([(Tag.PayloadFormatIndicator, "01"); (Tag.MerchantAccountInfoIndividual, "0011abc@bank.kh")]
               ++ (Tag.MerchantName, "Tea House") :: [])).
Proof.
  apply decode_qr_last_plain_wins.
  - reflexivity.
  - vm_compute. reflexivity.
  - apply Nat.leb_le. vm_compute. reflexivity.
Defined.

Lemma decode_qr_default_static_witness :
  exists b, decode_qr (F := khr_only) (C := named_cities) 0
    (emit_top [(Tag.PayloadFormatIndicator, "01"); (Tag.MerchantAccountInfoIndividual, "0011abc@bank.kh");
               (Tag.TransactionCurrency, "840"); (Tag.TransactionAmount, "500")]) = Ok b /\
    qr_type b = POI.Static Currency.KHR.
Proof.
  destruct (decode_qr (F := khr_only) (C := named_cities) 0
    (emit_top [(Tag.PayloadFormatIndicator, "01"); (Tag.MerchantAccountInfoIndividual, "0011abc@bank.kh");
               (Tag.TransactionCurrency, "840"); (Tag.TransactionAmount, "500")])) as [b|e] eqn:E.
  - exists b. split; [reflexivity|].
    apply (decode_qr_default_static 0 [(Tag.PayloadFormatIndicator, "01");
      (Tag.MerchantAccountInfoIndividual, "0011abc@bank.kh"); (Tag.TransactionCurrency, "840");
      (Tag.TransactionAmount, "500")] b); try exact E.
    + vm_compute. reflexivity.
    + vm_compute. reflexivity.
    + apply Nat.leb_le. vm_compute. reflexivity.
  - vm_compute in E. discriminate E.
Defined.

Lemma decode_qr_error_kinds_witness :
  exists e, decode_qr (F := khr_only) (C := named_cities) 0 "00020101021129190010abcbank.kh0101x5303999" = Err e /\
            (data_error e \/ e = slice_panic).
Proof.
  destruct (decode_qr (F := khr_only) (C := named_cities) 0 "00020101021129190010abcbank.kh0101x5303999")
    as [b|e] eqn:E; [vm_compute in E; discriminate E|].
  exists e. split; [reflexivity | exact (decode_qr_error_kinds 0 _ e E)].
Defined.
